(** * Tool-calling orchestration core of the chatbot

    A shallow embedding of [tools/base.py], [tools/registry.py] and the
    turn-processing part of [chatbot/bot.py], followed by the properties
    of the registry, of dispatch and of the transcript.

    Conventions of the embedding:
    - a Python [dict] with string keys is an association list kept in
      insertion order ([PyDict]);
    - code that may raise returns an [outcome]; code that also has side
      effects runs in the monad [Py St], which threads the state [St] and
      keeps the state reached when an exception is raised, as Python does;
    - exceptions are the instances of [Exception] (what [except Exception]
      catches), carrying their class name and the text [str(e)];
    - what the console shows is not part of the model, but a
      [console.print] that renders data of the program as markup can raise,
      and that is: see [console_print]. *)

From Stdlib Require Import String Ascii List ZArith Bool Arith Lia.
Import ListNotations.
Open Scope string_scope.

(** ** Exceptions and outcomes *)

Record exn : Type := Exn { exn_class : string; exn_str : string }.

Inductive outcome (A : Type) : Type :=
| Returned (a : A)
| Raised (e : exn).
Arguments Returned {A} a.
Arguments Raised {A} e.

Definition ValueError (msg : string) : exn := Exn "ValueError" msg.
Definition IndexError (msg : string) : exn := Exn "IndexError" msg.

(** ** State-and-exception monad *)

Definition Py (St A : Type) : Type := St -> outcome A * St.

Definition ret {St A} (a : A) : Py St A := fun s => (Returned a, s).

Definition raise {St A} (e : exn) : Py St A := fun s => (Raised e, s).

Definition bind {St A B} (m : Py St A) (k : A -> Py St B) : Py St B :=
  fun s =>
    match m s with
    | (Returned a, s') => k a s'
    | (Raised e, s') => (Raised e, s')
    end.

(** [try: body / except Exception as e: handler e]. *)
Definition try_except {St A} (body : Py St A) (handler : exn -> Py St A)
  : Py St A :=
  fun s =>
    match body s with
    | (Returned a, s') => (Returned a, s')
    | (Raised e, s') => handler e s'
    end.

Definition lift_outcome {St A} (o : outcome A) : Py St A := fun s => (o, s).

Definition get_state {St} : Py St St := fun s => (Returned s, s).

Definition modify {St} (f : St -> St) : Py St unit :=
  fun s => (Returned tt, f s).

Declare Scope py_scope.
Delimit Scope py_scope with py.
Notation "x <- m ;; k" := (bind m (fun x => k))
  (at level 61, m at next level, right associativity) : py_scope.
Notation "m ;;; k" := (bind m (fun _ => k))
  (at level 61, right associativity) : py_scope.

(** ** Python dictionaries with string keys, in insertion order *)

Module PyDict.

Definition t (V : Type) : Type := list (string * V).

Definition empty {V} : t V := [].

(** [d.get(k)] *)
Fixpoint get {V} (k : string) (d : t V) : option V :=
  match d with
  | [] => None
  | (k', v) :: d' => if String.eqb k' k then Some v else get k d'
  end.

(** [k in d] *)
Fixpoint mem {V} (k : string) (d : t V) : bool :=
  match d with
  | [] => false
  | (k', _) :: d' => if String.eqb k' k then true else mem k d'
  end.

(** [d[k] = v]: an existing key keeps its position, a new key goes last. *)
Fixpoint set {V} (k : string) (v : V) (d : t V) : t V :=
  match d with
  | [] => [(k, v)]
  | (k', v') :: d' =>
      if String.eqb k' k then (k', v) :: d' else (k', v') :: set k v d'
  end.

(** [list(d.keys())] and [list(d.values())] *)
Definition keys {V} (d : t V) : list string := map fst d.
Definition values {V} (d : t V) : list V := map snd d.

End PyDict.

(** Python truthiness of a list and of an optional list. *)
Definition nonempty {A} (l : list A) : bool :=
  match l with [] => false | _ :: _ => true end.

Definition truthy_list {A} (o : option (list A)) : bool :=
  match o with Some l => nonempty l | None => false end.

(** ** JSON values, as [json.loads] builds them *)

#[local] Unset Elimination Schemes.
Inductive json : Type :=
| JNull
| JBool (b : bool)
| JNumber (nonzero : bool) (literal : string)
| JString (s : string)
| JArray (items : list json)
| JObject (members : PyDict.t json).
#[local] Set Elimination Schemes.

(** Truthiness of a JSON value in Python. *)
Definition json_truthy (j : json) : bool :=
  match j with
  | JNull => false
  | JBool b => b
  | JNumber nonzero _ => nonzero
  | JString s => negb (String.eqb s "")
  | JArray items => nonempty items
  | JObject members => nonempty members
  end.

(** The keyword arguments that a call collects in its [kwargs] dictionary. *)
Definition kwargs : Type := PyDict.t json.

(** ** The console

    [console.print] of Rich renders its texts as markup.  The markup that
    the source writes itself is balanced and closes every tag by its name,
    so rendering can only fail at a closing tag that comes with the data
    printed: data that holds no ["[/"] always renders. *)

Fixpoint holds_closing_tag (s : string) : bool :=
  match s with
  | EmptyString => false
  | String _ rest => String.prefix "[/" s || holds_closing_tag rest
  end.

(** ** tools/base.py *)

Record ToolParameter : Type := {
  param_name : string;
  param_type : string;
  param_description : string;
  param_required : bool;
  param_enum : option (list string)
}.

(** One entry of [properties]: [{"type": .., "description": .., "enum"?: ..}];
    [ps_enum = None] when the key is absent. *)
Record property_schema : Type := {
  ps_type : string;
  ps_description : string;
  ps_enum : option (list string)
}.

Record parameters_schema : Type := {
  pschema_type : string;
  pschema_properties : PyDict.t property_schema;
  pschema_required : list string
}.

Record function_schema : Type := {
  fschema_name : string;
  fschema_description : string;
  fschema_parameters : parameters_schema
}.

Record openai_tool : Type := {
  ot_type : string;
  ot_function : function_schema
}.

(** The dictionary [d] built for one parameter in [to_openai_tool]. *)
Definition property_of (p : ToolParameter) : property_schema :=
  {| ps_type := param_type p;
     ps_description := param_description p;
     ps_enum := if truthy_list (param_enum p) then param_enum p else None |}.

(** The loop of [to_openai_tool] over [self.parameters], threading the
    two locals [properties] and [required]. *)
Fixpoint to_openai_tool_loop (params : list ToolParameter)
    (properties : PyDict.t property_schema) (required : list string)
  : PyDict.t property_schema * list string :=
  match params with
  | [] => (properties, required)
  | p :: rest =>
      let properties := PyDict.set (param_name p) (property_of p) properties in
      let required :=
        if param_required p then (required ++ [param_name p])%list else required in
      to_openai_tool_loop rest properties required
  end.

(** ** Messages

    The objects of a model response ([ChatCompletion], its message and its
    tool calls) and the dictionaries of the transcript. *)

Record function_call : Type := {
  fc_name : string;
  fc_arguments : string
}.

(** [tool_call.id], [tool_call.function] *)
Record tool_call : Type := {
  tc_id : string;
  tc_function : function_call
}.

(** [response.choices[i].message] *)
Record ChatCompletionMessage : Type := {
  cm_content : option string;
  cm_tool_calls : option (list tool_call)
}.

Record ChatCompletion : Type := {
  choices : list ChatCompletionMessage
}.

(** [{"id": .., "type": .., "function": {"name": .., "arguments": ..}}] *)
Record tool_call_dict : Type := {
  tcd_id : string;
  tcd_type : string;
  tcd_function : function_call
}.

(** A transcript entry; a key that the dictionary does not have is [None].
    [content] is [None] also for the Python value [None]: every entry has
    the key. *)
Record message : Type := {
  role : string;
  content : option string;
  tool_calls : option (list tool_call_dict);
  tool_call_id : option string;
  name : option string
}.

Definition plain_message (r : string) (c : option string) : message :=
  {| role := r; content := c; tool_calls := None;
     tool_call_id := None; name := None |}.

(** [chatbot/config.py]; [temperature] is kept as its decimal literal. *)
Record Config : Type := {
  api_key : string;
  base_url : option string;
  model : string;
  max_tokens : Z;
  temperature : string;
  system_prompt : string
}.

(** Keyword arguments of [client.chat.completions.create]; an argument
    that the call does not pass is [None], one passed as [None] is
    [Some None]. *)
Record request : Type := {
  req_model : string;
  req_messages : list message;
  req_max_tokens : Z;
  req_temperature : string;
  req_tools : option (option (list openai_tool));
  req_tool_choice : option (option string)
}.

Section Embedding.

(** The outside world that tools and the model client act on. *)
Variable World : Type.

(** What Rich raises, if anything, when a [console.print] with the markup
    [template] of the source renders the data [data], some of which holds a
    closing tag. *)
Variable markup_error : string -> list string -> option exn.

(** The [TypeError] of a call that passes the keyword [key] for a
    parameter that it has also passed by position. *)
Variable duplicate_argument : string -> exn.

(** One [console.print] (or one [format_*] helper): [template] names the
    text of the source, [data] is what the program puts into it.  Rich
    raises for a closing tag that closes nothing; the texts of the source
    close what they open, so the print returns when no datum holds a
    closing tag. *)
Definition console_print (template : string) (data : list string)
  : outcome unit :=
  if existsb holds_closing_tag data
  then match markup_error template data with
       | Some e => Raised e
       | None => Returned tt
       end
  else Returned tt.

(** A tool instance.  [execute] is declared to return [Any]; the tools of
    [tools/available] all return a [str], and results are texts here.  It
    acts on the world and may raise. *)
Record BaseTool : Type := {
  tool_name : string;
  tool_description : string;
  tool_parameters : list ToolParameter;
  tool_execute : kwargs -> Py World string
}.

Definition to_openai_tool (self : BaseTool) : openai_tool :=
  let '(properties, required) :=
    to_openai_tool_loop (tool_parameters self) PyDict.empty [] in
  {| ot_type := "function";
     ot_function :=
       {| fschema_name := tool_name self;
          fschema_description := tool_description self;
          fschema_parameters :=
            {| pschema_type := "object";
               pschema_properties := properties;
               pschema_required := required |} |} |}.

(** ** tools/registry.py *)

Record ToolRegistry : Type := {
  _tools : PyDict.t BaseTool;
  _tool_errors : list string
}.

(** [ToolRegistry()] *)
Definition new_registry : ToolRegistry :=
  {| _tools := PyDict.empty; _tool_errors := [] |}.

(** What [register] may be handed: a [BaseTool] instance or anything else. *)
Inductive py_object : Type :=
| ToolObj (tool : BaseTool)
| OtherObj.

(** [self._tools[tool.name] = tool] *)
Definition store_tool (t : BaseTool) (self : ToolRegistry) : ToolRegistry :=
  {| _tools := PyDict.set (tool_name t) t (_tools self);
     _tool_errors := _tool_errors self |}.

(** [self._tool_errors.append(error_msg)] *)
Definition store_error (error_msg : string) (self : ToolRegistry)
  : ToolRegistry :=
  {| _tools := _tools self;
     _tool_errors := (_tool_errors self ++ [error_msg])%list |}.

(** The [try] block of [register]. *)
Definition register_try (tool : py_object) : Py ToolRegistry unit :=
  match tool with
  | OtherObj => raise (ValueError "Tool must inherit from BaseTool")
  | ToolObj t =>
      if String.eqb (tool_name t) ""
      then raise (ValueError "Tool must have a valid name")
      else
        (self <- get_state ;;
         (if PyDict.mem (tool_name t) (_tools self)
          then lift_outcome
                 (console_print
                    "[yellow]⚠️[/yellow] Tool '{tool.name}' already registered, overwriting"
                    [tool_name t])
          else ret tt) ;;;
         modify (store_tool t) ;;;
         lift_outcome
           (console_print "[green]✓[/green] Registered tool: {tool.name}"
              [tool_name t]))%py
  end.

Definition register (tool : py_object) : Py ToolRegistry unit :=
  try_except (register_try tool)
    (fun e =>
       let error_msg := "Failed to register tool: " ++ exn_str e in
       (modify (store_error error_msg) ;;;
        lift_outcome (console_print "[red]✗[/red] {error_msg}" [error_msg]))%py).

Definition get_tool (self : ToolRegistry) (name : string)
  : outcome BaseTool :=
  match PyDict.get name (_tools self) with
  | None =>
      let available_tools := String.concat ", " (PyDict.keys (_tools self)) in
      Raised (ValueError ("Tool '" ++ name ++ "' not found. Available tools: "
                          ++ available_tools))
  | Some tool => Returned tool
  end.

Definition list_tools (self : ToolRegistry) : list string :=
  PyDict.keys (_tools self).

(** [to_openai_tool] cannot fail on a [BaseTool] of this model, so the
    [except] branch of the loop of [get_openai_tools] is never taken. *)
Definition get_openai_tools (self : ToolRegistry) : list openai_tool :=
  map to_openai_tool (PyDict.values (_tools self)).

(** The two lists that [execute_tool] builds to validate a call. *)
Definition required_params (tool : BaseTool) : list string :=
  map param_name (filter param_required (tool_parameters tool)).

Definition missing_params (tool : BaseTool) (kw : kwargs) : list string :=
  filter (fun param => negb (PyDict.mem param kw)) (required_params tool).

(** The [try] block of [execute_tool]. *)
Definition execute_tool_try (self : ToolRegistry) (name : string)
    (kw : kwargs) : Py World string :=
  (tool <- lift_outcome (get_tool self name) ;;
   if nonempty (missing_params tool kw)
   then raise (ValueError ("Missing required parameters: "
                           ++ String.concat ", " (missing_params tool kw)))
   else tool_execute tool kw)%py.

(** The first keyword that cannot be bound because [execute_tool] has a
    positional parameter of that name. *)
Definition clashing_key (kw : kwargs) : option string :=
  find (fun key => String.eqb key "self" || String.eqb key "name")
       (PyDict.keys kw).

(** The line that the handler of [execute_tool] prints. *)
Definition execution_error (name : string) (e : exn) : string :=
  "Error executing tool '" ++ name ++ "': " ++ exn_str e.

(** The call [execute_tool(name, **kw)]: the keywords are bound first,
    which fails for a key [self] or [name]; then the body runs. *)
Definition execute_tool (self : ToolRegistry) (name : string)
    (kw : kwargs) : Py World string :=
  match clashing_key kw with
  | Some key => raise (duplicate_argument key)
  | None =>
      try_except (execute_tool_try self name kw)
        (fun e =>
           (lift_outcome
              (console_print "[red]✗[/red] {error_msg}"
                 [execution_error name e]) ;;;
            ret ("Error: " ++ exn_str e))%py)
  end.

Record registry_stats : Type := {
  total_tools : nat;
  tool_names : list string;
  errors : nat;
  error_messages : list string
}.

Definition get_registry_stats (self : ToolRegistry) : registry_stats :=
  {| total_tools := List.length (_tools self);
     tool_names := PyDict.keys (_tools self);
     errors := List.length (_tool_errors self);
     error_messages := _tool_errors self |}.

(** *** Discovery

    The plugin source as [auto_discover_tools] sees it: the files that
    [p.glob] yields, each with its name, what [f.stat().st_size] gives, and
    what importing it and listing its attributes with [dir] and [getattr]
    gives. *)

Inductive module_attr : Type :=
| BaseToolClass                                 (* [BaseTool] itself *)
| ToolSubclass (instantiate : outcome BaseTool) (* a subclass; [attr()] *)
| OtherAttr.                                    (* anything else *)

Record plugin_file : Type := {
  file_name : string;
  st_size : outcome nat;
  import_module : outcome (list (string * module_attr))
}.

(** The two locals that the summary of [auto_discover_tools] prints. *)
Record discovery_summary : Type := {
  tools_found : nat;
  discovery_errors : list string
}.

(** Discovery runs on the registry and on its two locals, which keep what
    they have received when an exception passes from one handler to the
    next. *)
Definition discovery_state : Type := (ToolRegistry * discovery_summary)%type.

Definition on_registry {A} (m : Py ToolRegistry A) : Py discovery_state A :=
  fun s => (fst (m (fst s)), (snd (m (fst s)), snd s)).

(** [tools_found += 1] *)
Definition count_tool : Py discovery_state unit :=
  modify (fun s =>
    (fst s, {| tools_found := tools_found (snd s) + 1;
               discovery_errors := discovery_errors (snd s) |})).

(** [errors.append(error_msg)] and the print that follows it. *)
Definition report_error (error_msg : string) : Py discovery_state unit :=
  (modify (fun s =>
     (fst s, {| tools_found := tools_found (snd s);
                discovery_errors :=
                  (discovery_errors (snd s) ++ [error_msg])%list |})) ;;;
   lift_outcome (console_print "[red]✗[/red] {error_msg}" [error_msg]))%py.

(** One attribute of a module. *)
Definition discover_attr (f_name attr_name : string) (attr : module_attr)
  : Py discovery_state unit :=
  match attr with
  | ToolSubclass instantiate =>
      try_except
        (tool <- lift_outcome instantiate ;;
         on_registry (register (ToolObj tool)) ;;;
         count_tool)%py
        (fun e =>
           report_error ("Failed to register " ++ attr_name ++ " from "
                         ++ f_name ++ ": " ++ exn_str e))
  | _ => ret tt
  end.

(** The loop over [dir(mod)]. *)
Fixpoint discover_attrs (f_name : string)
    (attrs : list (string * module_attr)) : Py discovery_state unit :=
  match attrs with
  | [] => ret tt
  | (attr_name, attr) :: rest =>
      (discover_attr f_name attr_name attr ;;;
       discover_attrs f_name rest)%py
  end.

(** The outer [try] of the loop over the files. *)
Definition discover_file (f : plugin_file) : Py discovery_state unit :=
  try_except
    (attrs <- lift_outcome (import_module f) ;;
     discover_attrs (file_name f) attrs)%py
    (fun e =>
       report_error ("Error loading module " ++ file_name f ++ ": "
                     ++ exn_str e)).

(** The loop over the files.  [f.stat()] is outside the [try].  The
    warning for an empty file prints the name of the file, which holds no
    [/] and so no closing tag. *)
Fixpoint discover_files (files : list plugin_file)
  : Py discovery_state unit :=
  match files with
  | [] => ret tt
  | f :: rest =>
      if String.prefix "__" (file_name f) then discover_files rest
      else
        (size <- lift_outcome (st_size f) ;;
         if Nat.eqb size 0 then discover_files rest
         else (discover_file f ;;; discover_files rest))%py
  end.

(** [tools_dir] is [None] when the directory does not exist.  The method
    returns nothing; the summary it prints is returned here. *)
Definition auto_discover_tools (tools_dir : option (list plugin_file))
  : Py ToolRegistry discovery_summary :=
  fun self =>
    let start := {| tools_found := 0; discovery_errors := [] |} in
    match tools_dir with
    | None => (Returned start, self)
    | Some files =>
        match discover_files files (self, start) with
        | (Returned _, s) => (Returned (snd s), fst s)
        | (Raised e, s) => (Raised e, fst s)
        end
    end.

(** ** chatbot/bot.py *)

(** [json.loads] of the standard library. *)
Variable json_loads : string -> outcome json.

(** [client.chat.completions.create] of the model client. *)
Variable create : request -> Py World ChatCompletion.

(** The error that the interpreter raises when [function_args] is not a
    mapping: for [.items()] of a truthy value, for [**] of a falsy one. *)
Variable interp_error : json -> exn.

(** [str] of a JSON value. *)
Variable py_str : json -> string.

Record ChatBot : Type := {
  config : Config;
  tool_registry : ToolRegistry;
  conversation_history : list message;
  message_count : nat
}.

(** [ChatBot(config)] *)
Definition new_chatbot (cfg : Config) : ChatBot :=
  {| config := cfg;
     tool_registry := new_registry;
     conversation_history := [plain_message "system" (Some (system_prompt cfg))];
     message_count := 0 |}.

(** The state that a turn runs on: the chatbot object and the world. *)
Definition machine : Type := (ChatBot * World)%type.

Definition on_world {A} (m : Py World A) : Py machine A :=
  fun s => (fst (m (snd s)), (fst s, snd (m (snd s)))).

Definition on_self (f : ChatBot -> ChatBot) : Py machine unit :=
  modify (fun s => (f (fst s), snd s)).

(** [self.conversation_history.append(m)] and [.extend(ms)] *)
Definition history_extend (ms : list message) (self : ChatBot) : ChatBot :=
  {| config := config self;
     tool_registry := tool_registry self;
     conversation_history := (conversation_history self ++ ms)%list;
     message_count := message_count self |}.

Definition history_append (m : message) : ChatBot -> ChatBot :=
  history_extend [m].

(** [format_tool_call] of [utils/formatting.py]: [.items()] fails on a
    truthy value that is not a mapping; the table shows the name of the
    tool, the keys and [str] of the values. *)
Definition format_tool_call (function_name : string) (args : json)
  : outcome unit :=
  match args with
  | JObject members =>
      console_print "🔧 Calling tool: {name}"
        (function_name
         :: flat_map (fun kv => [fst kv; py_str (snd kv)]) members)
  | _ =>
      if json_truthy args then Raised (interp_error args)
      else console_print "🔧 Calling tool: {name}" [function_name]
  end.

(** [format_tool_result] of [utils/formatting.py] *)
Definition format_tool_result (function_name result : string)
  : outcome unit :=
  console_print "[bold magenta]Tool result: {name}[/bold magenta]"
    [function_name; result].

(** Passing [function_args] as keyword arguments needs a mapping. *)
Definition as_kwargs (function_args : json) : outcome kwargs :=
  match function_args with
  | JObject members => Returned members
  | _ => Raised (interp_error function_args)
  end.

Definition tool_call_message (tc : tool_call) : message :=
  {| role := "assistant";
     content := None;
     tool_calls :=
       Some [ {| tcd_id := tc_id tc;
                 tcd_type := "function";
                 tcd_function :=
                   {| fc_name := fc_name (tc_function tc);
                      fc_arguments := fc_arguments (tc_function tc) |} |} ];
     tool_call_id := None;
     name := None |}.

Definition tool_result_message (tc : tool_call) (text : string) : message :=
  {| role := "tool";
     content := Some text;
     tool_calls := None;
     tool_call_id := Some (tc_id tc);
     name := Some (fc_name (tc_function tc)) |}.

(** The [try] block of one iteration of the loop of [_handle_tool_calls]. *)
Definition handle_tool_call_try (tc : tool_call) (tool_results : list message)
  : Py machine (list message) :=
  let function_name := fc_name (tc_function tc) in
  (function_args <-
     lift_outcome (json_loads (fc_arguments (tc_function tc))) ;;
   lift_outcome (format_tool_call function_name function_args) ;;;
   kw <- lift_outcome (as_kwargs function_args) ;;
   s <- get_state ;;
   result <-
     on_world (execute_tool (tool_registry (fst s)) function_name kw) ;;
   lift_outcome (format_tool_result function_name result) ;;;
   on_self (history_append (tool_call_message tc)) ;;;
   ret (tool_results ++ [tool_result_message tc result])%list)%py.

(** One iteration of the loop of [_handle_tool_calls]. *)
Definition handle_tool_call (tc : tool_call) (tool_results : list message)
  : Py machine (list message) :=
  try_except (handle_tool_call_try tc tool_results)
    (fun e =>
       (lift_outcome
          (console_print "[red]Error executing tool: {e}[/red]" [exn_str e]) ;;;
        ret (tool_results
             ++ [tool_result_message tc ("Error: " ++ exn_str e)])%list)%py).

Fixpoint handle_tool_calls_loop (tcs : list tool_call)
    (tool_results : list message) : Py machine (list message) :=
  match tcs with
  | [] => ret tool_results
  | tc :: rest =>
      (tool_results' <- handle_tool_call tc tool_results ;;
       handle_tool_calls_loop rest tool_results')%py
  end.

Definition _handle_tool_calls (tcs : list tool_call)
  : Py machine (list message) :=
  handle_tool_calls_loop tcs [].

(** [response.choices[0].message] *)
Definition first_message (response : ChatCompletion)
  : outcome ChatCompletionMessage :=
  match choices response with
  | [] => Raised (IndexError "list index out of range")
  | m :: _ => Returned m
  end.

(** The first call of a turn, with the tool schemas when there are any. *)
Definition first_request (self : ChatBot) : request :=
  let tools := get_openai_tools (tool_registry self) in
  {| req_model := model (config self);
     req_messages := conversation_history self;
     req_max_tokens := max_tokens (config self);
     req_temperature := temperature (config self);
     req_tools := Some (if nonempty tools then Some tools else None);
     req_tool_choice := Some (if nonempty tools then Some "auto" else None) |}.

(** The call after the tool results, without tool schemas. *)
Definition final_request (self : ChatBot) : request :=
  {| req_model := model (config self);
     req_messages := conversation_history self;
     req_max_tokens := max_tokens (config self);
     req_temperature := temperature (config self);
     req_tools := None;
     req_tool_choice := None |}.

(** [create(...)] followed by [response.choices[0].message]. *)
Definition model_call (req : request) : Py World ChatCompletionMessage :=
  (response <- create req ;; lift_outcome (first_message response))%py.

(** [assistant_message.content or "I don't have a response for that."] *)
Definition content_or_placeholder (c : option string) : string :=
  match c with
  | None => "I don't have a response for that."
  | Some s => if String.eqb s "" then "I don't have a response for that." else s
  end.

(** [assistant_message.tool_calls], where it is truthy. *)
Definition requested_calls (assistant_message : ChatCompletionMessage)
  : list tool_call :=
  match cm_tool_calls assistant_message with
  | Some tcs => tcs
  | None => []
  end.

(** The [try] block of [chat]. *)
Definition chat_try : Py machine string :=
  (s <- get_state ;;
   assistant_message <- on_world (model_call (first_request (fst s))) ;;
   assistant_message <-
     (if truthy_list (cm_tool_calls assistant_message)
      then
        tool_results <-
          _handle_tool_calls (requested_calls assistant_message) ;;
        on_self (history_extend tool_results) ;;;
        s <- get_state ;;
        on_world (model_call (final_request (fst s)))
      else ret assistant_message) ;;
   on_self (history_append
              (plain_message "assistant" (cm_content assistant_message))) ;;;
   ret (content_or_placeholder (cm_content assistant_message)))%py.

(** [self.message_count += 1] *)
Definition count_message (self : ChatBot) : ChatBot :=
  {| config := config self;
     tool_registry := tool_registry self;
     conversation_history := conversation_history self;
     message_count := message_count self + 1 |}.

(** The line that the handler of [chat] prints. *)
Definition communication_error (e : exn) : string :=
  "Error communicating with AI: " ++ exn_str e.

Definition chat (message : string) : Py machine string :=
  (on_self count_message ;;;
   on_self (history_append (plain_message "user" (Some message))) ;;;
   try_except chat_try
     (fun e =>
        lift_outcome
          (console_print "[red]Error: {error_msg}[/red]"
             [communication_error e]) ;;;
        ret ("Sorry, I encountered an error: " ++ exn_str e)))%py.

Definition clear_history (self : ChatBot) : ChatBot :=
  {| config := config self;
     tool_registry := tool_registry self;
     conversation_history :=
       [plain_message "system" (Some (system_prompt (config self)))];
     message_count := 0 |}.

(** A method of the registry, called on the registry of the chatbot. *)
Definition on_tool_registry {A} (m : Py ToolRegistry A) : Py ChatBot A :=
  fun self =>
    (fst (m (tool_registry self)),
     {| config := config self;
        tool_registry := snd (m (tool_registry self));
        conversation_history := conversation_history self;
        message_count := message_count self |}).

(** A method of the chatbot that does not act on the world. *)
Definition on_bot {A} (m : Py ChatBot A) : Py machine A :=
  fun s => (fst (m (fst s)), (snd (m (fst s)), snd s)).

(** [ChatBot.auto_discover_tools] *)
Definition bot_auto_discover_tools (tools_dir : option (list plugin_file))
  : Py ChatBot unit :=
  try_except
    (on_tool_registry (auto_discover_tools tools_dir) ;;; ret tt)%py
    (fun e =>
       lift_outcome
         (console_print "[yellow]Tool discovery warning: {e}[/yellow]"
            [exn_str e])).

(** [self.tool_registry = ToolRegistry()] *)
Definition fresh_registry (self : ChatBot) : ChatBot :=
  {| config := config self;
     tool_registry := new_registry;
     conversation_history := conversation_history self;
     message_count := message_count self |}.

Definition reset_chatbot (tools_dir : option (list plugin_file))
  : Py ChatBot unit :=
  (modify clear_history ;;;
   modify fresh_registry ;;;
   bot_auto_discover_tools tools_dir)%py.

(** Successive calls of [chat], one for each of [inputs], by a caller
    that goes on whatever their outcome. *)
Fixpoint chat_turns (inputs : list string) (s : machine) : machine :=
  match inputs with
  | [] => s
  | message :: rest => chat_turns rest (snd (chat message s))
  end.

End Embedding.

Arguments tool_name {World} _.
Arguments tool_description {World} _.
Arguments tool_parameters {World} _.
Arguments tool_execute {World} _ _ _.
Arguments to_openai_tool {World} self.
Arguments _tools {World} _.
Arguments _tool_errors {World} _.
Arguments new_registry {World}.
Arguments ToolObj {World} tool.
Arguments OtherObj {World}.
Arguments store_tool {World} t self.
Arguments store_error {World} error_msg self.
Arguments register_try {World} markup_error tool _.
Arguments register {World} markup_error tool _.
Arguments get_tool {World} self name.
Arguments list_tools {World} self.
Arguments get_openai_tools {World} self.
Arguments required_params {World} tool.
Arguments missing_params {World} tool kw.
Arguments execute_tool_try {World} self name kw _.
Arguments execute_tool {World} markup_error duplicate_argument self name kw _.
Arguments get_registry_stats {World} self.
Arguments BaseToolClass {World}.
Arguments ToolSubclass {World} instantiate.
Arguments OtherAttr {World}.
Arguments file_name {World} _.
Arguments st_size {World} _.
Arguments import_module {World} _.
Arguments on_registry {World A} m _.
Arguments count_tool {World} _.
Arguments report_error {World} markup_error error_msg _.
Arguments discover_attr {World} markup_error f_name attr_name attr _.
Arguments discover_attrs {World} markup_error f_name attrs _.
Arguments discover_file {World} markup_error f _.
Arguments discover_files {World} markup_error files _.
Arguments auto_discover_tools {World} markup_error tools_dir _.
Arguments config {World} _.
Arguments tool_registry {World} _.
Arguments conversation_history {World} _.
Arguments message_count {World} _.
Arguments new_chatbot {World} cfg.
Arguments on_world {World A} m _.
Arguments on_self {World} f _.
Arguments history_extend {World} ms self.
Arguments history_append {World} m _.
Arguments handle_tool_call_try {World} markup_error duplicate_argument
  json_loads interp_error py_str tc tool_results _.
Arguments handle_tool_call {World} markup_error duplicate_argument
  json_loads interp_error py_str tc tool_results _.
Arguments handle_tool_calls_loop {World} markup_error duplicate_argument
  json_loads interp_error py_str tcs tool_results _.
Arguments _handle_tool_calls {World} markup_error duplicate_argument
  json_loads interp_error py_str tcs _.
Arguments first_request {World} self.
Arguments final_request {World} self.
Arguments model_call {World} create req _.
Arguments count_message {World} self.
Arguments chat_try {World} markup_error duplicate_argument json_loads create
  interp_error py_str _.
Arguments chat {World} markup_error duplicate_argument json_loads create
  interp_error py_str message _.
Arguments clear_history {World} self.
Arguments on_tool_registry {World A} m _.
Arguments on_bot {World A} m _.
Arguments bot_auto_discover_tools {World} markup_error tools_dir _.
Arguments fresh_registry {World} self.
Arguments reset_chatbot {World} markup_error tools_dir _.
Arguments chat_turns {World} markup_error duplicate_argument json_loads create
  interp_error py_str inputs s.

(** ** A scripted world

    Stand-ins for the console, the model client, [json.loads] and some
    tools, to run the embedding on concrete inputs.  The world holds the
    responses that the model client will give, in order, and a log of the
    tools that ran. *)

Module Sim.

Record world : Type := {
  script : list (outcome ChatCompletion);
  executed : list string
}.

(** Rich on the texts of this file: of the closing tags, only [[/x]]
    occurs in their data, and it never has a tag to close.  The message
    stands for that of Rich, which also gives the position of the tag. *)
Definition markup_error (template : string) (data : list string)
  : option exn :=
  Some (Exn "MarkupError" "closing tag '[/x]' doesn't match any open tag").

Definition duplicate_argument (key : string) : exn :=
  Exn "TypeError"
    ("ToolRegistry.execute_tool() got multiple values for argument '"
     ++ key ++ "'").

(** Agrees with [str] on the strings, the values used here. *)
Definition py_str (j : json) : string :=
  match j with JString s => s | _ => "" end.

Definition create (req : request) : Py world ChatCompletion :=
  fun w =>
    match script w with
    | [] => (Raised (Exn "APIConnectionError" "Connection error."), w)
    | r :: rest => (r, {| script := rest; executed := executed w |})
    end.

Definition dquote : string :=
  String (Ascii.Ascii false true false false false true false false)
    EmptyString.

(** The payload [{"expression": "<e>"}]. *)
Definition expression_payload (e : string) : string :=
  "{" ++ dquote ++ "expression" ++ dquote ++ ": " ++ dquote ++ e ++ dquote
  ++ "}".

(** Agrees with [json.loads] on the payloads used in this file. *)
Definition json_loads (s : string) : outcome json :=
  if String.eqb s "{}" then Returned (JObject [])
  else if String.eqb s "[]" then Returned (JArray [])
  else if String.eqb s (expression_payload "2+2")
  then Returned (JObject [("expression", JString "2+2")])
  else if String.eqb s (expression_payload "3*3")
  then Returned (JObject [("expression", JString "3*3")])
  else Raised (Exn "JSONDecodeError"
                 "Expecting value: line 1 column 1 (char 0)").

Definition interp_error (j : json) : exn :=
  Exn "TypeError" "argument after ** must be a mapping".

Definition log (entry : string) (w : world) : world :=
  {| script := script w; executed := (executed w ++ [entry])%list |}.

(** A stand-in for [CalculatorTool]: its name, description and parameters,
    and its answers to the two expressions used in this file. *)
Definition calculator : BaseTool world :=
  {| tool_name := "calculator";
     tool_description :=
       "Perform mathematical calculations including basic arithmetic, trigonometry, and more.";
     tool_parameters :=
       [ {| param_name := "expression";
            param_type := "string";
            param_description :=
              "The mathematical expression to evaluate (e.g., '2 + 3 * 4', 'sin(45)', 'sqrt(16)')";
            param_required := true;
            param_enum := None |} ];
     tool_execute := fun kw w =>
       match PyDict.get "expression" kw with
       | Some (JString e) =>
           if String.eqb e "2+2" then (Returned "Result: 4", log "calculator" w)
           else if String.eqb e "3*3"
           then (Returned "Result: 9", log "calculator" w)
           else (Returned "Result: ?", log "calculator" w)
       | _ => (Raised (Exn "TypeError" "unsupported operand"),
               log "calculator" w)
       end |}.

(** A tool with two required parameters whose [execute] always raises. *)
Definition copier : BaseTool world :=
  {| tool_name := "copier";
     tool_description := "Copy a file.";
     tool_parameters :=
       [ {| param_name := "source"; param_type := "string";
            param_description := "File to copy"; param_required := true;
            param_enum := None |};
         {| param_name := "target"; param_type := "string";
            param_description := "Where to copy it"; param_required := true;
            param_enum := None |};
         {| param_name := "mode"; param_type := "string";
            param_description := "How to copy"; param_required := false;
            param_enum := Some ["text"; "binary"] |} ];
     tool_execute := fun kw w =>
       (Raised (Exn "OSError" "disk full"), log "copier" w) |}.

(** Another tool under the name of the calculator. *)
Definition abacus : BaseTool world :=
  {| tool_name := "calculator";
     tool_description := "Count on beads.";
     tool_parameters := [];
     tool_execute := fun kw w => (Returned "Result: beads", log "abacus" w) |}.



Definition cfg : Config :=
  {| api_key := "sk-test";
     base_url := None;
     model := "gpt-4o-mini";
     max_tokens := 1000;
     temperature := "0.7";
     system_prompt := "You are a helpful assistant." |}.

(** A registry holding the calculator. *)
Definition registry : ToolRegistry world :=
  snd (register markup_error (ToolObj calculator) new_registry).

(** A registry holding the calculator and the copier. *)
Definition registry2 : ToolRegistry world :=
  snd (register markup_error (ToolObj copier) registry).

Definition idle : world := {| script := []; executed := [] |}.

Definition dispatch (reg : ToolRegistry world) (name : string) (kw : kwargs)
    (w : world) : outcome string * world :=
  execute_tool markup_error duplicate_argument reg name kw w.

Definition bot : ChatBot world :=
  {| config := cfg;
     tool_registry := registry;
     conversation_history := [plain_message "system" (Some (system_prompt cfg))];
     message_count := 0 |}.

Definition call (id e : string) : tool_call :=
  {| tc_id := id;
     tc_function :=
       {| fc_name := "calculator"; fc_arguments := expression_payload e |} |}.

Definition answers (c : option string) (tcs : option (list tool_call))
  : outcome ChatCompletion :=
  Returned {| choices := [ {| cm_content := c; cm_tool_calls := tcs |} ] |}.

(** A response that requests two calculations at once. *)
Definition two_calls : outcome ChatCompletion :=
  answers None (Some [call "c1" "2+2"; call "c2" "3*3"]).

(** A call whose arguments are not JSON. *)
Definition garbled_call : tool_call :=
  {| tc_id := "c9";
     tc_function := {| fc_name := "calculator"; fc_arguments := "oops" |} |}.

(** A call to a tool that is not registered. *)
Definition teleport_call : tool_call :=
  {| tc_id := "c7";
     tc_function := {| fc_name := "teleport"; fc_arguments := "{}" |} |}.

Definition handle (tc : tool_call) (tool_results : list message)
    (s : ChatBot world * world)
  : outcome (list message) * (ChatBot world * world) :=
  handle_tool_call markup_error duplicate_argument json_loads interp_error
    py_str tc tool_results s.

Definition handle_all (tcs : list tool_call) (s : ChatBot world * world)
  : outcome (list message) * (ChatBot world * world) :=
  _handle_tool_calls markup_error duplicate_argument json_loads interp_error
    py_str tcs s.

Definition turn (message : string) (s : ChatBot world * world)
  : outcome string * (ChatBot world * world) :=
  chat markup_error duplicate_argument json_loads create interp_error py_str
    message s.

Definition run (message : string) (responses : list (outcome ChatCompletion))
    (b : ChatBot world) : outcome string * (ChatBot world * world) :=
  turn message (b, {| script := responses; executed := [] |}).

(** Three plugin files; importing the second one fails. *)
Definition plugin (f : string) (cls : string) (t : BaseTool world)
  : plugin_file world :=
  {| file_name := f;
     st_size := Returned 1;
     import_module :=
       Returned [ ("BaseTool", BaseToolClass);
                  (cls, ToolSubclass (Returned t));
                  ("List", OtherAttr) ] |}.

Definition broken_plugin (f : string) : plugin_file world :=
  {| file_name := f;
     st_size := Returned 1;
     import_module :=
       Raised (Exn "ModuleNotFoundError" "No module named 'requests'") |}.

Definition three_units : list (plugin_file world) :=
  [ plugin "calculator.py" "CalculatorTool" calculator;
    broken_plugin "news_tool.py";
    plugin "copier.py" "CopierTool" copier ].

Definition discover (tools_dir : option (list (plugin_file world)))
    (reg : ToolRegistry world)
  : outcome discovery_summary * ToolRegistry world :=
  auto_discover_tools markup_error tools_dir reg.

End Sim.

(** ** The session: commands, the loop of [run], and [main.py] *)

(** The [TypeError] that the interpreter raises for
    ['openrouter.ai' in None]. *)
Definition none_not_iterable : exn :=
  Exn "TypeError" "argument of type 'NoneType' is not iterable".

Section Session.

Variable World : Type.
Variable markup_error : string -> list string -> option exn.
Variable duplicate_argument : string -> exn.
Variable json_loads : string -> outcome json.
Variable create : request -> Py World ChatCompletion.
Variable interp_error : json -> exn.
Variable py_str : json -> string.

(** [user_input.strip().lower()] of the built-in strings. *)
Variable normalize : string -> string.

(** The directory [tools/available] as discovery finds it. *)
Variable tools_dir : option (list (plugin_file World)).

(** Writing the file of [save_conversation]: [time.time], [open] and
    [json.dump] of the data built from the chatbot. *)
Variable write_conversation : ChatBot World -> Py World unit.

(** Evaluating ['openrouter.ai' in config.base_url], as the texts of
    [show_stats], [show_config], [save_conversation] and [run_chatbot] do. *)
Definition api_label_check (cfg : Config) : outcome unit :=
  match base_url cfg with
  | None => Raised none_not_iterable
  | Some _ => Returned tt
  end.

(** [show_stats]: the text is built, which fails without a base URL, and
    printed in a panel; its data are the model and the names of the tools,
    the rest being numbers. *)
Definition show_stats (self : ChatBot World) : outcome unit :=
  match api_label_check (config self) with
  | Raised e => Raised e
  | Returned _ =>
      console_print markup_error "Statistics"
        [model (config self);
         String.concat ", " (tool_names (get_registry_stats (tool_registry self)))]
  end.

(** [show_config], likewise; its data are the model and the base URL. *)
Definition show_config (self : ChatBot World) : outcome unit :=
  match api_label_check (config self), base_url (config self) with
  | Raised e, _ => Raised e
  | Returned _, url =>
      console_print markup_error "Configuration"
        [model (config self);
         match url with
         | Some u => if String.eqb u "" then "Default OpenAI" else u
         | None => "Default OpenAI"
         end]
  end.

(** The texts that the table of one tool shows for a parameter. *)
Definition parameter_texts (p : ToolParameter) : list string :=
  param_name p :: param_type p
  :: (if truthy_list (param_enum p)
      then match param_enum p with Some vs => vs | None => [] end
      else []).

(** [ToolRegistry.show_tool_details()] without a name: the table of all
    tools, with the name and the description of each. *)
Definition show_all_tools (reg : ToolRegistry World) : outcome unit :=
  match PyDict.values (_tools reg) with
  | [] => Returned tt
  | tools =>
      console_print markup_error "Available Tools"
        (flat_map (fun t => [tool_name t; tool_description t]) tools)
  end.

(** [ToolRegistry.show_tool_details(name)]: the table of one tool, inside
    a [try] whose handler prints the exception. *)
Definition show_one_tool (reg : ToolRegistry World) (name : string)
  : outcome unit :=
  if String.eqb name "" then show_all_tools reg
  else
    match
      match get_tool reg name with
      | Raised e => Raised e
      | Returned tool =>
          console_print markup_error "Tool Details: {name}"
            (name :: tool_name tool :: tool_description tool
             :: flat_map parameter_texts (tool_parameters tool))
      end
    with
    | Returned _ => Returned tt
    | Raised e =>
        console_print markup_error "[red]Error showing tool details: {e}[/red]"
          [exn_str e]
    end.

(** [ChatBot.show_tools] *)
Definition show_tools (self : ChatBot World) : outcome unit :=
  show_all_tools (tool_registry self).

(** The loop of [ChatBot.show_tool_details] over the names. *)
Fixpoint show_each_tool (reg : ToolRegistry World) (names : list string)
  : outcome unit :=
  match names with
  | [] => Returned tt
  | tool_name :: rest =>
      match show_one_tool reg tool_name with
      | Raised e => Raised e
      | Returned _ => show_each_tool reg rest
      end
  end.

Definition show_tool_details (self : ChatBot World) : outcome unit :=
  show_each_tool (tool_registry self) (list_tools (tool_registry self)).

(** [save_conversation].  The exceptions of its [try] are the
    [TypeError] of the label and those of [open] and [json.dump], whose
    texts hold no closing tag: the print of the handler returns. *)
Definition save_conversation : Py (machine World) unit :=
  try_except
    (s <- get_state ;;
     lift_outcome (api_label_check (config (fst s))) ;;;
     on_world (write_conversation (fst s)))%py
    (fun e => ret tt).

(** [show_help] prints a Markdown text, which is not markup. *)
Definition handle_command (user_input : string) : Py (machine World) bool :=
  let user_input := normalize user_input in
  if String.eqb user_input "quit" || String.eqb user_input "exit" then ret true
  else if String.eqb user_input "help" then ret false
  else if String.eqb user_input "tools"
  then (s <- get_state ;; lift_outcome (show_tools (fst s)) ;;; ret false)%py
  else if String.eqb user_input "tool-details"
  then (s <- get_state ;;
        lift_outcome (show_tool_details (fst s)) ;;; ret false)%py
  else if String.eqb user_input "clear"
  then (on_self clear_history ;;; ret false)%py
  else if String.eqb user_input "stats"
  then (s <- get_state ;; lift_outcome (show_stats (fst s)) ;;; ret false)%py
  else if String.eqb user_input "save"
  then (save_conversation ;;; ret false)%py
  else if String.eqb user_input "config"
  then (s <- get_state ;; lift_outcome (show_config (fst s)) ;;; ret false)%py
  else if String.eqb user_input "reset"
  then (on_bot (reset_chatbot markup_error tools_dir) ;;; ret false)%py
  else ret false.

(** The [while] loop of [run] over the inputs that [Prompt.ask] yields; it
    returns at [break], and here also when the inputs are used up. *)
Fixpoint run_loop (inputs : list string) : Py (machine World) unit :=
  match inputs with
  | [] => ret tt
  | user_input :: rest =>
      if String.eqb user_input "" then run_loop rest
      else
        (quit <- handle_command user_input ;;
         if (quit : bool) then ret tt
         else (chat markup_error duplicate_argument json_loads create
                 interp_error py_str user_input ;;;
               run_loop rest))%py
  end.

(** [run]: discovery, then the loop inside its [try].  [format_message]
    renders the input and the response as Markdown, which is not markup. *)
Definition run (inputs : list string) : Py (machine World) unit :=
  (on_bot (bot_auto_discover_tools markup_error tools_dir) ;;;
   try_except (run_loop inputs)
     (fun e =>
        lift_outcome
          (console_print markup_error "[red]Unexpected error: {str(e)}[/red]"
             [exn_str e])))%py.

(** [run_chatbot] of [main.py]; its handler calls [format_error]. *)
Definition run_chatbot (inputs : list string) : Py (machine World) unit :=
  try_except
    (s <- get_state ;;
     lift_outcome (api_label_check (config (fst s))) ;;;
     run inputs)%py
    (fun e =>
       lift_outcome
         (console_print markup_error "Chatbot runtime error: {e}"
            [exn_str e])).

(** *** chatbot/config.py: [Config.from_env] *)

(** [os.getenv] on the environment of the process. *)
Variable getenv : string -> option string.

(** [int] and [float] of a text. *)
Variable parse_int : string -> outcome Z.
Variable parse_float : string -> outcome string.

(** The default of the field [system_prompt]. *)
Variable default_system_prompt : string.

Definition getenv_or (key default : string) : string :=
  match getenv key with Some v => v | None => default end.

(** Truthiness of what [os.getenv] returns. *)
Definition is_set (v : option string) : bool :=
  match v with Some s => negb (String.eqb s "") | None => false end.

Definition from_env_with (key : string) (url : option string)
    (default_model : string) : outcome Config :=
  match parse_int (getenv_or "MAX_TOKENS" "1000") with
  | Raised e => Raised e
  | Returned tokens =>
      match parse_float (getenv_or "TEMPERATURE" "0.7") with
      | Raised e => Raised e
      | Returned temp =>
          Returned {| api_key := key;
                      base_url := url;
                      model := getenv_or "OPENAI_MODEL" default_model;
                      max_tokens := tokens;
                      temperature := temp;
                      system_prompt :=
                        getenv_or "SYSTEM_PROMPT" default_system_prompt |}
      end
  end.

Definition from_env : outcome Config :=
  let or_key := getenv "OPENROUTER_API_KEY" in
  let oa_key := getenv "OPENAI_API_KEY" in
  if is_set or_key
  then from_env_with (getenv_or "OPENROUTER_API_KEY" "")
         (Some "https://openrouter.ai/api/v1") "openai/gpt-4o-mini"
  else if is_set oa_key
  then from_env_with (getenv_or "OPENAI_API_KEY" "") None "gpt-4o-mini"
  else Raised (ValueError "Set OPENROUTER_API_KEY or OPENAI_API_KEY in .env").

End Session.

Arguments show_stats {World} markup_error self.
Arguments show_config {World} markup_error self.
Arguments show_all_tools {World} markup_error reg.
Arguments show_one_tool {World} markup_error reg name.
Arguments show_tools {World} markup_error self.
Arguments show_each_tool {World} markup_error reg names.
Arguments show_tool_details {World} markup_error self.
Arguments save_conversation {World} write_conversation _.
Arguments handle_command {World} markup_error normalize tools_dir
  write_conversation user_input _.
Arguments run_loop {World} markup_error duplicate_argument json_loads create
  interp_error py_str normalize tools_dir write_conversation inputs _.
Arguments run {World} markup_error duplicate_argument json_loads create
  interp_error py_str normalize tools_dir write_conversation inputs _.
Arguments run_chatbot {World} markup_error duplicate_argument json_loads
  create interp_error py_str normalize tools_dir write_conversation
  inputs _.

(** Stand-ins for the session. *)
Module SimSession.

(** Agrees with [strip] and [lower] on the lower-case words used here. *)
Definition normalize (s : string) : string := s.

Definition write_conversation (self : ChatBot Sim.world) : Py Sim.world unit :=
  fun w => (Returned tt, Sim.log "save" w).

Definition tools_dir : option (list (plugin_file Sim.world)) :=
  Some Sim.three_units.

(** The configuration that an OpenRouter key gives. *)
Definition router_cfg : Config :=
  {| api_key := "sk-or-test";
     base_url := Some "https://openrouter.ai/api/v1";
     model := "openai/gpt-4o-mini";
     max_tokens := 1000;
     temperature := "0.7";
     system_prompt := "You are a helpful assistant." |}.

Definition handle (user_input : string) (s : machine Sim.world)
  : outcome bool * machine Sim.world :=
  handle_command Sim.markup_error normalize tools_dir write_conversation
    user_input s.

Definition loop (inputs : list string) (s : machine Sim.world)
  : outcome unit * machine Sim.world :=
  run_loop Sim.markup_error Sim.duplicate_argument Sim.json_loads Sim.create
    Sim.interp_error Sim.py_str normalize tools_dir write_conversation
    inputs s.

Definition session (inputs : list string) (s : machine Sim.world)
  : outcome unit * machine Sim.world :=
  run Sim.markup_error Sim.duplicate_argument Sim.json_loads Sim.create
    Sim.interp_error Sim.py_str normalize tools_dir write_conversation
    inputs s.

(** An environment with an OpenAI key only. *)
Definition openai_env (key : string) : option string :=
  if String.eqb key "OPENAI_API_KEY" then Some "sk-test" else None.

Definition parse_int (s : string) : outcome Z :=
  if String.eqb s "1000" then Returned 1000%Z
  else Raised (ValueError "invalid literal for int() with base 10").

Definition parse_float (s : string) : outcome string :=
  if String.eqb s "0.7" then Returned "0.7"
  else Raised (ValueError "could not convert string to float").

End SimSession.

(** The only entry that registering a tool instance without a name adds
    to [_tool_errors]. *)
Definition nameless : string :=
  "Failed to register tool: Tool must have a valid name".

(** The chatbot at the entry of the [try] block of [chat]. *)
Definition after_user_message {World} (message : string) (self : ChatBot World)
  : ChatBot World :=
  history_append (plain_message "user" (Some message)) (count_message self).

(** The invariant of a registry: its names are distinct, and every tool is
    stored under its own name, which is not empty. *)
Definition registry_ok {World} (reg : ToolRegistry World) : Prop :=
  NoDup (list_tools reg)
  /\ Forall (fun entry => fst entry = tool_name (snd entry) /\ fst entry <> "")
            (_tools reg).

(** The files that the loop of [auto_discover_tools] passes over. *)
Definition skipped {World} (f : plugin_file World) : bool :=
  String.prefix "__" (file_name f)
  || match st_size f with Returned 0 => true | _ => false end.

(** The message that discovery records for a file that fails to load. *)
Definition load_error {World} (f : plugin_file World) (e : exn) : string :=
  "Error loading module " ++ file_name f ++ ": " ++ exn_str e.

(** [occurs_in s t]: the text [s] occurs somewhere in [t]. *)
Definition occurs_in (s t : string) : Prop :=
  exists before after, t = before ++ s ++ after.

(** The handler of [execute_tool] can print its line for [e]. *)
Definition error_line_prints (markup_error : string -> list string -> option exn)
    (name : string) (e : exn) : Prop :=
  console_print markup_error "[red]✗[/red] {error_msg}"
    [execution_error name e] = Returned tt.

(** The summary of discovery after [n] more tools and the messages
    [errs]. *)
Definition advance (n : nat) (errs : list string)
    (summary : discovery_summary) : discovery_summary :=
  {| tools_found := tools_found summary + n;
     discovery_errors := (discovery_errors summary ++ errs)%list |}.

(** Every tool that the files give has a name without a closing tag. *)
Definition printable_tools {World} (files : list (plugin_file World)) : Prop :=
  forall f attrs attr_name t,
    In f files -> import_module f = Returned attrs ->
    In (attr_name, ToolSubclass (Returned t)) attrs ->
    holds_closing_tag (tool_name t) = false.

(** The accounting of a stretch of discovery that goes from [reg] to
    [reg'] and counts [n] tools: the registry has received [k] messages,
    all for tools without a name, and at most [n - k] tools. *)
Definition accounted {World} (reg reg' : ToolRegistry World) (n : nat) : Prop :=
  exists k,
    _tool_errors reg' = (_tool_errors reg ++ repeat nameless k)%list
    /\ k <= n
    /\ List.length (_tools reg') + k <= List.length (_tools reg) + n.

(** The handler of one tool call can print its line for [e]. *)
Definition tool_error_prints (markup_error : string -> list string -> option exn)
    (e : exn) : Prop :=
  console_print markup_error "[red]Error executing tool: {e}[/red]"
    [exn_str e] = Returned tt.

(** The handler of [chat] can print its line for [e]. *)
Definition apology_prints (markup_error : string -> list string -> option exn)
    (e : exn) : Prop :=
  console_print markup_error "[red]Error: {error_msg}[/red]"
    [communication_error e] = Returned tt.
(** * Properties *)

(** ** Strings *)

Lemma append_assoc (a b c : string) : (a ++ b) ++ c = a ++ (b ++ c).
Proof.
  induction a as [|ch a IH]; simpl; [reflexivity | now rewrite IH].
Qed.

Lemma occurs_in_append_r (s a b : string) :
  occurs_in s b -> occurs_in s (a ++ b).
Proof.
  intros (pre & post & ->). exists (a ++ pre), post.
  now rewrite append_assoc.
Qed.

Lemma occurs_in_append_l (s a b : string) :
  occurs_in s a -> occurs_in s (a ++ b).
Proof.
  intros (pre & post & ->). exists pre, (post ++ b).
  now rewrite !append_assoc.
Qed.

Lemma occurs_in_refl (s : string) : occurs_in s s.
Proof.
  exists "", "". simpl.
  induction s as [|ch s IH]; simpl; [reflexivity | now rewrite <- IH].
Qed.

(** Every element of a list occurs in the list joined by a separator. *)
Lemma occurs_in_concat (sep : string) (l : list string) (s : string) :
  In s l -> occurs_in s (String.concat sep l).
Proof.
  induction l as [|x l IH]; intros Hin; [destruct Hin|].
  destruct Hin as [-> | Hin].
  - destruct l as [|y l]; simpl.
    + apply occurs_in_refl.
    + apply occurs_in_append_l, occurs_in_refl.
  - destruct l as [|y l]; [destruct Hin|].
    change (String.concat sep (x :: y :: l))
      with (x ++ sep ++ String.concat sep (y :: l)).
    now apply occurs_in_append_r, occurs_in_append_r, IH.
Qed.

(** ** Dictionaries *)

Section PyDictFacts.

Context {V : Type}.
Implicit Types (d : PyDict.t V) (k : string) (v : V).

Lemma mem_In k d : PyDict.mem k d = true <-> In k (PyDict.keys d).
Proof.
  induction d as [|[k' v'] d IH]; simpl.
  - split; [discriminate | tauto].
  - destruct (String.eqb_spec k' k) as [->|Hne].
    + split; auto.
    + rewrite IH. split; [auto | intros [H|H]; [contradiction | exact H]].
Qed.

Lemma mem_false_In k d : PyDict.mem k d = false <-> ~ In k (PyDict.keys d).
Proof.
  rewrite <- mem_In. destruct (PyDict.mem k d); split; intros H;
    try reflexivity; try discriminate; try (intros H'; discriminate).
  exfalso. now apply H.
Qed.

Lemma get_mem k d :
  PyDict.mem k d = match PyDict.get k d with Some _ => true | None => false end.
Proof.
  induction d as [|[k' v'] d IH]; simpl; [reflexivity|].
  destruct (String.eqb k' k); [reflexivity | exact IH].
Qed.

Lemma get_set_same k v d : PyDict.get k (PyDict.set k v d) = Some v.
Proof.
  induction d as [|[k' v'] d IH]; simpl.
  - now rewrite String.eqb_refl.
  - destruct (String.eqb k' k) eqn:E; simpl; rewrite E; [reflexivity | exact IH].
Qed.

Lemma get_set_other k k0 v d :
  k <> k0 -> PyDict.get k0 (PyDict.set k v d) = PyDict.get k0 d.
Proof.
  intros Hne. induction d as [|[k' v'] d IH]; simpl.
  - destruct (String.eqb_spec k k0); [contradiction | reflexivity].
  - destruct (String.eqb_spec k' k) as [->|Hk]; simpl.
    + destruct (String.eqb_spec k k0); [contradiction | reflexivity].
    + destruct (String.eqb k' k0); [reflexivity | exact IH].
Qed.

(** Assigning to a key that is present leaves the keys as they are. *)
Lemma keys_set_present k v d :
  PyDict.mem k d = true -> PyDict.keys (PyDict.set k v d) = PyDict.keys d.
Proof.
  induction d as [|[k' v'] d IH]; simpl; [discriminate|].
  destruct (String.eqb k' k); simpl; intros H; [reflexivity|].
  now rewrite (IH H).
Qed.

(** Assigning to a new key puts it last. *)
Lemma keys_set_absent k v d :
  PyDict.mem k d = false ->
  PyDict.keys (PyDict.set k v d) = (PyDict.keys d ++ [k])%list.
Proof.
  induction d as [|[k' v'] d IH]; simpl; [reflexivity|].
  destruct (String.eqb k' k); simpl; intros H; [discriminate|].
  now rewrite (IH H).
Qed.

Lemma In_keys_set k k0 v d :
  In k0 (PyDict.keys (PyDict.set k v d)) <-> k0 = k \/ In k0 (PyDict.keys d).
Proof.
  destruct (PyDict.mem k d) eqn:E.
  - rewrite keys_set_present by exact E. apply mem_In in E.
    split; [auto | intros [->|H]; assumption].
  - rewrite keys_set_absent by exact E. rewrite in_app_iff. simpl.
    split; [intros [H|[H|[]]]; auto | intros [H|H]; auto].
Qed.

Lemma NoDup_keys_set k v d :
  NoDup (PyDict.keys d) -> NoDup (PyDict.keys (PyDict.set k v d)).
Proof.
  intros Hnd. destruct (PyDict.mem k d) eqn:E.
  - now rewrite keys_set_present.
  - rewrite keys_set_absent by exact E.
    apply NoDup_app; [exact Hnd | repeat constructor; intros [] | ].
    intros x Hx [<-|[]]. apply mem_false_In in E. contradiction.
Qed.

Lemma length_values d : List.length (PyDict.values d) = List.length d.
Proof. apply length_map. Qed.

End PyDictFacts.

(** ** Call schema ([to_openai_tool]) *)

Lemma find_app {A} (f : A -> bool) (l1 l2 : list A) :
  find f (l1 ++ l2)%list =
  match find f l1 with Some x => Some x | None => find f l2 end.
Proof.
  induction l1 as [|a l1 IH]; simpl; [reflexivity|].
  destruct (f a); [reflexivity | exact IH].
Qed.

Lemma loop_required params : forall properties required,
  snd (to_openai_tool_loop params properties required) =
  (required ++ map param_name (filter param_required params))%list.
Proof.
  induction params as [|p rest IH]; intros properties required; simpl.
  - now rewrite app_nil_r.
  - rewrite IH. destruct (param_required p); simpl; [|reflexivity].
    now rewrite <- app_assoc.
Qed.

(** The entry under a name is the one of the last parameter of that name. *)
Lemma loop_get params n : forall properties required,
  PyDict.get n (fst (to_openai_tool_loop params properties required)) =
  match find (fun p => String.eqb (param_name p) n) (rev params) with
  | Some p => Some (property_of p)
  | None => PyDict.get n properties
  end.
Proof.
  induction params as [|p rest IH]; intros properties required; simpl.
  - reflexivity.
  - rewrite IH, find_app. simpl.
    destruct (find _ (rev rest)); [reflexivity|].
    destruct (String.eqb_spec (param_name p) n) as [<-|Hne].
    + apply get_set_same.
    + now apply get_set_other.
Qed.

Lemma loop_keys params n : forall properties required,
  In n (PyDict.keys (fst (to_openai_tool_loop params properties required))) <->
  In n (PyDict.keys properties) \/ In n (map param_name params).
Proof.
  induction params as [|p rest IH]; intros properties required; simpl.
  - tauto.
  - rewrite IH, In_keys_set. intuition auto.
Qed.

Lemma find_last_unique (params : list ToolParameter) (p : ToolParameter) :
  NoDup (map param_name params) -> In p params ->
  find (fun q => String.eqb (param_name q) (param_name p)) (rev params) = Some p.
Proof.
  induction params as [|q rest IH]; intros Hnd Hin; [destruct Hin|].
  simpl in *. inversion Hnd as [|? ? Hq Hrest]; subst.
  rewrite find_app. destruct Hin as [->|Hin].
  - destruct (find _ (rev rest)) as [r|] eqn:E.
    + apply find_some in E. destruct E as [Hr Heq].
      apply String.eqb_eq in Heq. exfalso. apply Hq. rewrite <- Heq.
      apply in_map, in_rev. exact Hr.
    + simpl. now rewrite String.eqb_refl.
  - now rewrite (IH Hrest Hin).
Qed.

(** C7. For every tool, [to_openai_tool] gives a schema of type ["object"]
    whose [required] list is exactly the names of the parameters marked
    required, in order, and whose [properties] have exactly the parameter
    names as keys, the entry under a name carrying the type and the
    description of the parameter of that name (of the last one, should two
    parameters share a name).  In particular, for the single parameter
    [x] of type ["number"], required, [required] is [["x"]] and
    [properties.x.type] is ["number"]. *)
Theorem to_openai_tool_schema :
  forall (World : Type) (t : BaseTool World),
    let ps := fschema_parameters (ot_function (to_openai_tool t)) in
    ot_type (to_openai_tool t) = "function"
    /\ pschema_type ps = "object"
    /\ pschema_required ps =
       map param_name (filter param_required (tool_parameters t))
    /\ (forall n, In n (PyDict.keys (pschema_properties ps)) <->
                  In n (map param_name (tool_parameters t)))
    /\ (forall n,
          PyDict.get n (pschema_properties ps) =
          option_map property_of
            (find (fun p => String.eqb (param_name p) n)
                  (rev (tool_parameters t))))
    /\ (NoDup (map param_name (tool_parameters t)) ->
        forall p, In p (tool_parameters t) ->
          exists entry,
            PyDict.get (param_name p) (pschema_properties ps) = Some entry
            /\ ps_type entry = param_type p
            /\ ps_description entry = param_description p)
    /\ (forall d e,
          tool_parameters t =
            [ {| param_name := "x"; param_type := "number";
                 param_description := d; param_required := true;
                 param_enum := e |} ] ->
          pschema_required ps = ["x"]
          /\ option_map ps_type (PyDict.get "x" (pschema_properties ps))
             = Some "number").
Proof.
  intros World t. unfold to_openai_tool.
  pose proof (loop_required (tool_parameters t) PyDict.empty []) as Hreq.
  pose proof (fun n => loop_get (tool_parameters t) n PyDict.empty []) as Hget.
  pose proof (fun n => loop_keys (tool_parameters t) n PyDict.empty []) as Hkeys.
  destruct (to_openai_tool_loop (tool_parameters t) PyDict.empty [])
    as [properties required].
  simpl in *.
  assert (Hget' : forall n,
             PyDict.get n properties =
             option_map property_of
               (find (fun p => String.eqb (param_name p) n)
                     (rev (tool_parameters t)))).
  { intros n. rewrite Hget. now destruct (find _ _). }
  repeat split; auto.
  - intros H. apply Hkeys in H. tauto.
  - intros H. apply Hkeys. now right.
  - intros Hnd p Hin. exists (property_of p). split; [|split; reflexivity].
    rewrite Hget'. now rewrite (find_last_unique _ _ Hnd Hin).
  - rewrite Hreq. now rewrite H.
  - rewrite Hget'. now rewrite H.
Qed.

(** The schema of the one-parameter tool of the claim. *)
Lemma to_openai_tool_schema_witness :
  let t : BaseTool unit :=
    {| tool_name := "square"; tool_description := "Square a number.";
       tool_parameters :=
         [ {| param_name := "x"; param_type := "number";
              param_description := "The number"; param_required := true;
              param_enum := None |} ];
       tool_execute := fun _ w => (Returned "ok", w) |} in
  let ps := fschema_parameters (ot_function (to_openai_tool t)) in
  NoDup (map param_name (tool_parameters t))
  /\ pschema_required ps = ["x"]
  /\ option_map ps_type (PyDict.get "x" (pschema_properties ps)) = Some "number"
  /\ exists entry,
       PyDict.get "x" (pschema_properties ps) = Some entry
       /\ ps_type entry = "number" /\ ps_description entry = "The number".
Proof.
  intros t ps.
  assert (Hnd : NoDup (map param_name (tool_parameters t))).
  { simpl. repeat constructor. intros []. }
  destruct (to_openai_tool_schema unit t)
    as (_ & _ & _ & _ & _ & Hentry & Hx).
  destruct (Hx "The number" None eq_refl) as [Hr Ht].
  split; [exact Hnd|]. split; [exact Hr|]. split; [exact Ht|].
  apply (Hentry Hnd _ (or_introl eq_refl)).
Defined.

(** ** The console *)

Lemma console_print_plain (markup_error : string -> list string -> option exn)
    (template : string) (data : list string) :
  existsb holds_closing_tag data = false ->
  console_print markup_error template data = Returned tt.
Proof. intros H. unfold console_print. now rewrite H. Qed.

Lemma console_print_one (markup_error : string -> list string -> option exn)
    (template text : string) :
  holds_closing_tag text = false ->
  console_print markup_error template [text] = Returned tt.
Proof. intros H. apply console_print_plain. cbn. now rewrite H. Qed.

(** ** Registration *)

Section RegistryFacts.

Context {World : Type}.
Variable markup_error : string -> list string -> option exn.
Implicit Types (reg : ToolRegistry World) (t : BaseTool World).

(** What [register] does with a tool whose name can be printed. *)
Lemma register_named t reg :
  tool_name t <> "" ->
  holds_closing_tag (tool_name t) = false ->
  register markup_error (ToolObj t) reg = (Returned tt, store_tool t reg).
Proof.
  intros Hname Htag.
  unfold register, register_try, try_except, bind, get_state, modify,
    lift_outcome, ret.
  destruct (String.eqb_spec (tool_name t) ""); [contradiction|].
  rewrite !(console_print_one _ _ _ Htag).
  now destruct (PyDict.mem (tool_name t) (_tools reg)).
Qed.

(** The registry that [register] leaves, whether it returns or raises:
    the tool may have been stored, and at most one message, written by
    the handler, has been added. *)
Lemma register_state (o : py_object World) reg :
  exists tools errs,
    snd (register markup_error o reg)
    = {| _tools := tools; _tool_errors := (_tool_errors reg ++ errs)%list |}
    /\ (tools = _tools reg
        \/ exists t, o = ToolObj t /\ tool_name t <> ""
                     /\ tools = PyDict.set (tool_name t) t (_tools reg))
    /\ List.length errs <= 1
    /\ Forall (fun m => exists e, m = "Failed to register tool: " ++ exn_str e)
              errs.
Proof.
  assert (Hsame : forall reg0 : ToolRegistry World,
             reg0 = {| _tools := _tools reg0;
                       _tool_errors := (_tool_errors reg0 ++ [])%list |}).
  { intros [tools0 errs0]. cbn. now rewrite app_nil_r. }
  assert (Hone : forall e : exn,
             Forall (fun m => exists e0, m = "Failed to register tool: "
                                             ++ exn_str e0)
                    ["Failed to register tool: " ++ exn_str e]).
  { intros e. constructor; [now exists e | constructor]. }
  unfold register, register_try, try_except, bind, get_state, modify,
    lift_outcome, ret, raise.
  destruct o as [t|].
  - destruct (String.eqb_spec (tool_name t) "") as [He|Hne].
    + destruct (console_print markup_error _ _) as [[]|e]; cbn [snd];
        exists (_tools reg), [nameless];
        (split; [reflexivity|]); (split; [now left|]); (split; [cbn; lia|]);
        apply (Hone (ValueError "Tool must have a valid name")).
    + destruct (PyDict.mem (tool_name t) (_tools reg)).
      * destruct (console_print markup_error
                    "[yellow]⚠️[/yellow] Tool '{tool.name}' already registered, overwriting"
                    [tool_name t]) as [[]|e1].
        -- destruct (console_print markup_error
                       "[green]✓[/green] Registered tool: {tool.name}"
                       [tool_name t]) as [[]|e2].
           ++ exists (PyDict.set (tool_name t) t (_tools reg)), [].
              cbn [snd]. split; [apply (Hsame (store_tool t reg))|].
              split; [right; now exists t|]. split; [cbn; lia | constructor].
           ++ destruct (console_print markup_error _ _) as [[]|e3]; cbn [snd];
                exists (PyDict.set (tool_name t) t (_tools reg)),
                       ["Failed to register tool: " ++ exn_str e2];
                (split; [reflexivity|]); (split; [right; now exists t|]);
                (split; [cbn; lia | apply Hone]).
        -- destruct (console_print markup_error _ _) as [[]|e3]; cbn [snd];
             exists (_tools reg), ["Failed to register tool: " ++ exn_str e1];
             (split; [reflexivity|]); (split; [now left|]);
             (split; [cbn; lia | apply Hone]).
      * destruct (console_print markup_error
                    "[green]✓[/green] Registered tool: {tool.name}"
                    [tool_name t]) as [[]|e2].
        -- exists (PyDict.set (tool_name t) t (_tools reg)), [].
           cbn [snd]. split; [apply (Hsame (store_tool t reg))|].
           split; [right; now exists t|]. split; [cbn; lia | constructor].
        -- destruct (console_print markup_error _ _) as [[]|e3]; cbn [snd];
             exists (PyDict.set (tool_name t) t (_tools reg)),
                    ["Failed to register tool: " ++ exn_str e2];
             (split; [reflexivity|]); (split; [right; now exists t|]);
             (split; [cbn; lia | apply Hone]).
  - destruct (console_print markup_error _ _) as [[]|e]; cbn [snd];
      exists (_tools reg),
             ["Failed to register tool: Tool must inherit from BaseTool"];
      (split; [reflexivity|]); (split; [now left|]); (split; [cbn; lia|]);
      apply (Hone (ValueError "Tool must inherit from BaseTool")).
Qed.

(** The names of a registry stay distinct under [register]. *)
Lemma register_NoDup (o : py_object World) reg :
  NoDup (list_tools reg) ->
  NoDup (list_tools (snd (register markup_error o reg))).
Proof.
  intros Hnd.
  destruct (register_state o reg) as (tools & errs & -> & Htools & _).
  unfold list_tools. cbn [_tools].
  destruct Htools as [-> | (t & _ & _ & ->)]; [exact Hnd|].
  apply NoDup_keys_set, Hnd.
Qed.

Lemma get_tool_registered t reg :
  tool_name t <> "" ->
  holds_closing_tag (tool_name t) = false ->
  get_tool (snd (register markup_error (ToolObj t) reg)) (tool_name t)
  = Returned t.
Proof.
  intros Hname Htag. rewrite (register_named _ _ Hname Htag).
  unfold get_tool. cbn. now rewrite get_set_same.
Qed.

Lemma NoDup_count_occ_1 (l : list string) (x : string) :
  NoDup l -> In x l -> count_occ string_dec l x = 1.
Proof.
  intros Hnd Hin.
  pose proof (proj1 (NoDup_count_occ string_dec l) Hnd x) as Hle.
  pose proof (proj1 (count_occ_In string_dec l x) Hin) as Hgt.
  lia.
Qed.

(** A second registration under a name that can be printed overwrites in
    place: the names of the registry and their order are as before, with
    one entry under the name, the new tool. *)
Lemma register_overwrites_in_place t reg :
  NoDup (list_tools reg) ->
  tool_name t <> "" ->
  holds_closing_tag (tool_name t) = false ->
  In (tool_name t) (list_tools reg) ->
  let reg' := snd (register markup_error (ToolObj t) reg) in
  list_tools reg' = list_tools reg
  /\ (forall before after,
        list_tools reg = (before ++ tool_name t :: after)%list ->
        list_tools reg' = (before ++ tool_name t :: after)%list)
  /\ count_occ string_dec (list_tools reg') (tool_name t) = 1
  /\ get_tool reg' (tool_name t) = Returned t
  /\ _tool_errors reg' = _tool_errors reg.
Proof.
  intros Hnd Hname Htag Hin reg'.
  assert (Hkeys : list_tools reg' = list_tools reg).
  { subst reg'. rewrite (register_named _ _ Hname Htag).
    unfold list_tools. cbn. apply keys_set_present. now apply mem_In. }
  split; [exact Hkeys|]. split; [intros before after H; now rewrite Hkeys|].
  split; [rewrite Hkeys; now apply NoDup_count_occ_1|].
  split; [now apply get_tool_registered|].
  subst reg'. now rewrite (register_named _ _ Hname Htag).
Qed.

End RegistryFacts.


(** ** Dispatch ([execute_tool]) *)

Section DispatchFacts.

Context {World : Type}.
Implicit Types (reg : ToolRegistry World) (tool : BaseTool World)
  (kw : kwargs) (w : World).

(** [get_tool] raises exactly for the names that are not registered. *)
Lemma get_tool_unknown reg name :
  ~ In name (list_tools reg) ->
  get_tool reg name =
  Raised (ValueError ("Tool '" ++ name ++ "' not found. Available tools: "
                      ++ String.concat ", " (list_tools reg))).
Proof.
  intros Hnot. apply mem_false_In in Hnot. unfold get_tool.
  rewrite get_mem in Hnot.
  destruct (PyDict.get name (_tools reg)); [discriminate | reflexivity].
Qed.

Lemma get_tool_known reg name :
  In name (list_tools reg) -> exists tool, get_tool reg name = Returned tool.
Proof.
  intros Hin. apply mem_In in Hin. unfold get_tool.
  rewrite get_mem in Hin.
  destruct (PyDict.get name (_tools reg)) as [tool|]; [|discriminate].
  now exists tool.
Qed.

(** The names in [missing_params] are those of the required parameters
    that [kw] has no key for. *)
Lemma In_missing_params tool kw n :
  In n (missing_params tool kw) <->
  (exists p, In p (tool_parameters tool) /\ param_required p = true
             /\ param_name p = n)
  /\ PyDict.mem n kw = false.
Proof.
  unfold missing_params, required_params.
  rewrite filter_In, in_map_iff, negb_true_iff.
  split; intros [(p & H1 & H2) Hm]; (split; [|exact Hm]); exists p.
  - apply filter_In in H2. tauto.
  - destruct H2 as (H3 & H4). split; [exact H4|].
    apply filter_In. tauto.
Qed.

Lemma nonempty_In {A} (l : list A) (x : A) : In x l -> nonempty l = true.
Proof. destruct l; [intros [] | reflexivity]. Qed.

Lemma execute_tool_try_missing reg name tool kw w :
  get_tool reg name = Returned tool ->
  nonempty (missing_params tool kw) = true ->
  execute_tool_try reg name kw w =
  (Raised (ValueError ("Missing required parameters: "
                       ++ String.concat ", " (missing_params tool kw))), w).
Proof.
  intros Hget Hmiss. unfold execute_tool_try, bind, lift_outcome.
  now rewrite Hget, Hmiss.
Qed.

Lemma execute_tool_try_runs reg name tool kw w :
  get_tool reg name = Returned tool ->
  nonempty (missing_params tool kw) = false ->
  execute_tool_try reg name kw w = tool_execute tool kw w.
Proof.
  intros Hget Hmiss. unfold execute_tool_try, bind, lift_outcome.
  now rewrite Hget, Hmiss.
Qed.

Lemma execute_tool_try_unknown reg name kw w :
  ~ In name (list_tools reg) ->
  execute_tool_try reg name kw w =
  (Raised (ValueError ("Tool '" ++ name ++ "' not found. Available tools: "
                       ++ String.concat ", " (list_tools reg))), w).
Proof.
  intros Hnot. unfold execute_tool_try, bind, lift_outcome.
  now rewrite (get_tool_unknown _ _ Hnot).
Qed.

Variable markup_error : string -> list string -> option exn.
Variable duplicate_argument : string -> exn.

(** A keyword [self] or [name] ends the call before the body. *)
Lemma execute_tool_clash reg name kw key w :
  clashing_key kw = Some key ->
  execute_tool markup_error duplicate_argument reg name kw w
  = (Raised (duplicate_argument key), w).
Proof. intros H. unfold execute_tool. now rewrite H. Qed.

(** [execute_tool] turns what its [try] block raises into a text, when the
    handler can print its line. *)
Lemma execute_tool_raised reg name kw w e w' :
  clashing_key kw = None ->
  execute_tool_try reg name kw w = (Raised e, w') ->
  error_line_prints markup_error name e ->
  execute_tool markup_error duplicate_argument reg name kw w
  = (Returned ("Error: " ++ exn_str e), w').
Proof.
  intros Hkw H Hprint. unfold execute_tool, try_except, bind, lift_outcome, ret.
  rewrite Hkw, H. unfold error_line_prints in Hprint. now rewrite Hprint.
Qed.

(** Otherwise what the print raises leaves [execute_tool]. *)
Lemma execute_tool_raised_unprinted reg name kw w e w' e' :
  clashing_key kw = None ->
  execute_tool_try reg name kw w = (Raised e, w') ->
  console_print markup_error "[red]✗[/red] {error_msg}"
    [execution_error name e] = Raised e' ->
  execute_tool markup_error duplicate_argument reg name kw w = (Raised e', w').
Proof.
  intros Hkw H Hprint. unfold execute_tool, try_except, bind, lift_outcome, ret.
  now rewrite Hkw, H, Hprint.
Qed.

Lemma execute_tool_returned reg name kw w r w' :
  clashing_key kw = None ->
  execute_tool_try reg name kw w = (Returned r, w') ->
  execute_tool markup_error duplicate_argument reg name kw w = (Returned r, w').
Proof. intros Hkw H. unfold execute_tool, try_except. now rewrite Hkw, H. Qed.

(** The world after [execute_tool] is that after its [try] block. *)
Lemma execute_tool_world reg name kw w :
  clashing_key kw = None ->
  snd (execute_tool markup_error duplicate_argument reg name kw w)
  = snd (execute_tool_try reg name kw w).
Proof.
  intros Hkw. unfold execute_tool, try_except, bind, lift_outcome, ret.
  rewrite Hkw. destruct (execute_tool_try reg name kw w) as [[r|e] w'];
    [reflexivity|].
  now destruct (console_print markup_error _ _) as [[]|e'].
Qed.

End DispatchFacts.

(** C2, as stated, fails: for a name that is not registered and for a call
    that lacks a required parameter, [execute_tool] raises nothing and
    returns the error as a text; the lookup [get_tool] is what raises. *)
Lemma execute_tool_returns_lookup_failures :
  get_tool Sim.registry "teleport" =
    Raised (ValueError "Tool 'teleport' not found. Available tools: calculator")
  /\ Sim.dispatch Sim.registry "teleport" [] Sim.idle =
       (Returned "Error: Tool 'teleport' not found. Available tools: calculator",
        Sim.idle)
  /\ Sim.dispatch Sim.registry "calculator" [] Sim.idle =
       (Returned "Error: Missing required parameters: expression", Sim.idle)
  /\ (forall e,
        fst (Sim.dispatch Sim.registry "teleport" [] Sim.idle) <> Raised e)
  /\ (forall e,
        fst (Sim.dispatch Sim.registry "calculator" [] Sim.idle) <> Raised e).
Proof.
  split; [reflexivity|]. split; [reflexivity|]. split; [reflexivity|].
  split; intros e; discriminate.
Qed.

(** C2, amended.  The handler of [execute_tool] catches the three kinds of
    failure alike: an exception raised by the tool's [execute], the
    [ValueError] that [get_tool] raises for a name that is not registered,
    and the [ValueError] raised for absent required parameters.  When the
    keywords can be bound (no key [self] or [name]) and the handler can
    print its line, each is returned as the text ["Error: "] followed by the
    message of the exception. *)
Theorem execute_tool_catches_all_failures :
  forall (World : Type) (markup_error : string -> list string -> option exn)
         (duplicate_argument : string -> exn)
         (reg : ToolRegistry World) (name : string)
         (kw : kwargs) (w : World),
    clashing_key kw = None ->
    (forall tool e w',
       get_tool reg name = Returned tool ->
       missing_params tool kw = [] ->
       tool_execute tool kw w = (Raised e, w') ->
       error_line_prints markup_error name e ->
       execute_tool markup_error duplicate_argument reg name kw w
       = (Returned ("Error: " ++ exn_str e), w'))
    /\ (~ In name (list_tools reg) ->
        exists e,
          get_tool reg name = Raised e
          /\ exn_class e = "ValueError"
          /\ execute_tool_try reg name kw w = (Raised e, w)
          /\ (error_line_prints markup_error name e ->
              execute_tool markup_error duplicate_argument reg name kw w
              = (Returned ("Error: " ++ exn_str e), w)))
    /\ (forall tool,
          get_tool reg name = Returned tool ->
          missing_params tool kw <> [] ->
          exists e,
            execute_tool_try reg name kw w = (Raised e, w)
            /\ exn_class e = "ValueError"
            /\ (error_line_prints markup_error name e ->
                execute_tool markup_error duplicate_argument reg name kw w
                = (Returned ("Error: " ++ exn_str e), w))).
Proof.
  intros World markup_error duplicate_argument reg name kw w Hkw.
  split; [|split].
  - intros tool e w' Hget Hmiss Hexec Hprint.
    apply execute_tool_raised; [exact Hkw | | exact Hprint].
    rewrite (execute_tool_try_runs _ _ _ _ _ Hget); [exact Hexec|].
    now rewrite Hmiss.
  - intros Hnot. eexists. split; [apply (get_tool_unknown _ _ Hnot)|].
    split; [reflexivity|].
    split; [apply execute_tool_try_unknown, Hnot|].
    intros Hprint. apply execute_tool_raised; [exact Hkw | | exact Hprint].
    apply execute_tool_try_unknown, Hnot.
  - intros tool Hget Hmiss.
    assert (Hne : nonempty (missing_params tool kw) = true).
    { destruct (missing_params tool kw); [contradiction | reflexivity]. }
    eexists. split; [apply (execute_tool_try_missing _ _ _ _ _ Hget Hne)|].
    split; [reflexivity|].
    intros Hprint. apply execute_tool_raised; [exact Hkw | | exact Hprint].
    apply (execute_tool_try_missing _ _ _ _ _ Hget Hne).
Qed.

(** The copier fails inside [execute]; the teleport tool does not exist;
    the copier without arguments lacks its required parameters. *)
Lemma execute_tool_catches_all_failures_witness :
  let kw : kwargs := [("source", JString "a.txt"); ("target", JString "b.txt")] in
  clashing_key kw = None
  /\ tool_execute Sim.copier kw Sim.idle
     = (Raised (Exn "OSError" "disk full"), Sim.log "copier" Sim.idle)
  /\ Sim.dispatch Sim.registry2 "copier" kw Sim.idle
     = (Returned "Error: disk full", Sim.log "copier" Sim.idle)
  /\ ~ In "teleport" (list_tools Sim.registry2)
  /\ Sim.dispatch Sim.registry2 "teleport" kw Sim.idle
     = (Returned
          "Error: Tool 'teleport' not found. Available tools: calculator, copier",
        Sim.idle)
  /\ missing_params Sim.copier [] <> []
  /\ Sim.dispatch Sim.registry2 "copier" [] Sim.idle
     = (Returned "Error: Missing required parameters: source, target",
        Sim.idle).
Proof.
  intros kw.
  assert (Hkw : clashing_key kw = None) by reflexivity.
  assert (Hnil : clashing_key [] = None) by reflexivity.
  assert (Hget : get_tool Sim.registry2 "copier" = Returned Sim.copier)
    by reflexivity.
  assert (Hnone : missing_params Sim.copier kw = []) by reflexivity.
  assert (Hexec : tool_execute Sim.copier kw Sim.idle
                  = (Raised (Exn "OSError" "disk full"),
                     Sim.log "copier" Sim.idle)) by reflexivity.
  assert (Hnot : ~ In "teleport" (list_tools Sim.registry2)).
  { simpl. intros [H|[H|[]]]; discriminate. }
  assert (Hmiss : missing_params Sim.copier [] <> []) by discriminate.
  destruct (execute_tool_catches_all_failures Sim.world Sim.markup_error
              Sim.duplicate_argument Sim.registry2 "copier" kw Sim.idle Hkw)
    as (Htool & _ & _).
  destruct (execute_tool_catches_all_failures Sim.world Sim.markup_error
              Sim.duplicate_argument Sim.registry2 "teleport" kw Sim.idle Hkw)
    as (_ & Hlookup & _).
  destruct (execute_tool_catches_all_failures Sim.world Sim.markup_error
              Sim.duplicate_argument Sim.registry2 "copier" [] Sim.idle Hnil)
    as (_ & _ & Hvalid).
  split; [exact Hkw|]. split; [exact Hexec|].
  split; [exact (Htool _ _ _ Hget Hnone Hexec eq_refl)|].
  split; [exact Hnot|].
  split.
  { destruct (Hlookup Hnot) as (e & Hraise & _ & _ & Hret).
    injection Hraise as <-. exact (Hret eq_refl). }
  split; [exact Hmiss|].
  destruct (Hvalid _ Hget Hmiss) as (e & Hraise & _ & Hret).
  injection Hraise as <-. exact (Hret eq_refl).
Defined.

(** C3, as stated, fails: an argument mapping with the key [name] lacks
    the required parameter of the calculator, but the call raises a
    [TypeError] while it binds the keywords, before the body of
    [execute_tool] looks for missing parameters, and none is reported. *)
Lemma keyword_clash_hides_missing_parameters :
  let kw : kwargs := [("name", JString "x")] in
  get_tool Sim.registry "calculator" = Returned Sim.calculator
  /\ missing_params Sim.calculator kw = ["expression"]
  /\ Sim.dispatch Sim.registry "calculator" kw Sim.idle
     = (Raised
          (Exn "TypeError"
             "ToolRegistry.execute_tool() got multiple values for argument 'name'"),
        Sim.idle).
Proof. intros kw. split; [reflexivity|]. split; reflexivity. Qed.

(** C3, amended.  For a registered tool and arguments that can be bound
    (no key [self] or [name]) and lack some of its required parameters,
    [execute_tool] does not run the tool (the world is left as it was):
    its [try] block raises a [ValueError] whose message,
    ["Missing required parameters: "] followed by the missing names joined
    by [", "], names every required parameter that is absent and no other,
    and that message is returned after ["Error: "] when the handler can
    print its line. *)
Theorem missing_parameters_all_reported :
  forall (World : Type) (markup_error : string -> list string -> option exn)
         (duplicate_argument : string -> exn)
         (reg : ToolRegistry World) (name : string)
         (tool : BaseTool World) (kw : kwargs) (w : World),
    get_tool reg name = Returned tool ->
    clashing_key kw = None ->
    (exists p, In p (tool_parameters tool) /\ param_required p = true
               /\ PyDict.mem (param_name p) kw = false) ->
    let msg := "Missing required parameters: "
               ++ String.concat ", " (missing_params tool kw) in
    execute_tool_try reg name kw w = (Raised (ValueError msg), w)
    /\ snd (execute_tool markup_error duplicate_argument reg name kw w) = w
    /\ (error_line_prints markup_error name (ValueError msg) ->
        execute_tool markup_error duplicate_argument reg name kw w
        = (Returned ("Error: " ++ msg), w))
    /\ (forall p, In p (tool_parameters tool) -> param_required p = true ->
                  PyDict.mem (param_name p) kw = false ->
                  In (param_name p) (missing_params tool kw)
                  /\ occurs_in (param_name p) msg)
    /\ (forall n, In n (missing_params tool kw) ->
                  PyDict.mem n kw = false
                  /\ exists p, In p (tool_parameters tool)
                               /\ param_required p = true /\ param_name p = n).
Proof.
  intros World markup_error duplicate_argument reg name tool kw w Hget Hkw
    (p0 & Hin0 & Hreq0 & Hmem0) msg.
  assert (Hlisted : forall p, In p (tool_parameters tool) ->
            param_required p = true -> PyDict.mem (param_name p) kw = false ->
            In (param_name p) (missing_params tool kw)).
  { intros p Hin Hreq Hmem. apply In_missing_params. split; [|exact Hmem].
    now exists p. }
  assert (Hne : nonempty (missing_params tool kw) = true)
    by exact (nonempty_In _ _ (Hlisted p0 Hin0 Hreq0 Hmem0)).
  pose proof (execute_tool_try_missing reg name tool kw w Hget Hne) as Htry.
  split; [exact Htry|].
  split; [rewrite (execute_tool_world _ _ _ _ _ _ Hkw); now rewrite Htry|].
  split; [intros Hprint; exact (execute_tool_raised _ _ _ _ _ _ _ _ Hkw Htry Hprint)|].
  split.
  - intros p Hin Hreq Hmem. split; [now apply Hlisted|].
    apply occurs_in_append_r, occurs_in_concat. now apply Hlisted.
  - intros n Hn. apply In_missing_params in Hn. tauto.
Qed.

(** The copier called with its optional parameter only: both required
    names are reported, and the log of the world shows that the tool did
    not run. *)
Lemma missing_parameters_all_reported_witness :
  get_tool Sim.registry2 "copier" = Returned Sim.copier
  /\ clashing_key [("mode", JString "text")] = None
  /\ Sim.dispatch Sim.registry2 "copier" [("mode", JString "text")] Sim.idle
     = (Returned "Error: Missing required parameters: source, target", Sim.idle)
  /\ Sim.executed
       (snd (Sim.dispatch Sim.registry2 "copier" [("mode", JString "text")]
               Sim.idle)) = [].
Proof.
  assert (Hget : get_tool Sim.registry2 "copier" = Returned Sim.copier)
    by reflexivity.
  assert (Hkw : clashing_key [("mode", JString "text")] = None) by reflexivity.
  assert (Hex : exists p, In p (tool_parameters Sim.copier)
                  /\ param_required p = true
                  /\ PyDict.mem (param_name p) [("mode", JString "text")] = false).
  { eexists. split; [left; reflexivity|]. split; reflexivity. }
  destruct (missing_parameters_all_reported Sim.world Sim.markup_error
              Sim.duplicate_argument Sim.registry2 "copier"
              Sim.copier [("mode", JString "text")] Sim.idle Hget Hkw Hex)
    as (_ & Hworld & Hrun & _).
  split; [exact Hget|]. split; [exact Hkw|].
  split; [exact (Hrun eq_refl)|].
  unfold Sim.dispatch. now rewrite Hworld.
Defined.

(** C10, as stated, fails: for a name that is a closing tag the handler
    of [execute_tool] raises while it prints its line, and for a mapping
    with the key [self] the call raises while it binds the keywords. *)
Lemma execute_tool_can_raise :
  (exists e,
     Sim.dispatch Sim.registry "[/x]" [] Sim.idle = (Raised e, Sim.idle)
     /\ exn_class e = "MarkupError")
  /\ (exists e,
        Sim.dispatch Sim.registry "calculator" [("self", JString "x")] Sim.idle
        = (Raised e, Sim.idle)
        /\ exn_class e = "TypeError").
Proof. split; eexists; split; reflexivity. Qed.

(** C10, amended.  When the keywords can be bound (no key [self] or
    [name]) and the handler can print its line for whatever the [try]
    block raises, [execute_tool] returns a text: for a name that is not
    registered, the text says that the tool was not found and lists the
    registered names; for absent required parameters, it lists them; when
    the tool's [execute] raises, it carries the message of the exception;
    otherwise it is what [execute] returned. *)
Theorem execute_tool_total :
  forall (World : Type) (markup_error : string -> list string -> option exn)
         (duplicate_argument : string -> exn)
         (reg : ToolRegistry World) (name : string)
         (kw : kwargs) (w : World),
    clashing_key kw = None ->
    (forall e w', execute_tool_try reg name kw w = (Raised e, w') ->
                  error_line_prints markup_error name e) ->
    let run := execute_tool markup_error duplicate_argument reg name kw w in
    (exists text w', run = (Returned text, w'))
    /\ (~ In name (list_tools reg) ->
        run =
        (Returned ("Error: Tool '" ++ name ++ "' not found. Available tools: "
                   ++ String.concat ", " (list_tools reg)), w))
    /\ (forall tool,
          get_tool reg name = Returned tool ->
          missing_params tool kw <> [] ->
          run =
          (Returned ("Error: Missing required parameters: "
                     ++ String.concat ", " (missing_params tool kw)), w))
    /\ (forall tool e w',
          get_tool reg name = Returned tool ->
          missing_params tool kw = [] ->
          tool_execute tool kw w = (Raised e, w') ->
          run = (Returned ("Error: " ++ exn_str e), w'))
    /\ (forall tool text w',
          get_tool reg name = Returned tool ->
          missing_params tool kw = [] ->
          tool_execute tool kw w = (Returned text, w') ->
          run = (Returned text, w')).
Proof.
  intros World markup_error duplicate_argument reg name kw w Hkw Hprint run.
  subst run.
  assert (Hraised : forall e w',
             execute_tool_try reg name kw w = (Raised e, w') ->
             execute_tool markup_error duplicate_argument reg name kw w
             = (Returned ("Error: " ++ exn_str e), w')).
  { intros e w' Htry.
    exact (execute_tool_raised _ _ _ _ _ _ _ _ Hkw Htry (Hprint _ _ Htry)). }
  split; [|split; [|split; [|split]]].
  - destruct (execute_tool_try reg name kw w) as [[r|e] w'] eqn:Htry.
    + exists r, w'. now apply execute_tool_returned.
    + exists ("Error: " ++ exn_str e), w'. now apply Hraised.
  - intros Hnot.
    exact (Hraised _ _ (execute_tool_try_unknown _ _ kw w Hnot)).
  - intros tool Hget Hmiss.
    assert (Hne : nonempty (missing_params tool kw) = true).
    { destruct (missing_params tool kw); [contradiction | reflexivity]. }
    exact (Hraised _ _ (execute_tool_try_missing _ _ _ _ w Hget Hne)).
  - intros tool e w' Hget Hmiss Hexec. apply Hraised.
    rewrite (execute_tool_try_runs _ _ _ _ _ Hget); [exact Hexec|].
    now rewrite Hmiss.
  - intros tool text w' Hget Hmiss Hexec.
    apply execute_tool_returned; [exact Hkw|].
    rewrite (execute_tool_try_runs _ _ _ _ _ Hget); [exact Hexec|].
    now rewrite Hmiss.
Qed.

(** The four kinds of outcome on the registry of the calculator and the
    copier. *)
Lemma execute_tool_total_witness :
  let args : kwargs := [("expression", JString "2+2")] in
  let files : kwargs := [("source", JString "a"); ("target", JString "b")] in
  clashing_key args = None
  /\ clashing_key files = None
  /\ Sim.dispatch Sim.registry2 "teleport" args Sim.idle
     = (Returned "Error: Tool 'teleport' not found. Available tools: calculator, copier",
        Sim.idle)
  /\ Sim.dispatch Sim.registry2 "copier" args Sim.idle
     = (Returned "Error: Missing required parameters: source, target", Sim.idle)
  /\ Sim.dispatch Sim.registry2 "copier" files Sim.idle
     = (Returned "Error: disk full", Sim.log "copier" Sim.idle)
  /\ Sim.dispatch Sim.registry2 "calculator" args Sim.idle
     = (Returned "Result: 4", Sim.log "calculator" Sim.idle).
Proof.
  intros args files.
  assert (Hargs : clashing_key args = None) by reflexivity.
  assert (Hfiles : clashing_key files = None) by reflexivity.
  assert (Hnot : ~ In "teleport" (list_tools Sim.registry2)).
  { simpl. intros [H|[H|[]]]; discriminate. }
  assert (Hcop : get_tool Sim.registry2 "copier" = Returned Sim.copier)
    by reflexivity.
  assert (Hcal : get_tool Sim.registry2 "calculator" = Returned Sim.calculator)
    by reflexivity.
  assert (Hp1 : forall e w',
             execute_tool_try Sim.registry2 "teleport" args Sim.idle
             = (Raised e, w') ->
             error_line_prints Sim.markup_error "teleport" e).
  { intros e w' H. injection H as <- _. reflexivity. }
  assert (Hp2 : forall e w',
             execute_tool_try Sim.registry2 "copier" args Sim.idle
             = (Raised e, w') ->
             error_line_prints Sim.markup_error "copier" e).
  { intros e w' H. injection H as <- _. reflexivity. }
  assert (Hp3 : forall e w',
             execute_tool_try Sim.registry2 "copier" files Sim.idle
             = (Raised e, w') ->
             error_line_prints Sim.markup_error "copier" e).
  { intros e w' H. injection H as <- _. reflexivity. }
  assert (Hp4 : forall e w',
             execute_tool_try Sim.registry2 "calculator" args Sim.idle
             = (Raised e, w') ->
             error_line_prints Sim.markup_error "calculator" e).
  { intros e w' H. discriminate H. }
  destruct (execute_tool_total Sim.world Sim.markup_error
              Sim.duplicate_argument Sim.registry2 "teleport" args Sim.idle
              Hargs Hp1) as (_ & H1 & _).
  destruct (execute_tool_total Sim.world Sim.markup_error
              Sim.duplicate_argument Sim.registry2 "copier" args Sim.idle
              Hargs Hp2) as (_ & _ & H2 & _).
  destruct (execute_tool_total Sim.world Sim.markup_error
              Sim.duplicate_argument Sim.registry2 "copier" files Sim.idle
              Hfiles Hp3) as (_ & _ & _ & H3 & _).
  destruct (execute_tool_total Sim.world Sim.markup_error
              Sim.duplicate_argument Sim.registry2 "calculator" args Sim.idle
              Hargs Hp4) as (_ & _ & _ & _ & H4).
  split; [exact Hargs|]. split; [exact Hfiles|].
  split; [exact (H1 Hnot)|].
  split; [refine (H2 _ Hcop _); discriminate|].
  split; [exact (H3 _ _ _ Hcop eq_refl eq_refl)|].
  exact (H4 _ _ _ Hcal eq_refl eq_refl).
Defined.

(** ** Further facts on [PyDict] *)

Lemma set_absent {V} (k : string) (v : V) (d : PyDict.t V) :
  PyDict.mem k d = false -> PyDict.set k v d = (d ++ [(k, v)])%list.
Proof.
  induction d as [|[k' v'] d IH]; simpl; [reflexivity|].
  destruct (String.eqb k' k); [discriminate|].
  intros H. now rewrite (IH H).
Qed.

Lemma length_set {V} (k : string) (v : V) (d : PyDict.t V) :
  List.length (PyDict.set k v d)
  = if PyDict.mem k d then List.length d else S (List.length d).
Proof.
  induction d as [|[k' v'] d IH]; simpl; [reflexivity|].
  destruct (String.eqb k' k); simpl; [reflexivity|].
  rewrite IH. now destruct (PyDict.mem k d).
Qed.

Lemma Forall_set {V} (P : string * V -> Prop) (k : string) (v : V)
    (d : PyDict.t V) :
  P (k, v) -> Forall P d -> Forall P (PyDict.set k v d).
Proof.
  intros Hkv. induction 1 as [|[k' v'] d Hx Hd IH]; simpl.
  - now repeat constructor.
  - destruct (String.eqb_spec k' k) as [->|Hne]; constructor; auto.
Qed.

Lemma get_In {V} (k : string) (v : V) (d : PyDict.t V) :
  PyDict.get k d = Some v -> In (k, v) d.
Proof.
  induction d as [|[k' v'] d IH]; simpl; [discriminate|].
  destruct (String.eqb_spec k' k) as [->|Hne].
  - intros [= ->]. now left.
  - intros H. right. now apply IH.
Qed.

(** ** Further facts on registration *)

(** [register] keeps the invariant, whether it returns or raises. *)
Lemma register_ok {World} (markup_error : string -> list string -> option exn)
    (o : py_object World) (reg : ToolRegistry World) :
  registry_ok reg -> registry_ok (snd (register markup_error o reg)).
Proof.
  intros [Hnd Hall]. split; [now apply register_NoDup|].
  destruct (register_state markup_error o reg)
    as (tools & errs & -> & Htools & _).
  cbn [_tools]. destruct Htools as [-> | (t & _ & Hne & ->)]; [exact Hall|].
  apply Forall_set; [split; [reflexivity | exact Hne] | exact Hall].
Qed.

(** What [register] does with a tool whose name holds no closing tag. *)
Lemma register_printable {World}
    (markup_error : string -> list string -> option exn)
    (t : BaseTool World) (reg : ToolRegistry World) :
  holds_closing_tag (tool_name t) = false ->
  register markup_error (ToolObj t) reg
  = (Returned tt,
     if String.eqb (tool_name t) "" then store_error nameless reg
     else store_tool t reg).
Proof.
  intros Htag. destruct (String.eqb_spec (tool_name t) "") as [He|Hne].
  - unfold register, register_try, try_except. rewrite He. reflexivity.
  - now apply register_named.
Qed.

(** X1. A registration that [register] rejects (an object that is not a
    tool, or a tool without a name) is not raised to the caller: the tools
    of the registry are left as they were and exactly one message is added
    at the end of its error list, so that the statistics count one more
    error and the same tools. *)
Theorem register_rejection_is_recorded :
  forall (World : Type) (markup_error : string -> list string -> option exn)
         (o : py_object World) (reg : ToolRegistry World),
    (o = OtherObj \/ exists t, o = ToolObj t /\ tool_name t = "") ->
    exists msg,
      register markup_error o reg
      = (Returned tt,
         {| _tools := _tools reg;
            _tool_errors := (_tool_errors reg ++ [msg])%list |})
      /\ (o = OtherObj ->
          msg = "Failed to register tool: Tool must inherit from BaseTool")
      /\ (o <> OtherObj ->
          msg = "Failed to register tool: Tool must have a valid name")
      /\ list_tools (snd (register markup_error o reg)) = list_tools reg
      /\ errors (get_registry_stats (snd (register markup_error o reg)))
         = S (errors (get_registry_stats reg)).
Proof.
  intros World markup_error o reg [-> | (t & -> & Hname)].
  - exists "Failed to register tool: Tool must inherit from BaseTool".
    split; [reflexivity|]. split; [reflexivity|].
    split; [intros H; now contradiction H|]. split; [reflexivity|].
    unfold get_registry_stats, register, register_try, try_except, raise,
      bind, modify, lift_outcome.
    cbn [snd errors _tool_errors store_error].
    rewrite length_app. cbn [List.length]. lia.
  - exists "Failed to register tool: Tool must have a valid name".
    unfold register, register_try, try_except, raise, bind, modify,
      lift_outcome. rewrite Hname.
    cbn [String.eqb snd]. split; [reflexivity|]. split; [discriminate|].
    split; [reflexivity|]. split; [reflexivity|].
    unfold get_registry_stats. cbn [errors _tool_errors store_error snd].
    rewrite length_app. cbn [List.length]. lia.
Qed.

Lemma register_rejection_is_recorded_witness :
  register Sim.markup_error (@OtherObj Sim.world) Sim.registry
  = (Returned tt,
     {| _tools := _tools Sim.registry;
        _tool_errors :=
          ["Failed to register tool: Tool must inherit from BaseTool"] |})
  /\ list_tools (snd (register Sim.markup_error (@OtherObj Sim.world)
                        Sim.registry))
     = ["calculator"].
Proof.
  destruct (register_rejection_is_recorded Sim.world Sim.markup_error OtherObj
              Sim.registry (or_introl eq_refl))
    as (msg & Hrun & Hmsg & _ & Hlist & _).
  rewrite (Hmsg eq_refl) in Hrun. split; [exact Hrun | exact Hlist].
Defined.

(** X2. Registering a tool under a name that is not empty, holds no
    closing tag and is not yet registered returns, puts the name last in
    [list_tools], makes [get_tool] return the tool under that name, leaves
    every other lookup and the error list as they were, and makes the
    registry one tool larger. *)
Theorem register_fresh_name_appends :
  forall (World : Type) (markup_error : string -> list string -> option exn)
         (t : BaseTool World) (reg : ToolRegistry World),
    tool_name t <> "" ->
    holds_closing_tag (tool_name t) = false ->
    ~ In (tool_name t) (list_tools reg) ->
    let reg' := snd (register markup_error (ToolObj t) reg) in
    fst (register markup_error (ToolObj t) reg) = Returned tt
    /\ list_tools reg' = (list_tools reg ++ [tool_name t])%list
    /\ get_tool reg' (tool_name t) = Returned t
    /\ (forall name t0, get_tool reg name = Returned t0 ->
                        get_tool reg' name = Returned t0)
    /\ _tool_errors reg' = _tool_errors reg
    /\ total_tools (get_registry_stats reg')
       = S (total_tools (get_registry_stats reg)).
Proof.
  intros World markup_error t reg Hname Htag Hfresh reg'. subst reg'.
  rewrite (register_named _ _ _ Hname Htag). cbn [fst snd].
  apply mem_false_In in Hfresh.
  split; [reflexivity|].
  split; [apply keys_set_absent, Hfresh|].
  split; [unfold get_tool; cbn [_tools store_tool]; now rewrite get_set_same|].
  split.
  - intros name t0 Hget. unfold get_tool in *. cbn [_tools store_tool].
    destruct (String.eqb_spec (tool_name t) name) as [<-|Hne].
    + rewrite get_mem in Hfresh.
      destruct (PyDict.get (tool_name t) (_tools reg)); discriminate.
    + rewrite (get_set_other _ _ _ _ Hne).
      destruct (PyDict.get name (_tools reg)); [exact Hget | discriminate].
  - split; [reflexivity|]. unfold get_registry_stats.
    cbn [total_tools _tools store_tool]. now rewrite length_set, Hfresh.
Qed.

Lemma register_fresh_name_appends_witness :
  tool_name Sim.copier <> ""
  /\ holds_closing_tag (tool_name Sim.copier) = false
  /\ ~ In (tool_name Sim.copier) (list_tools Sim.registry)
  /\ list_tools (snd (register Sim.markup_error (ToolObj Sim.copier)
                        Sim.registry))
     = ["calculator"; "copier"]
  /\ get_tool (snd (register Sim.markup_error (ToolObj Sim.copier)
                      Sim.registry)) "calculator"
     = Returned Sim.calculator.
Proof.
  assert (Hname : tool_name Sim.copier <> "") by discriminate.
  assert (Htag : holds_closing_tag (tool_name Sim.copier) = false)
    by reflexivity.
  assert (Hfresh : ~ In (tool_name Sim.copier) (list_tools Sim.registry)).
  { cbn. intros [H|[]]. discriminate. }
  destruct (register_fresh_name_appends Sim.world Sim.markup_error Sim.copier
              Sim.registry Hname Htag Hfresh)
    as (_ & Hlist & _ & Hother & _).
  split; [exact Hname|]. split; [exact Htag|]. split; [exact Hfresh|].
  split; [exact Hlist|]. exact (Hother "calculator" Sim.calculator eq_refl).
Defined.

(** X3. [get_tool] and [list_tools] agree: [get_tool] returns a tool
    exactly for the names that [list_tools] lists, and raises a
    [ValueError] for every other name. *)
Theorem get_tool_succeeds_iff_listed :
  forall (World : Type) (reg : ToolRegistry World) (name : string),
    ((exists t, get_tool reg name = Returned t) <-> In name (list_tools reg))
    /\ ((exists e, get_tool reg name = Raised e /\ exn_class e = "ValueError")
        <-> ~ In name (list_tools reg)).
Proof.
  intros World reg name. split; split.
  - intros [t Hget]. apply mem_In. rewrite get_mem. unfold get_tool in Hget.
    destruct (PyDict.get name (_tools reg)); [reflexivity | discriminate].
  - apply get_tool_known.
  - intros (e & Hget & _) Hin.
    destruct (get_tool_known _ _ Hin) as [t Ht]. congruence.
  - intros Hnot. eexists. split; [apply get_tool_unknown, Hnot | reflexivity].
Qed.

(** ** Discovery ([auto_discover_tools]) *)

Lemma advance_0 (summary : discovery_summary) : advance 0 [] summary = summary.
Proof.
  destruct summary as [n errs]. unfold advance. cbn.
  now rewrite Nat.add_0_r, app_nil_r.
Qed.

Lemma advance_advance (n1 n2 : nat) (errs1 errs2 : list string)
    (summary : discovery_summary) :
  advance n2 errs2 (advance n1 errs1 summary)
  = advance (n1 + n2) (errs1 ++ errs2) summary.
Proof. unfold advance. cbn. now rewrite Nat.add_assoc, app_assoc. Qed.

Section DiscoveryFacts.

Context {World : Type}.
Variable markup_error : string -> list string -> option exn.
Implicit Types (reg : ToolRegistry World) (summary : discovery_summary).

(** What [register] adds for a tool whose name holds no closing tag. *)
Lemma register_tool_effect (t : BaseTool World) reg :
  holds_closing_tag (tool_name t) = false ->
  exists reg1 k,
    register markup_error (ToolObj t) reg = (Returned tt, reg1)
    /\ _tool_errors reg1 = (_tool_errors reg ++ repeat nameless k)%list
    /\ k <= 1
    /\ List.length (_tools reg1) + k <= List.length (_tools reg) + 1.
Proof.
  intros Htag. rewrite (register_printable _ _ _ Htag).
  destruct (String.eqb (tool_name t) "").
  - eexists. exists 1. split; [reflexivity|]. cbn. repeat split; lia.
  - eexists. exists 0. split; [reflexivity|].
    cbn [_tool_errors _tools store_tool repeat].
    rewrite app_nil_r, length_set. split; [reflexivity|]. split; [lia|].
    destruct (PyDict.mem (tool_name t) (_tools reg)); lia.
Qed.

Lemma accounted_refl reg : accounted reg reg 0.
Proof. exists 0. cbn. rewrite app_nil_r. repeat split; lia. Qed.

Lemma accounted_trans reg reg1 reg2 n1 n2 :
  accounted reg reg1 n1 -> accounted reg1 reg2 n2 ->
  accounted reg reg2 (n1 + n2).
Proof.
  intros (k1 & He1 & Hk1 & Hl1) (k2 & He2 & Hk2 & Hl2). exists (k1 + k2).
  rewrite He2, He1, <- app_assoc, repeat_app. repeat split; lia.
Qed.

(** What one attribute of a module does: it adds to the two locals of
    discovery amounts that do not depend on them, and it changes the
    registry through [register] alone. *)
Lemma discover_attr_effect (f_name attr_name : string)
    (attr : module_attr World) reg :
  exists o reg' n errs,
    (forall summary,
       discover_attr markup_error f_name attr_name attr (reg, summary)
       = (o, (reg', advance n errs summary)))
    /\ (forall P : ToolRegistry World -> Prop,
          (forall t r, P r -> P (snd (register markup_error (ToolObj t) r))) ->
          P reg -> P reg')
    /\ ((forall t, attr = ToolSubclass (Returned t) ->
                   holds_closing_tag (tool_name t) = false) ->
        accounted reg reg' n).
Proof.
  destruct attr as [|[t|e]|].
  - exists (Returned tt), reg, 0, []. split; [|split].
    + intros summary. cbn. now rewrite advance_0.
    + intros P _ HP. exact HP.
    + intros _. apply accounted_refl.
  - destruct (register markup_error (ToolObj t) reg) as [[[]|e1] reg1] eqn:Hreg.
    + exists (Returned tt), reg1, 1, []. split; [|split].
      * intros summary.
        unfold discover_attr, try_except, bind, lift_outcome, on_registry,
          count_tool, modify. cbn [fst snd]. rewrite Hreg. cbn [fst snd].
        unfold advance. now rewrite app_nil_r.
      * intros P Hreg' HP. specialize (Hreg' t reg HP).
        now rewrite Hreg in Hreg'.
      * intros Htag.
        destruct (register_tool_effect t reg (Htag t eq_refl))
          as (reg2 & k & Hreg2 & Hacc).
        rewrite Hreg in Hreg2. injection Hreg2 as <-. now exists k.
    + exists (console_print markup_error "[red]✗[/red] {error_msg}"
                ["Failed to register " ++ attr_name ++ " from " ++ f_name
                 ++ ": " ++ exn_str e1]),
             reg1, 0,
             ["Failed to register " ++ attr_name ++ " from " ++ f_name
              ++ ": " ++ exn_str e1].
      split; [|split].
      * intros summary.
        unfold discover_attr, try_except, bind, lift_outcome, on_registry,
          report_error, bind, modify, lift_outcome.
        cbn [fst snd]. rewrite Hreg. cbn [fst snd].
        unfold advance. now rewrite Nat.add_0_r.
      * intros P Hreg' HP. specialize (Hreg' t reg HP).
        now rewrite Hreg in Hreg'.
      * intros Htag.
        destruct (register_tool_effect t reg (Htag t eq_refl))
          as (reg2 & k & Hreg2 & _).
        rewrite Hreg in Hreg2. discriminate.
  - exists (console_print markup_error "[red]✗[/red] {error_msg}"
              ["Failed to register " ++ attr_name ++ " from " ++ f_name
               ++ ": " ++ exn_str e]),
           reg, 0,
           ["Failed to register " ++ attr_name ++ " from " ++ f_name
            ++ ": " ++ exn_str e].
    split; [|split].
    + intros summary.
      unfold discover_attr, try_except, bind, lift_outcome, report_error,
        bind, modify, lift_outcome. cbn [fst snd].
      unfold advance. now rewrite Nat.add_0_r.
    + intros P _ HP. exact HP.
    + intros _. apply accounted_refl.
  - exists (Returned tt), reg, 0, []. split; [|split].
    + intros summary. cbn. now rewrite advance_0.
    + intros P _ HP. exact HP.
    + intros _. apply accounted_refl.
Qed.

Lemma discover_attrs_effect (f_name : string)
    (attrs : list (string * module_attr World)) :
  forall reg,
  exists o reg' n errs,
    (forall summary,
       discover_attrs markup_error f_name attrs (reg, summary)
       = (o, (reg', advance n errs summary)))
    /\ (forall P : ToolRegistry World -> Prop,
          (forall t r, P r -> P (snd (register markup_error (ToolObj t) r))) ->
          P reg -> P reg')
    /\ ((forall attr_name t,
           In (attr_name, ToolSubclass (Returned t)) attrs ->
           holds_closing_tag (tool_name t) = false) ->
        accounted reg reg' n).
Proof.
  induction attrs as [|[attr_name attr] rest IH]; intros reg.
  - exists (Returned tt), reg, 0, []. split; [|split].
    + intros summary. cbn. now rewrite advance_0.
    + intros P _ HP. exact HP.
    + intros _. apply accounted_refl.
  - destruct (discover_attr_effect f_name attr_name attr reg)
      as (o1 & reg1 & n1 & errs1 & Hrun1 & HP1 & Hacc1).
    destruct o1 as [[]|e1].
    + destruct (IH reg1) as (o2 & reg2 & n2 & errs2 & Hrun2 & HP2 & Hacc2).
      exists o2, reg2, (n1 + n2), (errs1 ++ errs2)%list. split; [|split].
      * intros summary. cbn [discover_attrs]. unfold bind at 1.
        rewrite Hrun1, Hrun2. now rewrite advance_advance.
      * intros P Hreg HP. apply (HP2 P Hreg), (HP1 P Hreg), HP.
      * intros Htag. apply accounted_trans with reg1.
        -- apply Hacc1. intros t ->. apply (Htag attr_name). now left.
        -- apply Hacc2. intros a t Hin. apply (Htag a). now right.
    + exists (Raised e1), reg1, n1, errs1. split; [|split].
      * intros summary. cbn [discover_attrs]. unfold bind at 1.
        now rewrite Hrun1.
      * exact HP1.
      * intros Htag. apply Hacc1. intros t ->. apply (Htag attr_name).
        now left.
Qed.

Lemma discover_file_effect (f : plugin_file World) reg :
  exists o reg' n errs,
    (forall summary,
       discover_file markup_error f (reg, summary)
       = (o, (reg', advance n errs summary)))
    /\ (forall P : ToolRegistry World -> Prop,
          (forall t r, P r -> P (snd (register markup_error (ToolObj t) r))) ->
          P reg -> P reg')
    /\ ((forall attrs attr_name t,
           import_module f = Returned attrs ->
           In (attr_name, ToolSubclass (Returned t)) attrs ->
           holds_closing_tag (tool_name t) = false) ->
        accounted reg reg' n).
Proof.
  destruct (import_module f) as [attrs|e] eqn:Himp.
  - destruct (discover_attrs_effect (file_name f) attrs reg)
      as (o1 & reg1 & n1 & errs1 & Hrun1 & HP1 & Hacc1).
    destruct o1 as [[]|e1].
    + exists (Returned tt), reg1, n1, errs1. split; [|split].
      * intros summary.
        unfold discover_file, try_except, bind at 1, lift_outcome.
        now rewrite Himp, Hrun1.
      * exact HP1.
      * intros Htag. apply Hacc1. intros a t. now apply Htag.
    + exists (console_print markup_error "[red]✗[/red] {error_msg}"
                ["Error loading module " ++ file_name f ++ ": " ++ exn_str e1]),
             reg1, n1,
             (errs1 ++ [load_error f e1])%list.
      split; [|split].
      * intros summary.
        unfold discover_file, try_except, bind at 1, lift_outcome.
        rewrite Himp, Hrun1.
        unfold report_error, bind, modify, lift_outcome. cbn [fst snd].
        unfold advance, load_error. cbn [tools_found discovery_errors].
        now rewrite <- app_assoc.
      * exact HP1.
      * intros Htag. apply Hacc1. intros a t. now apply Htag.
  - exists (console_print markup_error "[red]✗[/red] {error_msg}"
              ["Error loading module " ++ file_name f ++ ": " ++ exn_str e]),
           reg, 0,
           ["Error loading module " ++ file_name f ++ ": " ++ exn_str e].
    split; [|split].
    + intros summary.
      unfold discover_file, try_except, bind at 1, lift_outcome.
      rewrite Himp.
      unfold report_error, bind, modify, lift_outcome. cbn [fst snd].
      unfold advance. now rewrite Nat.add_0_r.
    + intros P _ HP. exact HP.
    + intros _. apply accounted_refl.
Qed.

Lemma discover_files_effect (files : list (plugin_file World)) :
  forall reg,
  exists o reg' n errs,
    (forall summary,
       discover_files markup_error files (reg, summary)
       = (o, (reg', advance n errs summary)))
    /\ (forall P : ToolRegistry World -> Prop,
          (forall t r, P r -> P (snd (register markup_error (ToolObj t) r))) ->
          P reg -> P reg')
    /\ (printable_tools files -> accounted reg reg' n).
Proof.
  induction files as [|f rest IH]; intros reg.
  - exists (Returned tt), reg, 0, []. split; [|split].
    + intros summary. cbn. now rewrite advance_0.
    + intros P _ HP. exact HP.
    + intros _. apply accounted_refl.
  - assert (Hrest : printable_tools (f :: rest) -> printable_tools rest).
    { intros H f0 attrs a t Hin. apply (H f0 attrs a t). now right. }
    assert (Hskip : exists o reg' n errs,
               (forall summary,
                  discover_files markup_error rest (reg, summary)
                  = (o, (reg', advance n errs summary)))
               /\ (forall P : ToolRegistry World -> Prop,
                     (forall t r, P r ->
                        P (snd (register markup_error (ToolObj t) r))) ->
                     P reg -> P reg')
               /\ (printable_tools (f :: rest) -> accounted reg reg' n)).
    { destruct (IH reg) as (o & reg' & n & errs & Hrun & HP & Hacc).
      exists o, reg', n, errs. split; [exact Hrun|]. split; [exact HP|].
      intros H. apply Hacc, Hrest, H. }
    cbn [discover_files].
    destruct (String.prefix "__" (file_name f)); [exact Hskip|].
    destruct (st_size f) as [[|size]|e].
    + exact Hskip.
    + destruct (discover_file_effect f reg)
        as (o1 & reg1 & n1 & errs1 & Hrun1 & HP1 & Hacc1).
      destruct o1 as [[]|e1].
      * destruct (IH reg1) as (o2 & reg2 & n2 & errs2 & Hrun2 & HP2 & Hacc2).
        exists o2, reg2, (n1 + n2), (errs1 ++ errs2)%list. split; [|split].
        -- intros summary. unfold bind at 1, lift_outcome. cbn [Nat.eqb].
           unfold bind at 1. rewrite Hrun1, Hrun2.
           now rewrite advance_advance.
        -- intros P Hreg HP. apply (HP2 P Hreg), (HP1 P Hreg), HP.
        -- intros Htag. apply accounted_trans with reg1.
           ++ apply Hacc1. intros attrs a t. apply (Htag f). now left.
           ++ apply Hacc2, Hrest, Htag.
      * exists (Raised e1), reg1, n1, errs1. split; [|split].
        -- intros summary. unfold bind at 1, lift_outcome. cbn [Nat.eqb].
           unfold bind at 1. now rewrite Hrun1.
        -- exact HP1.
        -- intros Htag. apply Hacc1. intros attrs a t. apply (Htag f).
           now left.
    + exists (Raised e), reg, 0, []. split; [|split].
      * intros summary. unfold bind at 1, lift_outcome.
        now rewrite advance_0.
      * intros P _ HP. exact HP.
      * intros _. apply accounted_refl.
Qed.

Lemma discover_files_app (l1 l2 : list (plugin_file World)) :
  forall (s : discovery_state World),
    discover_files markup_error (l1 ++ l2)%list s
    = match discover_files markup_error l1 s with
      | (Returned _, s1) => discover_files markup_error l2 s1
      | (Raised e, s1) => (Raised e, s1)
      end.
Proof.
  induction l1 as [|f rest IH]; intros s.
  - reflexivity.
  - cbn [app discover_files].
    destruct (String.prefix "__" (file_name f)); [apply IH|].
    unfold bind, lift_outcome.
    destruct (st_size f) as [[|size]|e]; [apply IH | | reflexivity].
    cbn [Nat.eqb].
    destruct (discover_file markup_error f s) as [[[]|e] s1];
      [apply IH | reflexivity].
Qed.

(** A file that fails to load and whose error line can be printed. *)
Lemma discover_files_cons_broken (f : plugin_file World)
    (rest : list (plugin_file World)) (size : nat) (e : exn)
    (s : discovery_state World) :
  String.prefix "__" (file_name f) = false ->
  st_size f = Returned (S size) ->
  import_module f = Raised e ->
  console_print markup_error "[red]✗[/red] {error_msg}" [load_error f e]
  = Returned tt ->
  discover_files markup_error (f :: rest) s
  = discover_files markup_error rest
      (fst s, advance 0 [load_error f e] (snd s)).
Proof.
  intros Hp Hs Himp Hprint. cbn [discover_files]. rewrite Hp.
  unfold bind, lift_outcome, discover_file, try_except, report_error, bind,
    modify, lift_outcome.
  rewrite Hs, Himp. cbn [Nat.eqb fst snd]. unfold load_error in *.
  rewrite Hprint. unfold advance. now rewrite Nat.add_0_r.
Qed.

(** Discovery changes the registry through [register] alone: whatever
    [register] preserves, discovery preserves, whether it returns or
    raises. *)
Lemma auto_discover_tools_preserves (P : ToolRegistry World -> Prop)
    (tools_dir : option (list (plugin_file World))) reg :
  (forall t r, P r -> P (snd (register markup_error (ToolObj t) r))) ->
  P reg -> P (snd (auto_discover_tools markup_error tools_dir reg)).
Proof.
  intros Hreg HP. destruct tools_dir as [files|]; [|exact HP].
  unfold auto_discover_tools.
  destruct (discover_files_effect files reg)
    as (o & reg' & n & errs & Hrun & HP' & _).
  rewrite Hrun. destruct o; cbn [fst snd]; now apply HP'.
Qed.

End DiscoveryFacts.

(** C6, on the code: of three plugin files the second of which fails to
    load, discovery registers the tools of the first and of the third and
    counts one error in its summary, but the error is not stored in the
    registry: [get_registry_stats] shows no error. *)
Theorem discovery_load_error_not_in_stats :
  let r := auto_discover_tools Sim.markup_error (Some Sim.three_units)
             new_registry in
  fst r = Returned
            {| tools_found := 2;
               discovery_errors :=
                 ["Error loading module news_tool.py: No module named 'requests'"] |}
  /\ list_tools (snd r) = ["calculator"; "copier"]
  /\ errors (get_registry_stats (snd r)) = 0
  /\ error_messages (get_registry_stats (snd r)) = [].
Proof.
  split; [reflexivity|]. split; [reflexivity|]. split; reflexivity.
Qed.

(** X4. The registry keeps its invariant: in a new registry, and after any
    number of registrations and discoveries, the names are distinct and
    every tool is stored under its own name, which is not empty; so the
    tool that [get_tool] returns for a name has that name. *)
Theorem registry_invariant_kept :
  forall (World : Type) (markup_error : string -> list string -> option exn),
    registry_ok (@new_registry World)
    /\ (forall (o : py_object World) reg,
          registry_ok reg -> registry_ok (snd (register markup_error o reg)))
    /\ (forall tools_dir (reg : ToolRegistry World),
          registry_ok reg ->
          registry_ok (snd (auto_discover_tools markup_error tools_dir reg)))
    /\ (forall (reg : ToolRegistry World) name t,
          registry_ok reg -> get_tool reg name = Returned t ->
          tool_name t = name /\ name <> "").
Proof.
  intros World markup_error. split; [|split; [|split]].
  - split; constructor.
  - intros o reg. apply register_ok.
  - intros tools_dir reg Hok.
    apply auto_discover_tools_preserves; [|exact Hok].
    intros t r. apply register_ok.
  - intros reg name t [_ Hall] Hget. unfold get_tool in Hget.
    destruct (PyDict.get name (_tools reg)) as [t0|] eqn:E; [|discriminate].
    injection Hget as ->. apply get_In in E.
    rewrite Forall_forall in Hall. destruct (Hall _ E) as [Hn Hne].
    cbn [fst snd] in Hn, Hne. now split.
Qed.

Lemma registry_invariant_kept_witness :
  let reg := snd (auto_discover_tools Sim.markup_error
                    (Some Sim.three_units) new_registry) in
  registry_ok reg
  /\ get_tool reg "copier" = Returned Sim.copier
  /\ tool_name Sim.copier = "copier".
Proof.
  intros reg.
  destruct (registry_invariant_kept Sim.world Sim.markup_error)
    as (Hnew & _ & Hdisc & Hget).
  pose proof (Hdisc (Some Sim.three_units) new_registry Hnew) as Hok.
  split; [exact Hok|]. split; [reflexivity|].
  exact (proj1 (Hget _ "copier" Sim.copier Hok eq_refl)).
Defined.

(** X7. Discovery passes over the files whose name begins with two
    underscores and over the empty files: it does what it would do if
    those files were not there.  When the directory does not exist it
    finds nothing and leaves the registry as it is. *)
Theorem auto_discover_tools_skips :
  forall (World : Type) (markup_error : string -> list string -> option exn)
         (files : list (plugin_file World)) (reg : ToolRegistry World),
    auto_discover_tools markup_error
      (Some (filter (fun f => negb (skipped f)) files)) reg
    = auto_discover_tools markup_error (Some files) reg
    /\ auto_discover_tools markup_error None reg
       = (Returned {| tools_found := 0; discovery_errors := [] |}, reg).
Proof.
  intros World markup_error files reg. split; [|reflexivity].
  unfold auto_discover_tools.
  assert (H : forall s : discovery_state World,
             discover_files markup_error
               (filter (fun f => negb (skipped f)) files) s
             = discover_files markup_error files s).
  { induction files as [|f rest IH]; intros s; [reflexivity|].
    cbn [filter discover_files]. unfold skipped at 1.
    destruct (String.prefix "__" (file_name f)) eqn:Hp; cbn [orb negb];
      [apply IH|].
    destruct (st_size f) as [[|size]|e] eqn:Hs; cbn [negb].
    - unfold bind, lift_outcome. cbn [Nat.eqb]. apply IH.
    - cbn [discover_files]. rewrite Hp, Hs.
      unfold bind, lift_outcome. cbn [Nat.eqb].
      destruct (discover_file markup_error f s) as [[[]|e] s1];
        [apply IH | reflexivity].
    - cbn [discover_files]. rewrite Hp, Hs. reflexivity. }
  now rewrite H.
Qed.

(** X8. A file that fails to load, and whose error line can be printed,
    costs one entry in the summary and nothing else: with the file among
    the others, discovery ends with the registry that it reaches without
    the file; it raises if it raises without the file, and otherwise
    returns the same count of tools and the same errors plus the one of the
    file, at its place. *)
Theorem auto_discover_tools_isolates_load_failure :
  forall (World : Type) (markup_error : string -> list string -> option exn)
         (before after : list (plugin_file World))
         (broken : plugin_file World) (size : nat) (e : exn)
         (reg : ToolRegistry World),
    String.prefix "__" (file_name broken) = false ->
    st_size broken = Returned (S size) ->
    import_module broken = Raised e ->
    console_print markup_error "[red]✗[/red] {error_msg}"
      [load_error broken e] = Returned tt ->
    let r0 := auto_discover_tools markup_error
                (Some (before ++ after)%list) reg in
    let r := auto_discover_tools markup_error
               (Some (before ++ broken :: after)%list) reg in
    snd r = snd r0
    /\ (forall e', fst r0 = Raised e' -> fst r = Raised e')
    /\ (forall summary0,
          fst r0 = Returned summary0 ->
          exists errs1 errs2,
            discovery_errors summary0 = (errs1 ++ errs2)%list
            /\ fst r
               = Returned
                   {| tools_found := tools_found summary0;
                      discovery_errors :=
                        (errs1 ++ load_error broken e :: errs2)%list |}).
Proof.
  intros World markup_error before after broken size e reg Hp Hs Himp Hprint
    r0 r.
  subst r0 r. unfold auto_discover_tools. rewrite !discover_files_app.
  destruct (discover_files_effect markup_error before reg)
    as (o1 & reg1 & n1 & errs1 & Hrun1 & _).
  rewrite Hrun1. destruct o1 as [[]|e1].
  - destruct (discover_files_effect markup_error after reg1)
      as (o2 & reg2 & n2 & errs2 & Hrun2 & _).
    rewrite (discover_files_cons_broken markup_error _ _ _ _ _ Hp Hs Himp
               Hprint).
    cbn [fst snd]. rewrite !Hrun2.
    destruct o2 as [[]|e2]; cbn [fst snd].
    + split; [reflexivity|]. split; [intros e' H; discriminate|].
      intros summary0 [= <-]. exists errs1, errs2.
      unfold advance. cbn [tools_found discovery_errors app].
      split; [reflexivity|].
      now rewrite Nat.add_0_r, <- app_assoc.
    + split; [reflexivity|]. split; [intros e' H; exact H|].
      intros summary0 H. discriminate.
  - cbn [fst snd]. split; [reflexivity|]. split; [intros e' H; exact H|].
    intros summary0 H. discriminate.
Qed.

Lemma auto_discover_tools_isolates_load_failure_witness :
  let two := [Sim.plugin "calculator.py" "CalculatorTool" Sim.calculator;
              Sim.plugin "copier.py" "CopierTool" Sim.copier] in
  snd (Sim.discover (Some Sim.three_units) new_registry)
  = snd (Sim.discover (Some two) new_registry)
  /\ fst (Sim.discover (Some two) new_registry)
     = Returned {| tools_found := 2; discovery_errors := [] |}
  /\ fst (Sim.discover (Some Sim.three_units) new_registry)
     = Returned
         {| tools_found := 2;
            discovery_errors :=
              ["Error loading module news_tool.py: No module named 'requests'"] |}.
Proof.
  intros two.
  destruct (auto_discover_tools_isolates_load_failure Sim.world
              Sim.markup_error
              [Sim.plugin "calculator.py" "CalculatorTool" Sim.calculator]
              [Sim.plugin "copier.py" "CopierTool" Sim.copier]
              (Sim.broken_plugin "news_tool.py") 0
              (Exn "ModuleNotFoundError" "No module named 'requests'")
              new_registry eq_refl eq_refl eq_refl eq_refl)
    as (Hreg & _ & _).
  split; [exact Hreg|]. split; reflexivity.
Defined.

(** X9. What discovery stores in the registry, whether it returns or
    raises: the messages that it adds to the error list are messages of
    [register] and nothing else, so that a failure to load a file is never
    stored there.  When the tools of the files have names without a
    closing tag, these messages are all for tools without a name, and
    [tools_found] counts every tool instance handed to [register], the
    rejected ones included: the registry grows by at most [tools_found]
    less the rejected ones. *)
Theorem auto_discover_tools_accounting :
  forall (World : Type) (markup_error : string -> list string -> option exn)
         (tools_dir : option (list (plugin_file World)))
         (reg : ToolRegistry World),
    let r := auto_discover_tools markup_error tools_dir reg in
    (exists added,
       _tool_errors (snd r) = (_tool_errors reg ++ added)%list
       /\ Forall (fun m => exists e,
                    m = "Failed to register tool: " ++ exn_str e) added)
    /\ (forall (f : plugin_file World) e,
          ~ In (load_error f e) (_tool_errors reg) ->
          ~ In (load_error f e) (_tool_errors (snd r)))
    /\ (forall files,
          tools_dir = Some files -> printable_tools files ->
          exists rejected,
            _tool_errors (snd r)
            = (_tool_errors reg ++ repeat nameless rejected)%list
            /\ (forall summary,
                  fst r = Returned summary ->
                  rejected <= tools_found summary
                  /\ List.length (list_tools (snd r)) + rejected
                     <= List.length (list_tools reg) + tools_found summary)).
Proof.
  intros World markup_error tools_dir reg r.
  assert (Hadded : exists added,
             _tool_errors (snd r) = (_tool_errors reg ++ added)%list
             /\ Forall (fun m => exists e,
                          m = "Failed to register tool: " ++ exn_str e) added).
  { subst r.
    apply (auto_discover_tools_preserves markup_error
             (fun r0 => exists added,
                _tool_errors r0 = (_tool_errors reg ++ added)%list
                /\ Forall (fun m => exists e,
                             m = "Failed to register tool: " ++ exn_str e)
                          added)).
    - intros t r0 (added & Hadd & Hall).
      destruct (register_state markup_error (ToolObj t) r0)
        as (tools & errs & -> & _ & _ & Herrs).
      exists (added ++ errs)%list. cbn [_tool_errors].
      split; [now rewrite Hadd, app_assoc | now apply Forall_app].
    - exists []. split; [now rewrite app_nil_r | constructor]. }
  split; [exact Hadded|]. split.
  - intros f e Hnot Hin. destruct Hadded as (added & Hadd & Hall).
    rewrite Hadd in Hin. apply in_app_or in Hin.
    destruct Hin as [Hin|Hin]; [now apply Hnot|].
    rewrite Forall_forall in Hall. destruct (Hall _ Hin) as [e0 He0].
    unfold load_error in He0. discriminate.
  - intros files -> Hprintable. subst r. unfold auto_discover_tools.
    destruct (discover_files_effect markup_error files reg)
      as (o & reg' & n & errs & Hrun & _ & Hacc).
    destruct (Hacc Hprintable) as (k & He & Hk & Hl).
    rewrite Hrun. exists k. destruct o as [[]|e]; cbn [fst snd].
    + split; [exact He|]. intros summary [= <-].
      cbn [advance tools_found]. unfold list_tools, PyDict.keys.
      rewrite !length_map. split; lia.
    + split; [exact He|]. intros summary H. discriminate.
Qed.

Lemma auto_discover_tools_accounting_witness :
  printable_tools Sim.three_units
  /\ _tool_errors (snd (Sim.discover (Some Sim.three_units) new_registry)) = []
  /\ List.length
       (list_tools (snd (Sim.discover (Some Sim.three_units) new_registry)))
     <= 2.
Proof.
  assert (Hprintable : printable_tools Sim.three_units).
  { intros f attrs a t Hin Himp Ha.
    destruct Hin as [<-|[<-|[<-|[]]]]; cbn in Himp;
      try discriminate; injection Himp as <-;
      destruct Ha as [Ha|[Ha|[Ha|[]]]]; try discriminate;
      injection Ha as _ <-; reflexivity. }
  destruct (auto_discover_tools_accounting Sim.world Sim.markup_error
              (Some Sim.three_units) new_registry) as (_ & _ & Hacc).
  destruct (Hacc Sim.three_units eq_refl Hprintable)
    as (rejected & Herrs & Hcount).
  destruct (Hcount {| tools_found := 2;
                      discovery_errors :=
                        ["Error loading module news_tool.py: No module named 'requests'"] |}
              eq_refl) as [_ Hlen].
  split; [exact Hprintable|]. split; [reflexivity|].
  cbn [tools_found list_tools new_registry _tools PyDict.keys PyDict.empty
       map List.length] in Hlen.
  unfold Sim.discover. lia.
Defined.

(** ** Turn processing ([chat]) *)

Section TurnFacts.

Context {World : Type}.
Variable markup_error : string -> list string -> option exn.
Variable duplicate_argument : string -> exn.
Variable json_loads : string -> outcome json.
Variable create : request -> Py World ChatCompletion.
Variable interp_error : json -> exn.
Variable py_str : json -> string.

Implicit Types (self : ChatBot World) (w : World) (tc : tool_call)
  (tool_results : list message).

Local Abbreviation handle_tool_call' :=
  (handle_tool_call markup_error duplicate_argument json_loads interp_error
     py_str).
Local Abbreviation handle_tool_calls' :=
  (_handle_tool_calls markup_error duplicate_argument json_loads interp_error
     py_str).
Local Abbreviation chat_try' :=
  (chat_try markup_error duplicate_argument json_loads create interp_error
     py_str).
Local Abbreviation chat' :=
  (chat markup_error duplicate_argument json_loads create interp_error
     py_str).

Lemma history_extend_nil self : history_extend [] self = self.
Proof. destruct self. unfold history_extend. simpl. now rewrite app_nil_r. Qed.

Lemma history_extend_extend self (xs ys : list message) :
  history_extend ys (history_extend xs self) = history_extend (xs ++ ys)%list self.
Proof. unfold history_extend. simpl. now rewrite app_assoc. Qed.

(** One tool call, whether its iteration returns or raises: at most the
    assistant message that carries the call is appended to the transcript,
    nothing else of the chatbot changes, and what is returned is the
    results with one more tool-role message for the call. *)
Lemma handle_tool_call_spec tc tool_results (s : machine World) :
  exists o assistant_messages w',
    handle_tool_call' tc tool_results s
    = (o, (history_extend assistant_messages (fst s), w'))
    /\ (assistant_messages = []
        \/ assistant_messages = [tool_call_message tc])
    /\ (forall r, o = Returned r ->
          exists text,
            r = (tool_results ++ [tool_result_message tc text])%list).
Proof.
  assert (Hcaught : forall (e : exn) (s1 : machine World),
            fst s1 = fst s ->
            exists o assistant_messages w',
              (let (o0, s0) :=
                 lift_outcome
                   (console_print markup_error
                      "[red]Error executing tool: {e}[/red]" [exn_str e]) s1 in
               match o0 with
               | Returned _ =>
                   ret (tool_results
                        ++ [tool_result_message tc ("Error: " ++ exn_str e)])%list
                     s0
               | Raised e0 => (Raised e0, s0)
               end)
              = (o, (history_extend assistant_messages (fst s), w'))
              /\ (assistant_messages = []
                  \/ assistant_messages = [tool_call_message tc])
              /\ (forall r, o = Returned r ->
                    exists text,
                      r = (tool_results
                           ++ [tool_result_message tc text])%list)).
  { intros e [self1 w1] Hfst. cbn [fst] in Hfst. subst self1.
    unfold lift_outcome, ret.
    destruct (console_print markup_error _ _) as [[]|e0];
      eexists; exists []; exists w1; rewrite history_extend_nil.
    - split; [reflexivity|]. split; [now left|].
      intros r [= <-]. eexists. reflexivity.
    - split; [reflexivity|]. split; [now left|]. intros r H. discriminate. }
  unfold handle_tool_call, handle_tool_call_try, try_except.
  unfold bind at 1, lift_outcome at 1.
  destruct (json_loads (fc_arguments (tc_function tc))) as [function_args|e];
    [|now apply Hcaught].
  unfold bind at 1, lift_outcome at 1.
  destruct (format_tool_call markup_error interp_error py_str _ function_args)
    as [[]|e]; [|now apply Hcaught].
  unfold bind at 1, lift_outcome at 1.
  destruct (as_kwargs interp_error function_args) as [kw|e];
    [|now apply Hcaught].
  unfold bind at 1, get_state at 1. unfold bind at 1, on_world at 1.
  cbn [fst snd].
  destruct (execute_tool markup_error duplicate_argument
              (tool_registry (fst s)) (fc_name (tc_function tc)) kw (snd s))
    as [[result|e] w1]; cbn [fst snd]; [|now apply Hcaught].
  unfold bind at 1, lift_outcome at 1.
  destruct (format_tool_result markup_error _ result) as [[]|e];
    [|now apply Hcaught].
  unfold bind, on_self, modify, ret. cbn [fst snd].
  eexists. exists [tool_call_message tc]. exists w1.
  split; [reflexivity|]. split; [now right|].
  intros r [= <-]. eexists. reflexivity.
Qed.

(** The loop over the requested calls, whether it returns or raises: the
    transcript has received assistant messages of calls of the request,
    and nothing else of the chatbot has changed.  When it returns, it
    returns one tool-role message per call, in the order of the calls, each
    carrying the id and the name of its call. *)
Lemma handle_tool_calls_loop_spec (tcs : list tool_call) :
  forall tool_results (s : machine World),
  exists o assistant_messages w',
    handle_tool_calls_loop markup_error duplicate_argument json_loads
      interp_error py_str tcs tool_results s
    = (o, (history_extend assistant_messages (fst s), w'))
    /\ Forall (fun m => exists tc, In tc tcs /\ m = tool_call_message tc)
              assistant_messages
    /\ (forall r, o = Returned r ->
          exists results,
            r = (tool_results ++ results)%list
            /\ Forall2 (fun tc m => exists text, m = tool_result_message tc text)
                       tcs results).
Proof.
  induction tcs as [|tc rest IH]; intros tool_results s.
  - exists (Returned tool_results), [], (snd s).
    cbn [handle_tool_calls_loop]. unfold ret.
    rewrite history_extend_nil. destruct s. split; [reflexivity|].
    split; [constructor|]. intros r [= <-]. exists [].
    split; [now rewrite app_nil_r | constructor].
  - cbn [handle_tool_calls_loop]. unfold bind at 1.
    destruct (handle_tool_call_spec tc tool_results s)
      as (o1 & asst1 & w1 & Hcall & Hasst1 & Hres1).
    rewrite Hcall.
    assert (Hasst1' : Forall (fun m => exists tc0, In tc0 (tc :: rest)
                                       /\ m = tool_call_message tc0) asst1).
    { destruct Hasst1 as [-> | ->]; [constructor|].
      constructor; [|constructor]. exists tc. split; [now left | reflexivity]. }
    destruct o1 as [r1|e1].
    + destruct (Hres1 r1 eq_refl) as [text ->].
      destruct (IH (tool_results ++ [tool_result_message tc text])%list
                  (history_extend asst1 (fst s), w1))
        as (o & asst & w' & Hloop & Hasst & Hres).
      rewrite Hloop. cbn [fst]. rewrite history_extend_extend.
      exists o, (asst1 ++ asst)%list, w'. split; [reflexivity|]. split.
      * apply Forall_app. split; [exact Hasst1'|].
        eapply Forall_impl; [|exact Hasst].
        intros m (tc0 & Hin & ->). exists tc0. split; [now right | reflexivity].
      * intros r Hr. destruct (Hres r Hr) as (results & -> & Hall).
        exists (tool_result_message tc text :: results).
        split; [now rewrite <- app_assoc|].
        constructor; [now exists text | exact Hall].
    + exists (Raised e1), asst1, w1. split; [reflexivity|].
      split; [exact Hasst1'|]. intros r H. discriminate.
Qed.

Lemma handle_tool_calls_spec (tcs : list tool_call) (s : machine World) :
  exists o assistant_messages w',
    handle_tool_calls' tcs s
    = (o, (history_extend assistant_messages (fst s), w'))
    /\ Forall (fun m => exists tc, In tc tcs /\ m = tool_call_message tc)
              assistant_messages
    /\ (forall results, o = Returned results ->
          Forall2 (fun tc m => exists text, m = tool_result_message tc text)
                  tcs results).
Proof.
  unfold _handle_tool_calls.
  destruct (handle_tool_calls_loop_spec tcs [] s)
    as (o & asst & w' & H & Hasst & Hres).
  exists o, asst, w'. split; [exact H|]. split; [exact Hasst|].
  intros results Ho. destruct (Hres results Ho) as (results' & -> & Hall).
  exact Hall.
Qed.

(** [chat] starts its [try] block from [after_user_message]. *)
Lemma chat_unfold message self w :
  chat' message (self, w)
  = try_except chat_try'
      (fun e =>
         (lift_outcome
            (console_print markup_error "[red]Error: {error_msg}[/red]"
               [communication_error e]) ;;;
          ret ("Sorry, I encountered an error: " ++ exn_str e))%py)
      (after_user_message message self, w).
Proof. reflexivity. Qed.

(** What [chat] makes of the outcome of its [try] block. *)
Lemma chat_returned message self w text s' :
  chat_try' (after_user_message message self, w) = (Returned text, s') ->
  chat' message (self, w) = (Returned text, s').
Proof. intros H. rewrite chat_unfold. unfold try_except. now rewrite H. Qed.

Lemma chat_raised message self w e s' :
  chat_try' (after_user_message message self, w) = (Raised e, s') ->
  snd (chat' message (self, w)) = s'
  /\ (apology_prints markup_error e ->
      chat' message (self, w)
      = (Returned ("Sorry, I encountered an error: " ++ exn_str e), s')).
Proof.
  intros H. rewrite chat_unfold. unfold try_except. rewrite H.
  unfold bind, lift_outcome, ret, apology_prints. split.
  - now destruct (console_print markup_error _ _) as [[]|e0].
  - intros ->. reflexivity.
Qed.

Lemma chat_state message self w o s' :
  chat_try' (after_user_message message self, w) = (o, s') ->
  snd (chat' message (self, w)) = s'.
Proof.
  intros H. destruct o as [text|e].
  - now rewrite (chat_returned _ _ _ _ _ H).
  - exact (proj1 (chat_raised _ _ _ _ _ H)).
Qed.

(** The ways through the [try] block of [chat]. *)
Lemma chat_try_first_call_fails self w e w1 :
  model_call create (first_request self) w = (Raised e, w1) ->
  chat_try' (self, w) = (Raised e, (self, w1)).
Proof.
  intros H. unfold chat_try, bind, get_state, on_world. cbn [fst snd].
  now rewrite H.
Qed.

Lemma chat_try_plain_answer self w am w1 :
  model_call create (first_request self) w = (Returned am, w1) ->
  truthy_list (cm_tool_calls am) = false ->
  chat_try' (self, w)
  = (Returned (content_or_placeholder (cm_content am)),
     (history_append (plain_message "assistant" (cm_content am)) self, w1)).
Proof.
  intros H Hcalls. unfold chat_try, bind, get_state, on_world. cbn [fst snd].
  rewrite H. cbn [fst snd]. now rewrite Hcalls.
Qed.

Lemma chat_try_tool_handling_fails self w am w1 e s2 :
  model_call create (first_request self) w = (Returned am, w1) ->
  truthy_list (cm_tool_calls am) = true ->
  handle_tool_calls' (requested_calls am) (self, w1) = (Raised e, s2) ->
  chat_try' (self, w) = (Raised e, s2).
Proof.
  intros H Hcalls Hhandle.
  unfold chat_try, bind, get_state, on_world. cbn [fst snd].
  rewrite H. cbn [fst snd]. now rewrite Hcalls, Hhandle.
Qed.

Lemma chat_try_final_call_fails self w am w1 results self2 w2 e w3 :
  model_call create (first_request self) w = (Returned am, w1) ->
  truthy_list (cm_tool_calls am) = true ->
  handle_tool_calls' (requested_calls am) (self, w1)
  = (Returned results, (self2, w2)) ->
  model_call create (final_request (history_extend results self2)) w2
  = (Raised e, w3) ->
  chat_try' (self, w) = (Raised e, (history_extend results self2, w3)).
Proof.
  intros H Hcalls Hhandle Hfinal.
  unfold chat_try, bind, get_state, on_world. cbn [fst snd].
  rewrite H. cbn [fst snd]. rewrite Hcalls, Hhandle.
  unfold on_self, modify. cbn [fst snd]. now rewrite Hfinal.
Qed.

Lemma chat_try_final_answer self w am w1 results self2 w2 am2 w3 :
  model_call create (first_request self) w = (Returned am, w1) ->
  truthy_list (cm_tool_calls am) = true ->
  handle_tool_calls' (requested_calls am) (self, w1)
  = (Returned results, (self2, w2)) ->
  model_call create (final_request (history_extend results self2)) w2
  = (Returned am2, w3) ->
  chat_try' (self, w)
  = (Returned (content_or_placeholder (cm_content am2)),
     (history_append (plain_message "assistant" (cm_content am2))
        (history_extend results self2), w3)).
Proof.
  intros H Hcalls Hhandle Hfinal.
  unfold chat_try, bind, get_state, on_world. cbn [fst snd].
  rewrite H. cbn [fst snd]. rewrite Hcalls, Hhandle.
  unfold on_self, modify. cbn [fst snd]. now rewrite Hfinal.
Qed.

(** All that the [try] block of [chat] does to the chatbot is to append
    messages to the transcript, whether it returns or raises; a text that
    it returns is not empty. *)
Lemma chat_try_appends self w :
  exists o suffix w',
    chat_try' (self, w) = (o, (history_extend suffix self, w'))
    /\ (forall text, o = Returned text -> text <> "").
Proof.
  assert (Hne : forall c, content_or_placeholder c <> "").
  { intros c. unfold content_or_placeholder. destruct c as [s|]; [|discriminate].
    destruct (String.eqb_spec s ""); [discriminate | assumption]. }
  destruct (model_call create (first_request self) w) as [[am|e] w1] eqn:H1.
  - destruct (truthy_list (cm_tool_calls am)) eqn:Hcalls.
    + destruct (handle_tool_calls_spec (requested_calls am) (self, w1))
        as (o & asst & w2 & Hhandle & _ & _).
      cbn [fst] in Hhandle. destruct o as [results|e].
      * destruct (model_call create
                    (final_request (history_extend results
                                      (history_extend asst self))) w2)
          as [[am2|e] w3] eqn:H2.
        -- rewrite (chat_try_final_answer _ _ _ _ _ _ _ _ _ H1 Hcalls Hhandle H2).
           eexists. eexists. exists w3. unfold history_append.
           rewrite !history_extend_extend. split; [reflexivity|].
           intros text [= <-]. apply Hne.
        -- rewrite (chat_try_final_call_fails _ _ _ _ _ _ _ _ _ H1 Hcalls
                      Hhandle H2).
           eexists. eexists. exists w3.
           rewrite !history_extend_extend. split; [reflexivity|].
           intros text H. discriminate.
      * rewrite (chat_try_tool_handling_fails _ _ _ _ _ _ H1 Hcalls Hhandle).
        eexists. exists asst, w2. split; [reflexivity|].
        intros text H. discriminate.
    + rewrite (chat_try_plain_answer _ _ _ _ H1 Hcalls).
      eexists. eexists. exists w1. unfold history_append.
      split; [reflexivity|]. intros text [= <-]. apply Hne.
  - rewrite (chat_try_first_call_fails _ _ _ _ H1).
    eexists. exists [], w1. rewrite history_extend_nil.
    split; [reflexivity|]. intros text H. discriminate.
Qed.

(** All that a turn does to the chatbot, whether [chat] returns or raises,
    is to count the message and to append the user message, followed by
    further messages, to the transcript. *)
Lemma chat_appends message self w :
  exists o suffix w',
    chat' message (self, w)
    = (o, (history_extend (plain_message "user" (Some message) :: suffix)
             (count_message self), w'))
    /\ (forall text, o = Returned text -> text <> "").
Proof.
  destruct (chat_try_appends (after_user_message message self) w)
    as (o & suffix & w' & Htry & Hne).
  unfold after_user_message, history_append in Htry.
  rewrite history_extend_extend in Htry. cbn [app] in Htry.
  destruct o as [text|e].
  - rewrite (chat_returned _ _ _ _ _ Htry). eexists. exists suffix, w'.
    split; [reflexivity | exact Hne].
  - rewrite chat_unfold. unfold try_except.
    unfold after_user_message, history_append.
    rewrite Htry. unfold bind, lift_outcome, ret.
    destruct (console_print markup_error _ _) as [[]|e0];
      eexists; exists suffix, w'; (split; [reflexivity|]).
    + intros text [= <-]. discriminate.
    + intros text H. discriminate.
Qed.

(** Any number of turns only appends to the transcript, at least one
    message per turn, counts one message per turn, and leaves the registry
    and the configuration alone. *)
Lemma chat_turns_appends (inputs : list string) : forall (s : machine World),
  exists suffix,
    conversation_history
      (fst (chat_turns markup_error duplicate_argument json_loads create
              interp_error py_str inputs s))
    = (conversation_history (fst s) ++ suffix)%list
    /\ List.length inputs <= List.length suffix
    /\ tool_registry
         (fst (chat_turns markup_error duplicate_argument json_loads create
                 interp_error py_str inputs s))
       = tool_registry (fst s)
    /\ message_count
         (fst (chat_turns markup_error duplicate_argument json_loads create
                 interp_error py_str inputs s))
       = message_count (fst s) + List.length inputs
    /\ config
         (fst (chat_turns markup_error duplicate_argument json_loads create
                 interp_error py_str inputs s))
       = config (fst s).
Proof.
  induction inputs as [|message rest IH]; intros [self w].
  - exists []. cbn. rewrite app_nil_r. repeat split; lia.
  - cbn [chat_turns].
    destruct (chat_appends message self w) as (o & suffix & w' & Hchat & _).
    rewrite Hchat. cbn [snd].
    destruct (IH (history_extend (plain_message "user" (Some message) :: suffix)
                    (count_message self), w'))
      as (suffix' & Hh & Hlen & Hreg & Hcount & Hcfg).
    exists ((plain_message "user" (Some message) :: suffix) ++ suffix')%list.
    rewrite Hh, Hreg, Hcount, Hcfg.
    cbn [fst history_extend conversation_history tool_registry count_message
         message_count config].
    rewrite <- app_assoc. split; [reflexivity|].
    split; [rewrite length_app; cbn [List.length]; lia|].
    split; [reflexivity|]. split; [cbn [List.length]; lia | reflexivity].
Qed.

(** Discovery and reset change the registry of the chatbot alone. *)
Lemma bot_auto_discover_tools_frame tools_dir self :
  let self' := snd (bot_auto_discover_tools markup_error tools_dir self) in
  conversation_history self' = conversation_history self
  /\ message_count self' = message_count self
  /\ config self' = config self.
Proof.
  unfold bot_auto_discover_tools, try_except, bind, on_tool_registry,
    lift_outcome, ret. cbn [fst snd].
  destruct (auto_discover_tools markup_error tools_dir (tool_registry self))
    as [[summary|e] reg']; cbn [fst snd]; now repeat split.
Qed.

Lemma reset_chatbot_frame tools_dir self :
  let self' := snd (reset_chatbot markup_error tools_dir self) in
  conversation_history self'
  = [plain_message "system" (Some (system_prompt (config self)))]
  /\ message_count self' = 0
  /\ config self' = config self.
Proof.
  unfold reset_chatbot, bind, modify.
  destruct (bot_auto_discover_tools_frame tools_dir
              (fresh_registry (clear_history self))) as (Hh & Hc & Hcfg).
  destruct (bot_auto_discover_tools markup_error tools_dir
              (fresh_registry (clear_history self))) as [[[]|e] self'];
    cbn [snd] in *; now repeat split.
Qed.

End TurnFacts.

(** C8. Over any sequence of turns the transcript only grows, by messages
    appended at its end: the transcript before is a prefix of the
    transcript after, which has at least one more message per turn; within
    one turn the first message appended is the user message.
    [clear_history], and [reset_chatbot] with it, bring the transcript back
    to one message, the system message that carries the system prompt. *)
Theorem transcript_append_only :
  forall (World : Type) (markup_error : string -> list string -> option exn)
         (duplicate_argument : string -> exn)
         (json_loads : string -> outcome json)
         (create : request -> Py World ChatCompletion)
         (interp_error : json -> exn) (py_str : json -> string),
    (forall (inputs : list string) (s : machine World),
       exists suffix,
         conversation_history
           (fst (chat_turns markup_error duplicate_argument json_loads create
                   interp_error py_str inputs s))
         = (conversation_history (fst s) ++ suffix)%list
         /\ List.length inputs <= List.length suffix)
    /\ (forall (message : string) (self : ChatBot World) (w : World),
          exists suffix,
            conversation_history
              (fst (snd (chat markup_error duplicate_argument json_loads
                           create interp_error py_str message (self, w))))
            = (conversation_history self
               ++ plain_message "user" (Some message) :: suffix)%list)
    /\ (forall (self : ChatBot World),
          conversation_history (clear_history self)
          = [plain_message "system" (Some (system_prompt (config self)))]
          /\ List.length (conversation_history (clear_history self)) = 1)
    /\ (forall tools_dir (self : ChatBot World),
          conversation_history
            (snd (reset_chatbot markup_error tools_dir self))
          = [plain_message "system" (Some (system_prompt (config self)))]).
Proof.
  intros World markup_error duplicate_argument json_loads create interp_error
    py_str.
  split; [|split; [|split]].
  - intros inputs s.
    destruct (chat_turns_appends markup_error duplicate_argument json_loads
                create interp_error py_str inputs s)
      as (suffix & Hh & Hlen & _).
    now exists suffix.
  - intros message self w.
    destruct (chat_appends markup_error duplicate_argument json_loads create
                interp_error py_str message self w)
      as (o & suffix & w' & Hchat & _).
    exists suffix. now rewrite Hchat.
  - intros self. split; reflexivity.
  - intros tools_dir self.
    exact (proj1 (reset_chatbot_frame markup_error tools_dir self)).
Qed.

(** C9. A turn leaves the registry of the chatbot as it was: the same
    tools under the same names in the same order, and the same error
    messages, whatever the user message, the responses of the model and the
    outcomes of the tools. *)
Theorem chat_leaves_registry_unchanged :
  forall (World : Type) (markup_error : string -> list string -> option exn)
         (duplicate_argument : string -> exn)
         (json_loads : string -> outcome json)
         (create : request -> Py World ChatCompletion)
         (interp_error : json -> exn) (py_str : json -> string)
         (message : string) (self : ChatBot World) (w : World),
    let self' :=
      fst (snd (chat markup_error duplicate_argument json_loads create
                  interp_error py_str message (self, w))) in
    tool_registry self' = tool_registry self
    /\ list_tools (tool_registry self') = list_tools (tool_registry self)
    /\ _tools (tool_registry self') = _tools (tool_registry self)
    /\ _tool_errors (tool_registry self') = _tool_errors (tool_registry self).
Proof.
  intros World markup_error duplicate_argument json_loads create interp_error
    py_str message self w self'.
  assert (H : tool_registry self' = tool_registry self).
  { subst self'.
    destruct (chat_appends markup_error duplicate_argument json_loads create
                interp_error py_str message self w)
      as (o & suffix & w' & Hchat & _).
    now rewrite Hchat. }
  now rewrite H.
Qed.




(** X11. In a turn with tool calls that the model then answers, the transcript
    receives, in this order: the user message, assistant messages of
    requested calls, one tool-role message per requested call in the order
    of the request, each with the id and the name of its call, and the
    answer. *)
Lemma chat_tool_exchange_shape
    (World : Type) (markup_error : string -> list string -> option exn)
    (duplicate_argument : string -> exn)
    (json_loads : string -> outcome json)
    (create : request -> Py World ChatCompletion) (interp_error : json -> exn)
    (py_str : json -> string)
    (message : string) (self : ChatBot World) (w : World)
    am w1 results self2 w2 am2 w3 :
  let self0 := after_user_message message self in
  model_call create (first_request self0) w = (Returned am, w1) ->
  truthy_list (cm_tool_calls am) = true ->
  _handle_tool_calls markup_error duplicate_argument json_loads interp_error
    py_str (requested_calls am) (self0, w1)
  = (Returned results, (self2, w2)) ->
  model_call create (final_request (history_extend results self2)) w2
  = (Returned am2, w3) ->
  exists assistant_messages,
    conversation_history
      (fst (snd (chat markup_error duplicate_argument json_loads create
                   interp_error py_str message (self, w))))
    = (conversation_history self
       ++ [plain_message "user" (Some message)]
       ++ assistant_messages ++ results
       ++ [plain_message "assistant" (cm_content am2)])%list
    /\ Forall2 (fun tc m => exists text, m = tool_result_message tc text)
               (requested_calls am) results
    /\ map tool_call_id results
       = map (fun tc => Some (tc_id tc)) (requested_calls am)
    /\ Forall (fun m => exists tc, In tc (requested_calls am)
                                   /\ m = tool_call_message tc)
              assistant_messages.
Proof.
  intros self0 H1 Hcalls Hhandle H2.
  destruct (handle_tool_calls_spec markup_error duplicate_argument json_loads
              interp_error py_str (requested_calls am) (self0, w1))
    as (o & asst & w2' & Hspec & Hasst & Hres).
  rewrite Hhandle in Hspec. injection Hspec as <- Hself _.
  specialize (Hres results eq_refl).
  exists asst. split; [|split; [exact Hres|split; [|exact Hasst]]].
  - rewrite (chat_returned _ _ _ _ _ _ _ _ _ _ _
               (chat_try_final_answer _ _ _ _ _ _ _ _ _ _ _ _ _ _ _
                  H1 Hcalls Hhandle H2)).
    rewrite Hself. cbn [fst snd]. subst self0.
    unfold after_user_message, history_append.
    cbn [history_extend conversation_history count_message].
    now rewrite <- !app_assoc.
  - clear -Hres. induction Hres as [|tc m tcs ms [text ->] _ IH];
      [reflexivity | cbn; now rewrite IH].
Qed.

(** The exchange of two calculator calls. *)
Lemma chat_tool_exchange_shape_witness :
  let r := Sim.run "2+2 and 3*3?"
             [Sim.two_calls; Sim.answers (Some "4 and 9") None] Sim.bot in
  exists assistant_messages results,
    conversation_history (fst (snd r))
    = (conversation_history Sim.bot
       ++ [plain_message "user" (Some "2+2 and 3*3?")]
       ++ assistant_messages ++ results
       ++ [plain_message "assistant" (Some "4 and 9")])%list
    /\ map tool_call_id results = [Some "c1"; Some "c2"]
    /\ map content results = [Some "Result: 4"; Some "Result: 9"].
Proof.
  intros r.
  destruct (chat_tool_exchange_shape Sim.world Sim.markup_error
              Sim.duplicate_argument Sim.json_loads Sim.create
              Sim.interp_error Sim.py_str "2+2 and 3*3?" Sim.bot
              {| Sim.script := [Sim.two_calls; Sim.answers (Some "4 and 9") None];
                 Sim.executed := [] |}
              {| cm_content := None;
                 cm_tool_calls := Some [Sim.call "c1" "2+2"; Sim.call "c2" "3*3"] |}
              {| Sim.script := [Sim.answers (Some "4 and 9") None];
                 Sim.executed := [] |}
              [tool_result_message (Sim.call "c1" "2+2") "Result: 4";
               tool_result_message (Sim.call "c2" "3*3") "Result: 9"]
              (history_extend
                 [tool_call_message (Sim.call "c1" "2+2");
                  tool_call_message (Sim.call "c2" "3*3")]
                 (after_user_message "2+2 and 3*3?" Sim.bot))
              {| Sim.script := [Sim.answers (Some "4 and 9") None];
                 Sim.executed := ["calculator"; "calculator"] |}
              {| cm_content := Some "4 and 9"; cm_tool_calls := None |}
              {| Sim.script := [];
                 Sim.executed := ["calculator"; "calculator"] |}
              eq_refl eq_refl eq_refl eq_refl)
    as (asst & Hhist & _ & Hids & _).
  exists asst. eexists. split; [exact Hhist|]. split; [exact Hids | reflexivity].
Defined.

(** C1, on the code.  When the model requests two calls, the two assistant
    messages that carry them come first and the two tool results follow:
    the result of the first call comes after the assistant message of the
    second call, not after its own.  When the arguments of a call are not
    JSON, its tool result is appended and no assistant message carries the
    call. *)
Theorem tool_results_follow_all_assistant_messages :
  let c1 := Sim.call "c1" "2+2" in
  let c2 := Sim.call "c2" "3*3" in
  let system := plain_message "system" (Some "You are a helpful assistant.") in
  let r := Sim.run "2+2 and 3*3?"
             [Sim.two_calls; Sim.answers (Some "4 and 9") None] Sim.bot in
  let r' := Sim.run "2+2?"
              [Sim.answers None (Some [Sim.garbled_call]);
               Sim.answers (Some "Sorry, try again.") None] Sim.bot in
  fst r = Returned "4 and 9"
  /\ conversation_history (fst (snd r))
     = [ system;
         plain_message "user" (Some "2+2 and 3*3?");
         tool_call_message c1;
         tool_call_message c2;
         tool_result_message c1 "Result: 4";
         tool_result_message c2 "Result: 9";
         plain_message "assistant" (Some "4 and 9") ]
  /\ fst r' = Returned "Sorry, try again."
  /\ conversation_history (fst (snd r'))
     = [ system;
         plain_message "user" (Some "2+2?");
         tool_result_message Sim.garbled_call
           "Error: Expecting value: line 1 column 1 (char 0)";
         plain_message "assistant" (Some "Sorry, try again.") ].
Proof.
  intros c1 c2 system r r'.
  split; [reflexivity|]. split; [reflexivity|].
  split; reflexivity.
Qed.

(** * Further properties of a turn *)

(** X10. A turn that the model answers without requesting a tool appends
    exactly two messages to the transcript, the user message and the
    answer as the model gave it, and runs no tool.  The caller receives
    the content of the answer, or the placeholder
    ["I don't have a response for that."] when the content is [None] or
    empty; an empty list of tool calls counts as none. *)
Theorem chat_plain_answer :
  forall (World : Type) (markup_error : string -> list string -> option exn)
         (duplicate_argument : string -> exn)
         (json_loads : string -> outcome json)
         (create : request -> Py World ChatCompletion)
         (interp_error : json -> exn) (py_str : json -> string)
         (message : string) (self : ChatBot World) (w : World) am w1,
    model_call create (first_request (after_user_message message self)) w
    = (Returned am, w1) ->
    (cm_tool_calls am = None \/ cm_tool_calls am = Some []) ->
    chat markup_error duplicate_argument json_loads create interp_error py_str
      message (self, w)
    = (Returned (content_or_placeholder (cm_content am)),
       (history_extend
          [plain_message "user" (Some message);
           plain_message "assistant" (cm_content am)]
          (count_message self), w1))
    /\ ((cm_content am = None \/ cm_content am = Some "") ->
        content_or_placeholder (cm_content am)
        = "I don't have a response for that.")
    /\ (forall text, cm_content am = Some text -> text <> "" ->
                     content_or_placeholder (cm_content am) = text).
Proof.
  intros World markup_error duplicate_argument json_loads create interp_error
    py_str message self w am w1 H1 Hnone.
  assert (Hcalls : truthy_list (cm_tool_calls am) = false)
    by (destruct Hnone as [-> | ->]; reflexivity).
  split; [|split].
  - rewrite (chat_returned _ _ _ _ _ _ _ _ _ _ _
               (chat_try_plain_answer markup_error duplicate_argument
                  json_loads create interp_error py_str _ _ _ _ H1 Hcalls)).
    unfold after_user_message, history_append.
    now rewrite history_extend_extend.
  - intros [-> | ->]; reflexivity.
  - intros text -> Hne. cbn.
    destruct (String.eqb_spec text ""); [contradiction | reflexivity].
Qed.

Lemma chat_plain_answer_witness :
  Sim.run "hello" [Sim.answers (Some "") (Some [])] Sim.bot
  = (Returned "I don't have a response for that.",
     (history_extend
        [plain_message "user" (Some "hello");
         plain_message "assistant" (Some "")]
        (count_message Sim.bot), Sim.idle)).
Proof.
  destruct (chat_plain_answer Sim.world Sim.markup_error
              Sim.duplicate_argument Sim.json_loads Sim.create
              Sim.interp_error Sim.py_str "hello" Sim.bot
              {| Sim.script := [Sim.answers (Some "") (Some [])];
                 Sim.executed := [] |}
              {| cm_content := Some ""; cm_tool_calls := Some [] |}
              Sim.idle eq_refl (or_intror eq_refl)) as (Hrun & Hph & _).
  unfold Sim.run, Sim.turn. rewrite Hrun. now rewrite (Hph (or_intror eq_refl)).
Defined.

(** X12. [chat] never returns the empty text: what its caller receives,
    when [chat] returns, is the answer of the model when it has one, the
    placeholder when the answer is empty, or the apology. *)
Theorem chat_text_not_empty :
  forall (World : Type) (markup_error : string -> list string -> option exn)
         (duplicate_argument : string -> exn)
         (json_loads : string -> outcome json)
         (create : request -> Py World ChatCompletion)
         (interp_error : json -> exn) (py_str : json -> string)
         (message : string) (self : ChatBot World) (w : World) (text : string),
    fst (chat markup_error duplicate_argument json_loads create interp_error
           py_str message (self, w))
    = Returned text ->
    text <> "".
Proof.
  intros World markup_error duplicate_argument json_loads create interp_error
    py_str message self w text H.
  destruct (chat_appends markup_error duplicate_argument json_loads create
              interp_error py_str message self w)
    as (o & suffix & w' & Hchat & Hne).
  rewrite Hchat in H. cbn [fst] in H. exact (Hne text H).
Qed.

Lemma chat_text_not_empty_witness :
  fst (Sim.run "hello" [Sim.answers (Some "") None] Sim.bot)
  = Returned "I don't have a response for that."
  /\ "I don't have a response for that." <> "".
Proof.
  split; [reflexivity|].
  exact (chat_text_not_empty Sim.world Sim.markup_error Sim.duplicate_argument
           Sim.json_loads Sim.create Sim.interp_error Sim.py_str "hello"
           Sim.bot
           {| Sim.script := [Sim.answers (Some "") None]; Sim.executed := [] |}
           "I don't have a response for that." eq_refl).
Defined.

(** X13. Every turn counts one message, failed turns included, and leaves
    the configuration alone: after the turns for [inputs] the counter has
    grown by their number.  [clear_history] sets it back to zero and keeps
    the configuration and the registry. *)
Theorem message_count_counts_turns :
  forall (World : Type) (markup_error : string -> list string -> option exn)
         (duplicate_argument : string -> exn)
         (json_loads : string -> outcome json)
         (create : request -> Py World ChatCompletion)
         (interp_error : json -> exn) (py_str : json -> string)
         (inputs : list string) (s : machine World),
    message_count
      (fst (chat_turns markup_error duplicate_argument json_loads create
              interp_error py_str inputs s))
    = message_count (fst s) + List.length inputs
    /\ config
         (fst (chat_turns markup_error duplicate_argument json_loads create
                 interp_error py_str inputs s))
       = config (fst s)
    /\ message_count (clear_history (fst s)) = 0
    /\ config (clear_history (fst s)) = config (fst s)
    /\ tool_registry (clear_history (fst s)) = tool_registry (fst s).
Proof.
  intros World markup_error duplicate_argument json_loads create interp_error
    py_str inputs s.
  destruct (chat_turns_appends markup_error duplicate_argument json_loads
              create interp_error py_str inputs s)
    as (suffix & _ & _ & _ & Hcount & Hcfg).
  split; [exact Hcount|]. split; [exact Hcfg|].
  split; [reflexivity|]. split; reflexivity.
Qed.

(** X14. A tool call whose arguments cannot be used is answered without
    running any tool and without an assistant message: when [json.loads]
    rejects the arguments, when they are not a JSON object, or when they
    are an object with a key [self] or [name] (the positional parameters of
    [execute_tool]), and the prints on the way return, the only effect is
    one more tool result, with the id and the name of the call and the
    content ["Error: "] followed by the message of the exception. *)
Theorem unusable_arguments_run_nothing :
  forall (World : Type) (markup_error : string -> list string -> option exn)
         (duplicate_argument : string -> exn)
         (json_loads : string -> outcome json)
         (interp_error : json -> exn) (py_str : json -> string)
         (tc : tool_call) (tool_results : list message) (s : machine World),
    let run := handle_tool_call markup_error duplicate_argument json_loads
                 interp_error py_str tc tool_results s in
    let answered (e : exn) :=
      run = (Returned (tool_results
                       ++ [tool_result_message tc ("Error: " ++ exn_str e)])%list,
             s) in
    (forall e,
       json_loads (fc_arguments (tc_function tc)) = Raised e ->
       tool_error_prints markup_error e ->
       answered e)
    /\ (forall j,
          json_loads (fc_arguments (tc_function tc)) = Returned j ->
          (forall members, j <> JObject members) ->
          (json_truthy j = false ->
           format_tool_call markup_error interp_error py_str
             (fc_name (tc_function tc)) j = Returned tt) ->
          tool_error_prints markup_error (interp_error j) ->
          answered (interp_error j))
    /\ (forall members key,
          json_loads (fc_arguments (tc_function tc))
          = Returned (JObject members) ->
          clashing_key members = Some key ->
          format_tool_call markup_error interp_error py_str
            (fc_name (tc_function tc)) (JObject members) = Returned tt ->
          tool_error_prints markup_error (duplicate_argument key) ->
          answered (duplicate_argument key)).
Proof.
  intros World markup_error duplicate_argument json_loads interp_error py_str
    tc tool_results s run answered.
  subst answered run. cbv beta. unfold tool_error_prints.
  unfold handle_tool_call, handle_tool_call_try, try_except, bind,
    lift_outcome, get_state, on_world, ret.
  split; [|split].
  - intros e Hparse Hprint. rewrite Hparse. cbv beta iota.
    now rewrite Hprint.
  - intros j Hparse Hobj Hcall Hprint. rewrite Hparse. cbv beta iota.
    destruct (json_truthy j) eqn:Htruthy.
    + assert (Hfmt : format_tool_call markup_error interp_error py_str
                       (fc_name (tc_function tc)) j
                     = Raised (interp_error j)).
      { unfold format_tool_call. rewrite Htruthy.
        destruct j as [| | | | |members]; try reflexivity.
        now contradiction (Hobj members). }
      rewrite Hfmt. cbv beta iota. now rewrite Hprint.
    + rewrite (Hcall eq_refl). cbv beta iota.
      assert (Hkw : as_kwargs interp_error j = Raised (interp_error j)).
      { destruct j as [| | | | |members]; try reflexivity.
        now contradiction (Hobj members). }
      rewrite Hkw. cbv beta iota. now rewrite Hprint.
  - intros members key Hparse Hclash Hcall Hprint. rewrite Hparse.
    cbv beta iota. rewrite Hcall. cbv beta iota. cbn [as_kwargs fst snd].
    rewrite (execute_tool_clash markup_error duplicate_argument _ _ _ _ _
               Hclash).
    cbn [fst snd]. rewrite Hprint. now destruct s.
Qed.

Lemma unusable_arguments_run_nothing_witness :
  Sim.json_loads (fc_arguments (tc_function Sim.garbled_call))
  = Raised (Exn "JSONDecodeError" "Expecting value: line 1 column 1 (char 0)")
  /\ Sim.handle Sim.garbled_call [] (Sim.bot, Sim.idle)
     = (Returned [tool_result_message Sim.garbled_call
                    "Error: Expecting value: line 1 column 1 (char 0)"],
        (Sim.bot, Sim.idle)).
Proof.
  destruct (unusable_arguments_run_nothing Sim.world Sim.markup_error
              Sim.duplicate_argument Sim.json_loads Sim.interp_error
              Sim.py_str Sim.garbled_call [] (Sim.bot, Sim.idle))
    as [Hparse _].
  split; [reflexivity | exact (Hparse _ eq_refl eq_refl)].
Defined.

(** X15. A call to a tool that is not registered, with arguments that can
    be bound, does not end the turn and runs no tool when its lines can be
    printed: the assistant message of the call is appended to the
    transcript, and the tool result says that the tool was not found and
    lists the tools that are registered. *)
Theorem unknown_tool_call_is_answered :
  forall (World : Type) (markup_error : string -> list string -> option exn)
         (duplicate_argument : string -> exn)
         (json_loads : string -> outcome json)
         (interp_error : json -> exn) (py_str : json -> string)
         (tc : tool_call) (tool_results : list message)
         (self : ChatBot World) (w : World) (members : PyDict.t json),
    let name := fc_name (tc_function tc) in
    let not_found :=
      "Tool '" ++ name ++ "' not found. Available tools: "
      ++ String.concat ", " (list_tools (tool_registry self)) in
    json_loads (fc_arguments (tc_function tc)) = Returned (JObject members) ->
    clashing_key members = None ->
    ~ In name (list_tools (tool_registry self)) ->
    format_tool_call markup_error interp_error py_str name (JObject members)
    = Returned tt ->
    error_line_prints markup_error name (ValueError not_found) ->
    format_tool_result markup_error name ("Error: " ++ not_found)
    = Returned tt ->
    handle_tool_call markup_error duplicate_argument json_loads interp_error
      py_str tc tool_results (self, w)
    = (Returned
         (tool_results
          ++ [tool_result_message tc ("Error: " ++ not_found)])%list,
       (history_append (tool_call_message tc) self, w)).
Proof.
  intros World markup_error duplicate_argument json_loads interp_error py_str
    tc tool_results self w members name not_found
    Hparse Hclash Hnot Hcall Hline Hresult.
  pose proof (execute_tool_raised markup_error duplicate_argument _ _ _ _ _ _
                Hclash
                (execute_tool_try_unknown (tool_registry self) name members w
                   Hnot) Hline) as Hexec.
  cbn [exn_str ValueError] in Hexec. fold not_found in Hexec.
  unfold handle_tool_call, handle_tool_call_try, try_except, bind,
    lift_outcome, get_state, on_world, on_self, modify, ret.
  rewrite Hparse. cbv beta iota. fold name. rewrite Hcall. cbv beta iota.
  cbn [as_kwargs fst snd]. rewrite Hexec. cbn [fst snd].
  rewrite Hresult. reflexivity.
Qed.

Lemma unknown_tool_call_is_answered_witness :
  ~ In "teleport" (list_tools (tool_registry Sim.bot))
  /\ Sim.handle Sim.teleport_call [] (Sim.bot, Sim.idle)
     = (Returned
          [tool_result_message Sim.teleport_call
             "Error: Tool 'teleport' not found. Available tools: calculator"],
        (history_append (tool_call_message Sim.teleport_call) Sim.bot,
         Sim.idle)).
Proof.
  assert (Hnot : ~ In "teleport" (list_tools (tool_registry Sim.bot))).
  { cbn. intros [H|[]]. discriminate. }
  split; [exact Hnot|].
  exact (unknown_tool_call_is_answered Sim.world Sim.markup_error
           Sim.duplicate_argument Sim.json_loads Sim.interp_error Sim.py_str
           Sim.teleport_call [] Sim.bot Sim.idle []
           eq_refl eq_refl Hnot eq_refl eq_refl eq_refl).
Defined.

(** X16. A turn has one round of tool use.  After the tool results the
    model is called once more and its message ends the turn: its content
    is appended as a plain assistant message and returned, and tool calls
    that it may carry are neither run nor recorded. *)
Theorem chat_single_round_of_tools :
  forall (World : Type) (markup_error : string -> list string -> option exn)
         (duplicate_argument : string -> exn)
         (json_loads : string -> outcome json)
         (create : request -> Py World ChatCompletion)
         (interp_error : json -> exn) (py_str : json -> string)
         (message : string) (self : ChatBot World) (w : World)
         am w1 results self2 w2 content2 calls2 w3,
    let self0 := after_user_message message self in
    model_call create (first_request self0) w = (Returned am, w1) ->
    truthy_list (cm_tool_calls am) = true ->
    _handle_tool_calls markup_error duplicate_argument json_loads interp_error
      py_str (requested_calls am) (self0, w1)
    = (Returned results, (self2, w2)) ->
    model_call create (final_request (history_extend results self2)) w2
    = (Returned {| cm_content := content2; cm_tool_calls := calls2 |}, w3) ->
    chat markup_error duplicate_argument json_loads create interp_error py_str
      message (self, w)
    = (Returned (content_or_placeholder content2),
       (history_extend (results ++ [plain_message "assistant" content2])%list
          self2, w3)).
Proof.
  intros World markup_error duplicate_argument json_loads create interp_error
    py_str message self w am w1 results self2 w2 content2 calls2 w3 self0
    H1 Hcalls Hhandle H2.
  rewrite (chat_returned _ _ _ _ _ _ _ _ _ _ _
             (chat_try_final_answer _ _ _ _ _ _ _ _ _ _ _ _ _ _ _
                H1 Hcalls Hhandle H2)).
  unfold history_append. cbn [cm_content].
  now rewrite history_extend_extend.
Qed.

(** The model asks for the two calculations again after their results:
    the calculator has run twice, not four times. *)
Lemma chat_single_round_of_tools_witness :
  let r := Sim.run "2+2 and 3*3?" [Sim.two_calls; Sim.two_calls] Sim.bot in
  fst r = Returned "I don't have a response for that."
  /\ Sim.executed (snd (snd r)) = ["calculator"; "calculator"]
  /\ map role (conversation_history (fst (snd r)))
     = ["system"; "user"; "assistant"; "assistant"; "tool"; "tool"; "assistant"].
Proof.
  intros r.
  pose proof (chat_single_round_of_tools Sim.world Sim.markup_error
                Sim.duplicate_argument Sim.json_loads Sim.create
                Sim.interp_error Sim.py_str "2+2 and 3*3?" Sim.bot
                {| Sim.script := [Sim.two_calls; Sim.two_calls];
                   Sim.executed := [] |}
                {| cm_content := None;
                   cm_tool_calls := Some [Sim.call "c1" "2+2"; Sim.call "c2" "3*3"] |}
                {| Sim.script := [Sim.two_calls]; Sim.executed := [] |}
                [tool_result_message (Sim.call "c1" "2+2") "Result: 4";
                 tool_result_message (Sim.call "c2" "3*3") "Result: 9"]
                (history_extend
                   [tool_call_message (Sim.call "c1" "2+2");
                    tool_call_message (Sim.call "c2" "3*3")]
                   (after_user_message "2+2 and 3*3?" Sim.bot))
                {| Sim.script := [Sim.two_calls];
                   Sim.executed := ["calculator"; "calculator"] |}
                None (Some [Sim.call "c1" "2+2"; Sim.call "c2" "3*3"])
                {| Sim.script := [];
                   Sim.executed := ["calculator"; "calculator"] |}
                eq_refl eq_refl eq_refl eq_refl) as Hrun.
  subst r. unfold Sim.run, Sim.turn. rewrite Hrun.
  split; [reflexivity|]. split; reflexivity.
Defined.

(** * Further properties of the tool schemas *)




Lemma mem_app {V} (k : string) (d1 d2 : PyDict.t V) :
  PyDict.mem k (d1 ++ d2)%list = PyDict.mem k d1 || PyDict.mem k d2.
Proof.
  induction d1 as [|[k' v'] d1 IH]; simpl; [reflexivity|].
  destruct (String.eqb k' k); [reflexivity | exact IH].
Qed.

Lemma loop_fst_distinct (params : list ToolParameter) :
  forall properties required,
    NoDup (map param_name params) ->
    (forall p, In p params -> PyDict.mem (param_name p) properties = false) ->
    fst (to_openai_tool_loop params properties required)
    = (properties ++ map (fun p => (param_name p, property_of p)) params)%list.
Proof.
  induction params as [|p rest IH]; intros properties required Hnd Hfresh.
  - cbn. now rewrite app_nil_r.
  - cbn [to_openai_tool_loop map]. inversion Hnd as [|? ? Hp Hrest]; subst.
    rewrite IH; [| exact Hrest |].
    + rewrite set_absent by (apply Hfresh; now left).
      now rewrite <- app_assoc.
    + intros q Hq. rewrite set_absent by (apply Hfresh; now left).
      rewrite mem_app, (Hfresh q (or_intror Hq)). cbn.
      destruct (String.eqb_spec (param_name p) (param_name q)) as [E|]; [|reflexivity].
      exfalso. apply Hp. rewrite E. now apply in_map.
Qed.

(** X6. For a tool whose parameters have distinct names, [properties] of
    the schema lists the parameters in their order, one entry per
    parameter under its name; the entry carries the [enum] of the parameter
    when that list is not empty, and no [enum] key when the parameter has
    none or an empty one. *)
Theorem to_openai_tool_properties_in_order :
  forall (World : Type) (t : BaseTool World),
    NoDup (map param_name (tool_parameters t)) ->
    let ps := fschema_parameters (ot_function (to_openai_tool t)) in
    pschema_properties ps
    = map (fun p => (param_name p, property_of p)) (tool_parameters t)
    /\ PyDict.keys (pschema_properties ps) = map param_name (tool_parameters t)
    /\ (forall p, In p (tool_parameters t) ->
          ps_enum (property_of p)
          = match param_enum p with
            | Some (v :: vs) => Some (v :: vs)
            | _ => None
            end).
Proof.
  intros World t Hnd ps. subst ps. unfold to_openai_tool.
  pose proof (loop_fst_distinct (tool_parameters t) PyDict.empty [] Hnd
                (fun _ _ => eq_refl)) as Hfst.
  destruct (to_openai_tool_loop (tool_parameters t) PyDict.empty [])
    as [properties required].
  cbn in Hfst |- *. subst properties.
  split; [reflexivity|]. split.
  - unfold PyDict.keys. rewrite map_map. reflexivity.
  - intros p _. unfold property_of. cbn.
    now destruct (param_enum p) as [[|v vs]|].
Qed.

Lemma to_openai_tool_properties_in_order_witness :
  let ps := fschema_parameters (ot_function (to_openai_tool Sim.copier)) in
  NoDup (map param_name (tool_parameters Sim.copier))
  /\ PyDict.keys (pschema_properties ps) = ["source"; "target"; "mode"]
  /\ option_map ps_enum (PyDict.get "mode" (pschema_properties ps))
     = Some (Some ["text"; "binary"])
  /\ option_map ps_enum (PyDict.get "source" (pschema_properties ps))
     = Some None.
Proof.
  intros ps.
  assert (Hnd : NoDup (map param_name (tool_parameters Sim.copier))).
  { cbn. repeat constructor; cbn; intuition discriminate. }
  destruct (to_openai_tool_properties_in_order Sim.world Sim.copier Hnd)
    as (Hprops & Hkeys & _).
  fold ps in Hprops, Hkeys.
  split; [exact Hnd|]. split; [exact Hkeys|].
  rewrite Hprops. split; reflexivity.
Defined.


(** * Properties of the session *)

(** The text of [none_not_iterable] can be printed. *)
Lemma console_print_none_not_iterable
    (markup_error : string -> list string -> option exn) (template : string) :
  console_print markup_error template [exn_str none_not_iterable]
  = Returned tt.
Proof. reflexivity. Qed.

Ltac case_command cmd :=
  repeat match goal with
         | |- context [String.eqb cmd ?c] =>
             destruct (String.eqb_spec cmd c); try congruence; cbn [orb]
         end.

Section SessionFacts.

Context {World : Type}.
Variable markup_error : string -> list string -> option exn.
Variable duplicate_argument : string -> exn.
Variable json_loads : string -> outcome json.
Variable create : request -> Py World ChatCompletion.
Variable interp_error : json -> exn.
Variable py_str : json -> string.
Variable normalize : string -> string.
Variable tools_dir : option (list (plugin_file World)).
Variable write_conversation : ChatBot World -> Py World unit.

Local Abbreviation handle_command' :=
  (handle_command markup_error normalize tools_dir write_conversation).
Local Abbreviation run_loop' :=
  (run_loop markup_error duplicate_argument json_loads create interp_error
     py_str normalize tools_dir write_conversation).
Local Abbreviation chat' :=
  (chat markup_error duplicate_argument json_loads create interp_error
     py_str).

(** [save_conversation] never raises and leaves the chatbot alone. *)
Lemma save_conversation_returns (s : machine World) :
  exists w',
    save_conversation write_conversation s = (Returned tt, (fst s, w')).
Proof.
  unfold save_conversation, try_except, bind, get_state, lift_outcome,
    api_label_check, on_world, ret.
  destruct s as [self w]. cbn [fst snd].
  destruct (base_url (config self)); [|now exists w].
  destruct (write_conversation self w) as [[[]|e] w'];
    cbn [fst snd]; now exists w'.
Qed.

(** The step of the loop of [run] for an input that is not empty. *)
Lemma run_loop_step (user_input : string) (rest : list string)
    (s : machine World) :
  user_input <> "" ->
  run_loop' (user_input :: rest) s
  = match handle_command' user_input s with
    | (Returned true, s1) => (Returned tt, s1)
    | (Returned false, s1) =>
        match chat' user_input s1 with
        | (Returned _, s2) => run_loop' rest s2
        | (Raised e, s2) => (Raised e, s2)
        end
    | (Raised e, s1) => (Raised e, s1)
    end.
Proof.
  intros Hne. cbn [run_loop].
  destruct (String.eqb_spec user_input ""); [contradiction|].
  unfold bind at 1.
  destruct (handle_command' user_input s) as [[[|]|e] s1]; reflexivity.
Qed.

(** Three facts on [handle_command]. *)
Lemma handle_command_not_quit (user_input : string) (s : machine World) :
  normalize user_input <> "quit" -> normalize user_input <> "exit" ->
  fst (handle_command' user_input s) <> Returned true.
Proof.
  intros H1 H2.
  destruct (save_conversation_returns s) as [wsave Hsave].
  unfold handle_command.
  unfold bind, get_state, lift_outcome, on_self, on_bot, modify, ret.
  case_command (normalize user_input); cbn [fst]; try discriminate;
    try (match goal with
         | |- context [match ?o with Returned _ => _ | Raised _ => _ end] =>
             destruct o; cbn [fst]; discriminate
         end).
  rewrite Hsave. discriminate.
Qed.

Lemma handle_command_clear (user_input : string) (s : machine World) :
  normalize user_input = "clear" ->
  handle_command' user_input s
  = (Returned false, (clear_history (fst s), snd s)).
Proof. intros H. unfold handle_command. rewrite H. reflexivity. Qed.

Lemma handle_command_no_url (user_input : string) (s : machine World) :
  normalize user_input = "stats" \/ normalize user_input = "config" ->
  base_url (config (fst s)) = None ->
  handle_command' user_input s = (Raised none_not_iterable, s).
Proof.
  intros Hcmd Hurl. unfold handle_command.
  destruct Hcmd as [-> | ->]; cbn [String.eqb Ascii.eqb Bool.eqb orb];
    unfold bind, get_state, lift_outcome, show_stats, show_config,
      api_label_check; cbn [fst snd]; now rewrite Hurl.
Qed.

End SessionFacts.

(** X17. [handle_command] returns [True] for [quit] and [exit] alone, and
    then changes nothing.  Only [clear] and [reset] change the chatbot:
    [clear] clears the history, [reset] leaves the chatbot of
    [reset_chatbot]; no command but [save] acts on the world.  With a
    configuration that has no base URL, [stats] and [config] raise a
    [TypeError]; the other commands that can raise are [tools],
    [tool-details] and [reset], which render texts of the tools or of
    discovery as markup. *)
Theorem handle_command_effects :
  forall (World : Type) (markup_error : string -> list string -> option exn)
         (normalize : string -> string)
         (tools_dir : option (list (plugin_file World)))
         (write_conversation : ChatBot World -> Py World unit)
         (user_input : string) (s : machine World),
    let cmd := normalize user_input in
    let r := handle_command markup_error normalize tools_dir
               write_conversation user_input s in
    ((cmd = "quit" \/ cmd = "exit") -> r = (Returned true, s))
    /\ (cmd <> "quit" -> cmd <> "exit" -> fst r <> Returned true)
    /\ (cmd <> "clear" -> cmd <> "reset" -> fst (snd r) = fst s)
    /\ (cmd = "clear" -> r = (Returned false, (clear_history (fst s), snd s)))
    /\ (cmd = "reset" ->
        fst (snd r) = snd (reset_chatbot markup_error tools_dir (fst s)))
    /\ (cmd <> "save" -> snd (snd r) = snd s)
    /\ ((cmd = "stats" \/ cmd = "config") ->
        base_url (config (fst s)) = None ->
        fst r = Raised none_not_iterable)
    /\ ((exists e, fst r = Raised e) ->
        cmd = "tools" \/ cmd = "tool-details" \/ cmd = "stats"
        \/ cmd = "config" \/ cmd = "reset").
Proof.
  intros World markup_error normalize tools_dir write_conversation
    user_input s cmd r.
  destruct (save_conversation_returns write_conversation s) as [wsave Hsave].
  subst r. unfold handle_command. fold cmd.
  unfold bind, get_state, lift_outcome, on_self, on_bot, modify, ret.
  destruct s as [self w]. cbn [fst snd] in *.
  split; [|split; [|split; [|split; [|split; [|split; [|split]]]]]].
  - intros [-> | ->]; reflexivity.
  - intros H1 H2. case_command cmd; cbn [fst]; try discriminate;
      try (match goal with
           | |- context [match ?o with Returned _ => _ | Raised _ => _ end] =>
               destruct o; cbn [fst]; discriminate
           end).
    rewrite Hsave. discriminate.
  - intros H1 H2. case_command cmd; cbn [fst snd]; try reflexivity;
      try (match goal with
           | |- context [match ?o with Returned _ => _ | Raised _ => _ end] =>
               destruct o; reflexivity
           end).
    now rewrite Hsave.
  - intros ->. reflexivity.
  - intros ->. cbn [String.eqb Ascii.eqb Bool.eqb orb fst snd].
    destruct (fst (reset_chatbot markup_error tools_dir self)); reflexivity.
  - intros H1. case_command cmd; cbn [fst snd]; try reflexivity;
      match goal with
      | |- context [match ?o with Returned _ => _ | Raised _ => _ end] =>
          destruct o; reflexivity
      end.
  - intros [-> | ->] Hurl; cbn [String.eqb Ascii.eqb Bool.eqb orb fst snd];
      unfold show_stats, show_config, api_label_check; cbn [fst snd];
      now rewrite Hurl.
  - intros [e He]. revert He. case_command cmd; cbn [fst]; try discriminate;
      try tauto.
    rewrite Hsave. discriminate.
Qed.

Lemma handle_command_effects_witness :
  SimSession.handle "quit" (Sim.bot, Sim.idle)
  = (Returned true, (Sim.bot, Sim.idle))
  /\ fst (SimSession.handle "clear" (Sim.bot, Sim.idle)) <> Returned true
  /\ fst (snd (SimSession.handle "help" (Sim.bot, Sim.idle))) = Sim.bot
  /\ snd (snd (SimSession.handle "reset" (Sim.bot, Sim.idle))) = Sim.idle
  /\ fst (SimSession.handle "stats" (Sim.bot, Sim.idle))
     = Raised none_not_iterable.
Proof.
  pose proof (fun c => handle_command_effects Sim.world Sim.markup_error
                SimSession.normalize SimSession.tools_dir
                SimSession.write_conversation c (Sim.bot, Sim.idle)) as H.
  cbv zeta in H. unfold SimSession.normalize in H.
  destruct (H "quit") as (Hquit & _).
  destruct (H "clear") as (_ & Hclear & _).
  destruct (H "help") as (_ & _ & Hhelp & _).
  destruct (H "reset") as (_ & _ & _ & _ & _ & Hreset & _).
  destruct (H "stats") as (_ & _ & _ & _ & _ & _ & Hstats & _).
  split; [exact (Hquit (or_introl eq_refl))|].
  split; [apply Hclear; discriminate|].
  split; [apply Hhelp; discriminate|].
  split; [apply Hreset; discriminate|].
  exact (Hstats (or_introl eq_refl) eq_refl).
Defined.

(** X18. In the loop of [run], a command other than [quit] and [exit] is
    not consumed by [handle_command]: when the command returns, the same
    input is sent to the model as a chat message, the user message of the
    turn follows the transcript that the command left, and the loop goes on
    with the next input if [chat] returns and ends with its exception
    otherwise; when the command raises, the loop ends with that exception.
    After [clear], the transcript is therefore not left at the system
    message: the text of the command follows it as a user message. *)
Theorem run_loop_chats_commands :
  forall (World : Type) (markup_error : string -> list string -> option exn)
         (duplicate_argument : string -> exn)
         (json_loads : string -> outcome json)
         (create : request -> Py World ChatCompletion)
         (interp_error : json -> exn) (py_str : json -> string)
         (normalize : string -> string)
         (tools_dir : option (list (plugin_file World)))
         (write_conversation : ChatBot World -> Py World unit)
         (user_input : string) (rest : list string) (s : machine World),
    user_input <> "" ->
    normalize user_input <> "quit" ->
    normalize user_input <> "exit" ->
    let handled := handle_command markup_error normalize tools_dir
                     write_conversation user_input s in
    let turn := chat markup_error duplicate_argument json_loads create
                  interp_error py_str user_input (snd handled) in
    let loop := run_loop markup_error duplicate_argument json_loads create
                  interp_error py_str normalize tools_dir write_conversation in
    (forall e, fst handled = Raised e ->
               loop (user_input :: rest) s = (Raised e, snd handled))
    /\ (forall b, fst handled = Returned b ->
          loop (user_input :: rest) s
          = match fst turn with
            | Returned _ => loop rest (snd turn)
            | Raised e => (Raised e, snd turn)
            end)
    /\ (exists suffix,
          conversation_history (fst (snd turn))
          = (conversation_history (fst (snd handled))
             ++ plain_message "user" (Some user_input) :: suffix)%list)
    /\ (normalize user_input = "clear" ->
        handled = (Returned false, (clear_history (fst s), snd s))
        /\ exists suffix,
             conversation_history (fst (snd turn))
             = plain_message "system" (Some (system_prompt (config (fst s))))
               :: plain_message "user" (Some user_input) :: suffix).
Proof.
  intros World markup_error duplicate_argument json_loads create interp_error
    py_str normalize tools_dir write_conversation user_input rest s
    Hne Hquit Hexit handled turn loop.
  assert (Hturn : forall s1 : machine World,
             exists suffix,
               conversation_history
                 (fst (snd (chat markup_error duplicate_argument json_loads
                              create interp_error py_str user_input s1)))
               = (conversation_history (fst s1)
                  ++ plain_message "user" (Some user_input) :: suffix)%list).
  { intros [self1 w1].
    destruct (chat_appends markup_error duplicate_argument json_loads create
                interp_error py_str user_input self1 w1)
      as (o & suffix & w' & Hchat & _).
    exists suffix. now rewrite Hchat. }
  pose proof (handle_command_not_quit markup_error normalize tools_dir
                write_conversation user_input s Hquit Hexit) as Hfalse.
  pose proof (handle_command_clear markup_error normalize tools_dir
                write_conversation user_input s) as Hclear.
  fold handled in Hfalse, Hclear.
  pose proof (run_loop_step markup_error duplicate_argument json_loads create
                interp_error py_str normalize tools_dir write_conversation
                user_input rest s Hne) as Hstep.
  fold handled loop in Hstep.
  split; [|split; [|split]].
  - intros e He. rewrite Hstep. destruct handled as [o s1].
    cbn [fst snd] in *. now subst o.
  - intros b Hb. rewrite Hstep. subst turn. destruct handled as [o s1].
    cbn [fst snd] in *. subst o. destruct b; [now contradiction Hfalse|].
    now destruct (chat _ _ _ _ _ _ user_input s1) as [[text|e] s2].
  - apply Hturn.
  - intros Hcmd. specialize (Hclear Hcmd). split; [exact Hclear|].
    subst turn. rewrite Hclear. cbn [snd].
    destruct (Hturn (clear_history (fst s), snd s)) as [suffix Hs].
    exists suffix. exact Hs.
Qed.

Lemma run_loop_chats_commands_witness :
  map (fun m => (role m, content m))
    (conversation_history
       (fst (snd (SimSession.loop ["clear"]
                    (Sim.bot,
                     {| Sim.script := [Sim.answers (Some "Cleared?") None];
                        Sim.executed := [] |})))))
  = [("system", Some "You are a helpful assistant.");
     ("user", Some "clear");
     ("assistant", Some "Cleared?")].
Proof.
  assert (Hne : "clear" <> "") by discriminate.
  assert (Hquit : SimSession.normalize "clear" <> "quit") by discriminate.
  assert (Hexit : SimSession.normalize "clear" <> "exit") by discriminate.
  destruct (run_loop_chats_commands Sim.world Sim.markup_error
              Sim.duplicate_argument Sim.json_loads Sim.create
              Sim.interp_error Sim.py_str SimSession.normalize
              SimSession.tools_dir SimSession.write_conversation
              "clear" []
              (Sim.bot,
               {| Sim.script := [Sim.answers (Some "Cleared?") None];
                  Sim.executed := [] |}) Hne Hquit Hexit)
    as (_ & Hrun & _).
  unfold SimSession.loop. rewrite (Hrun false eq_refl). reflexivity.
Defined.

(** X19. With a configuration that has no base URL, the commands [stats]
    and [config] end the session: the exception that they raise leaves the
    loop of [run], the inputs that follow are not read, and the chatbot is
    as discovery left it; [run] ends as discovery did. *)
Theorem stats_without_base_url_ends_run :
  forall (World : Type) (markup_error : string -> list string -> option exn)
         (duplicate_argument : string -> exn)
         (json_loads : string -> outcome json)
         (create : request -> Py World ChatCompletion)
         (interp_error : json -> exn) (py_str : json -> string)
         (normalize : string -> string)
         (tools_dir : option (list (plugin_file World)))
         (write_conversation : ChatBot World -> Py World unit)
         (user_input : string) (rest : list string)
         (self : ChatBot World) (w : World),
    user_input <> "" ->
    normalize user_input = "stats" \/ normalize user_input = "config" ->
    base_url (config self) = None ->
    let discovered := bot_auto_discover_tools markup_error tools_dir self in
    run markup_error duplicate_argument json_loads create interp_error py_str
      normalize tools_dir write_conversation (user_input :: rest) (self, w)
    = (fst discovered, (snd discovered, w)).
Proof.
  intros World markup_error duplicate_argument json_loads create interp_error
    py_str normalize tools_dir write_conversation user_input rest self w
    Hne Hcmd Hurl discovered.
  destruct (bot_auto_discover_tools_frame markup_error tools_dir self)
    as (_ & _ & Hcfg).
  fold discovered in Hcfg. cbv zeta in Hcfg.
  unfold run. unfold bind at 1, on_bot at 1. cbn [fst snd].
  fold discovered. destruct discovered as [[[]|e] self1]; [|reflexivity].
  cbn [fst snd] in *. unfold try_except.
  rewrite (run_loop_step markup_error duplicate_argument json_loads create
             interp_error py_str normalize tools_dir write_conversation
             user_input rest (self1, w) Hne).
  rewrite (handle_command_no_url markup_error normalize tools_dir
             write_conversation user_input (self1, w) Hcmd);
    [|cbn [fst]; now rewrite Hcfg].
  unfold lift_outcome. now rewrite console_print_none_not_iterable.
Qed.

Lemma stats_without_base_url_ends_run_witness :
  base_url (config Sim.bot) = None
  /\ SimSession.session ["stats"; "2+2?"]
       (Sim.bot, {| Sim.script := [Sim.answers (Some "4") None];
                    Sim.executed := [] |})
     = (Returned tt,
        (snd (bot_auto_discover_tools Sim.markup_error SimSession.tools_dir
                Sim.bot),
         {| Sim.script := [Sim.answers (Some "4") None];
            Sim.executed := [] |})).
Proof.
  assert (Hne : "stats" <> "") by discriminate.
  split; [reflexivity|].
  exact (stats_without_base_url_ends_run Sim.world Sim.markup_error
           Sim.duplicate_argument Sim.json_loads Sim.create
           Sim.interp_error Sim.py_str SimSession.normalize
           SimSession.tools_dir SimSession.write_conversation
           "stats" ["2+2?"] Sim.bot _ Hne (or_introl eq_refl) eq_refl).
Defined.

(** X20. [save_conversation] never raises and never changes the chatbot.
    With a configuration that has no base URL it writes nothing: building
    the data fails before the file is opened.  With a base URL its only
    effect is that of writing the file, whether that succeeds or not. *)
Theorem save_conversation_effects :
  forall (World : Type) (write_conversation : ChatBot World -> Py World unit)
         (self : ChatBot World) (w : World),
    (base_url (config self) = None ->
     save_conversation write_conversation (self, w)
     = (Returned tt, (self, w)))
    /\ (forall url, base_url (config self) = Some url ->
          save_conversation write_conversation (self, w)
          = (Returned tt, (self, snd (write_conversation self w)))).
Proof.
  intros World write_conversation self w.
  unfold save_conversation, try_except, bind, get_state, lift_outcome,
    api_label_check, on_world, ret. cbn [fst snd].
  split.
  - intros ->. reflexivity.
  - intros url ->.
    destruct (write_conversation self w) as [[[]|e] w']; reflexivity.
Qed.

Lemma save_conversation_effects_witness :
  save_conversation SimSession.write_conversation (Sim.bot, Sim.idle)
  = (Returned tt, (Sim.bot, Sim.idle))
  /\ Sim.executed
       (snd (snd (save_conversation SimSession.write_conversation
                    (new_chatbot SimSession.router_cfg, Sim.idle))))
     = ["save"].
Proof.
  destruct (save_conversation_effects Sim.world SimSession.write_conversation
              Sim.bot Sim.idle) as [Hnone _].
  destruct (save_conversation_effects Sim.world SimSession.write_conversation
              (new_chatbot SimSession.router_cfg) Sim.idle) as [_ Hsome].
  split; [exact (Hnone eq_refl)|].
  rewrite (Hsome _ eq_refl). reflexivity.
Defined.

(** X21. [Config.from_env] prefers the OpenRouter key: when it is set the
    configuration has that key and the OpenRouter URL; otherwise, when the
    OpenAI key is set, it has that key and no base URL; when neither is
    set, or set to the empty text, it raises a [ValueError].  A value of
    [MAX_TOKENS] that is not an integer makes it raise as well. *)
Theorem from_env_cases :
  forall (getenv : string -> option string)
         (parse_int : string -> outcome Z)
         (parse_float : string -> outcome string)
         (default_system_prompt : string),
    let r := from_env getenv parse_int parse_float default_system_prompt in
    let or_set := is_set (getenv "OPENROUTER_API_KEY") in
    let oa_set := is_set (getenv "OPENAI_API_KEY") in
    (or_set = false -> oa_set = false ->
     r = Raised (ValueError "Set OPENROUTER_API_KEY or OPENAI_API_KEY in .env"))
    /\ (forall cfg, r = Returned cfg -> or_set = true ->
          base_url cfg = Some "https://openrouter.ai/api/v1"
          /\ getenv "OPENROUTER_API_KEY" = Some (api_key cfg))
    /\ (forall cfg, r = Returned cfg -> or_set = false ->
          oa_set = true
          /\ base_url cfg = None
          /\ getenv "OPENAI_API_KEY" = Some (api_key cfg))
    /\ (forall e, or_set = true \/ oa_set = true ->
          parse_int (getenv_or getenv "MAX_TOKENS" "1000") = Raised e ->
          r = Raised e).
Proof.
  intros getenv parse_int parse_float default_system_prompt r or_set oa_set.
  subst r or_set oa_set. unfold from_env, from_env_with, getenv_or.
  split; [|split; [|split]].
  - intros -> ->. reflexivity.
  - intros cfg Hr Hor. rewrite Hor in Hr.
    destruct (getenv "OPENROUTER_API_KEY") as [k|]; [|discriminate].
    destruct (parse_int _); [|discriminate].
    destruct (parse_float _); [|discriminate].
    injection Hr as <-. now split.
  - intros cfg Hr Hor. rewrite Hor in Hr.
    destruct (is_set (getenv "OPENAI_API_KEY")) eqn:Hoa; [|discriminate].
    destruct (getenv "OPENAI_API_KEY") as [k|]; [|discriminate].
    destruct (parse_int _); [|discriminate].
    destruct (parse_float _); [|discriminate].
    injection Hr as <-. now repeat split.
  - intros e Hset Hint. rewrite Hint.
    destruct (is_set (getenv "OPENROUTER_API_KEY")); [reflexivity|].
    destruct Hset as [H|H]; [discriminate|]. now rewrite H.
Qed.

Lemma from_env_cases_witness :
  from_env SimSession.openai_env SimSession.parse_int SimSession.parse_float
    "You are a helpful assistant."
  = Returned Sim.cfg
  /\ base_url Sim.cfg = None.
Proof.
  destruct (from_env_cases SimSession.openai_env SimSession.parse_int
              SimSession.parse_float "You are a helpful assistant.")
    as (_ & _ & Hoa & _).
  split; [reflexivity|].
  exact (proj1 (proj2 (Hoa Sim.cfg eq_refl eq_refl))).
Defined.

(** X22. With a configuration that has no base URL, which is what
    [Config.from_env] gives for an OpenAI key, [run_chatbot] does not
    reach [bot.run]: it returns at once, whatever the user would type, with
    no discovery and no turn. *)
Theorem run_chatbot_needs_base_url :
  forall (World : Type) (markup_error : string -> list string -> option exn)
         (duplicate_argument : string -> exn)
         (json_loads : string -> outcome json)
         (create : request -> Py World ChatCompletion)
         (interp_error : json -> exn) (py_str : json -> string)
         (normalize : string -> string)
         (tools_dir : option (list (plugin_file World)))
         (write_conversation : ChatBot World -> Py World unit)
         (getenv : string -> option string)
         (parse_int : string -> outcome Z)
         (parse_float : string -> outcome string)
         (default_system_prompt : string)
         (inputs : list string) (w : World),
    (forall self : ChatBot World,
       base_url (config self) = None ->
       run_chatbot markup_error duplicate_argument json_loads create
         interp_error py_str normalize tools_dir write_conversation inputs
         (self, w)
       = (Returned tt, (self, w)))
    /\ (forall cfg,
          from_env getenv parse_int parse_float default_system_prompt
          = Returned cfg ->
          is_set (getenv "OPENROUTER_API_KEY") = false ->
          run_chatbot markup_error duplicate_argument json_loads create
            interp_error py_str normalize tools_dir write_conversation inputs
            (new_chatbot cfg, w)
          = (Returned tt, (new_chatbot cfg, w))).
Proof.
  intros World markup_error duplicate_argument json_loads create interp_error
    py_str normalize tools_dir write_conversation getenv parse_int parse_float
    default_system_prompt inputs w.
  assert (Hnone : forall self : ChatBot World,
             base_url (config self) = None ->
             run_chatbot markup_error duplicate_argument json_loads create
               interp_error py_str normalize tools_dir write_conversation
               inputs (self, w)
             = (Returned tt, (self, w))).
  { intros self Hurl.
    unfold run_chatbot, try_except, bind, get_state, lift_outcome,
      api_label_check. cbn [fst snd]. rewrite Hurl.
    now rewrite console_print_none_not_iterable. }
  split; [exact Hnone|].
  intros cfg Henv Hor. apply Hnone. cbn [new_chatbot config].
  revert Henv. unfold from_env, from_env_with. rewrite Hor.
  destruct (is_set (getenv "OPENAI_API_KEY")); [|discriminate].
  destruct (parse_int _); [|discriminate].
  destruct (parse_float _); [|discriminate].
  now intros [= <-].
Qed.

Lemma run_chatbot_needs_base_url_witness :
  run_chatbot Sim.markup_error Sim.duplicate_argument Sim.json_loads
    Sim.create Sim.interp_error Sim.py_str SimSession.normalize
    SimSession.tools_dir SimSession.write_conversation ["2+2?"; "quit"]
    (new_chatbot Sim.cfg,
     {| Sim.script := [Sim.answers (Some "4") None]; Sim.executed := [] |})
  = (Returned tt,
     (new_chatbot Sim.cfg,
      {| Sim.script := [Sim.answers (Some "4") None]; Sim.executed := [] |})).
Proof.
  destruct (run_chatbot_needs_base_url Sim.world Sim.markup_error
              Sim.duplicate_argument Sim.json_loads Sim.create
              Sim.interp_error Sim.py_str SimSession.normalize
              SimSession.tools_dir SimSession.write_conversation
              SimSession.openai_env SimSession.parse_int SimSession.parse_float
              "You are a helpful assistant." ["2+2?"; "quit"]
              {| Sim.script := [Sim.answers (Some "4") None];
                 Sim.executed := [] |}) as [_ Henv].
  exact (Henv Sim.cfg eq_refl eq_refl).
Defined.
